(** * Los Banditos price updater: a shallow embedding of

      - [src/scripts/fetch_prices.py]  (fetch, merge, write JSON, update index.html)
      - [src/fetch_prices.py]          (the earlier variant: fetch, merge, write JSON,
                                        plus [fetch_fx_rate])

    Python values are modelled by the inductive type [pyval], exceptions by an
    error monad, the console, the network and the two files by a trace of
    events.  Python [float]s are IEEE binary64 numbers ([spec_float] at
    precision 53); a [str] is a list of characters.  A run is modelled from
    [main()] on, that is with AV_API_KEY set.  The two files are opened in
    text mode: index.html is given by the characters it stores, which
    [f.read()] returns with every line end turned into a line feed and
    [f.write] stores after encoding them; a file that cannot be opened or
    decoded raises, and only the exceptions the code names are caught. *)

From Stdlib Require Import Ascii String ZArith Bool Lia Arith List Permutation Sorted.
From Stdlib Require Import Floats.SpecFloat Numbers.DecimalString.
Import ListNotations.

Set Implicit Arguments.
Set Warnings "-register-all".

Local Open Scope Z_scope.

(* ================================================================== *)
(** ** Strings *)

(** A Python [str]: a sequence of characters. *)
Definition str := list ascii.

(** A string literal of the source. *)
Definition lit (s : string) : str := list_ascii_of_string s.

Definition LF : ascii := ascii_of_nat 10.
Definition backslash : ascii := ascii_of_nat 92.
Definition CR : ascii := ascii_of_nat 13.

Definition str_eqb (a b : str) : bool :=
  if list_eq_dec ascii_dec a b then true else false.

(** [s.startswith(p)] *)
Fixpoint prefixb (p s : str) : bool :=
  match p, s with
  | [], _ => true
  | _ :: _, [] => false
  | a :: p', b :: s' => Ascii.eqb a b && prefixb p' s'
  end.

(** [p in s] for two strings: substring test. *)
Fixpoint substrb (p s : str) : bool :=
  prefixb p s || match s with [] => false | _ :: s' => substrb p s' end.

(** Python compares strings lexicographically by code point. *)
Fixpoint str_compare (a b : str) : comparison :=
  match a, b with
  | [], [] => Eq
  | [], _ :: _ => Lt
  | _ :: _, [] => Gt
  | x :: a', y :: b' =>
      match Nat.compare (nat_of_ascii x) (nat_of_ascii y) with
      | Eq => str_compare a' b'
      | c => c
      end
  end.

(** [a <= b] and [a >= b] on strings. *)
Definition str_leb (a b : str) : bool :=
  match str_compare a b with Gt => false | _ => true end.
Definition str_geb (a b : str) : bool := str_leb b a.

(** ["sep".join(lines)] *)
Fixpoint join (sep : str) (lines : list str) : str :=
  match lines with
  | [] => []
  | [l] => l
  | l :: rest => l ++ sep ++ join sep rest
  end.

(* ================================================================== *)
(** ** Python floats: IEEE 754 binary64 *)

Module PyFloat.

Definition prec : Z := 53.
Definition emax : Z := 1024.

Definition float := spec_float.

Definition fsub : float -> float -> float := SFsub prec emax.
Definition fmul : float -> float -> float := SFmul prec emax.
Definition fdiv : float -> float -> float := SFdiv prec emax.

(** [x == 0.0] : true of both signed zeros. *)
Definition is_zero (x : float) : bool :=
  match x with S754_zero _ => true | _ => false end.

(** The float nearest to the integer [z] (ties to even); an infinity when
    [z] is out of range. *)
Definition of_Z (z : Z) : float := binary_normalize prec emax z 0 false.

(** The float nearest to the rational [n / d], [d > 0]. *)
Definition of_ratio (neg : bool) (n d : positive) : float :=
  SFdiv prec emax (S754_finite neg n 0) (S754_finite false d 0).

(** The float a decimal literal [m * 10^e] denotes, as in the source
    text [115.48] = [of_decimal 11548 (-2)]. *)
Definition of_decimal (m e : Z) : float :=
  match m with
  | Z0 => S754_zero false
  | Zpos p =>
      match e with
      | Zneg k => of_ratio false p (Pos.pow 10 k)
      | _ => of_Z (m * 10 ^ e)
      end
  | Zneg p =>
      match e with
      | Zneg k => of_ratio true p (Pos.pow 10 k)
      | _ => of_Z (m * 10 ^ e)
      end
  end.

(** Round the non-negative rational [n / d] to the nearest integer, ties
    to even. *)
Definition round_half_even (n d : Z) : Z :=
  let q := n / d in
  let r := n mod d in
  match Z.compare (2 * r) d with
  | Lt => q
  | Gt => q + 1
  | Eq => if Z.even q then q else q + 1
  end.

(** [round(x, 2)]: CPython prints [x] correctly rounded to two decimals
    (ties of the exact binary value go to even) and reads the decimal
    back; infinities and nans round to themselves. *)
Definition round2 (x : float) : float :=
  match x with
  | S754_finite s m e =>
      let hundredths :=
        match e with
        | Zneg k => round_half_even (Zpos m * 100) (Zpos (Pos.pow 2 k))
        | _ => Zpos m * 2 ^ e * 100
        end in
      match hundredths with
      | Zpos h => of_ratio s h 100
      | _ => S754_zero s
      end
  | _ => x
  end.

End PyFloat.
Import PyFloat.

(* ================================================================== *)
(** ** Python values, exceptions, and the trace of effects *)

(** What [json.load] returns, and what the program builds from it. *)
Inductive pyval : Type :=
| PNone
| PBool (b : bool)
| PInt (z : Z)
| PFloat (f : float)
| PStr (s : str)
| PList (l : list pyval)
| PDict (d : list (str * pyval)).

(** A Python [dict] keeps its keys in insertion order: an association list
    whose keys are distinct. *)
Definition dict (V : Type) := list (str * V).

Fixpoint dict_get {V} (d : dict V) (k : str) : option V :=
  match d with
  | [] => None
  | (k', v) :: d' => if str_eqb k' k then Some v else dict_get d' k
  end.

(** [d[k] = v]: an existing key keeps its place, a new one goes last. *)
Fixpoint dict_set {V} (d : dict V) (k : str) (v : V) : dict V :=
  match d with
  | [] => [(k, v)]
  | (k', v') :: d' =>
      if str_eqb k' k then (k', v) :: d' else (k', v') :: dict_set d' k v
  end.

Definition keys {V} (d : dict V) : list str := map fst d.

Inductive exn :=
| AttributeError | TypeError | KeyError | ValueError | ZeroDivisionError
| OverflowError | IndexError | ReError
| URLError   (** whatever [urlopen], [read], [decode] or [json.loads] raise *)
| UnicodeDecodeError | UnicodeEncodeError
| OSError.   (** [PermissionError], [IsADirectoryError] and the like *)

Inductive result (A : Type) : Type :=
| Ok (a : A)
| Raise (e : exn).
Arguments Ok {A} a.
Arguments Raise {A} e.

Definition rbind {A B} (r : result A) (f : A -> result B) : result B :=
  match r with Ok a => f a | Raise e => Raise e end.

(** Lines printed to the console, by the statement that prints them. *)
Inductive message :=
| MsgBanner                                   (* "Los Banditos Price Updater" and the rule *)
| MsgFetching (symbol : str)                  (* "  Fetching {symbol}..." *)
| MsgNoData (symbol : str) (why : pyval)      (* "  WARNING: No data for ..." *)
| MsgErrorFetching (symbol : str) (e : exn)   (* "  ERROR fetching ..." *)
| MsgUsingCached (ticker : str)               (* "  Using cached data for ..." *)
| MsgSkipping (ticker : str)                  (* "  No data available for ..., skipping" *)
| MsgPrice (ticker : str) (p0 latest ytd : float) (days : nat)
| MsgNoYtd (ticker : str)                     (* "  ...: No YTD data found" *)
| MsgWritten                                  (* "Written to {out_path}" *)
| MsgUpdatedEmbedded                          (* "  Updated embedded PRICES in index.html" *)
| MsgNoBlock                                  (* "  WARNING: Could not find PRICES block in index.html" *)
| MsgNoHtml                                   (* "  WARNING: index.html not found, skipping embedded update" *)
| MsgDone (updated : str)                     (* "Done! Updated: ..." / "Updated: ..." *)
| MsgFetchingFx                               (* "  Fetching EUR/USD rate..." *)
| MsgFxRate (rate : float)                    (* "  EUR/USD = {rate}" *)
| MsgFxWarning (e : exn).                     (* "  WARNING: Could not fetch FX rate: ..." *)

Inductive endpoint :=
| TimeSeriesDaily (symbol : str)
| CurrencyExchangeRate.

(** What a run does to the outside world, in order. *)
Inductive event :=
| Print (m : message)
| Request (q : endpoint)          (* one HTTP GET against the provider *)
| Sleep (seconds : Z)             (* [time.sleep] *)
| WriteJson (snapshot : pyval)    (* [json.dump] to data/prices.json *)
| WriteHtml (text : str).         (* [f.write(html)] to index.html *)

(** A computation that leaves a trace and returns or raises. *)
Definition M (A : Type) : Type := (list event * result A)%type.

Definition ret {A} (a : A) : M A := ([], Ok a).
Definition emit (e : event) : M unit := ([e], Ok tt).
Definition lift {A} (r : result A) : M A := ([], r).
Definition bind {A B} (m : M A) (f : A -> M B) : M B :=
  match m with
  | (t, Ok a) => let '(t', r) := f a in (t ++ t', r)
  | (t, Raise e) => (t, Raise e)
  end.

Declare Scope py_scope.
Delimit Scope py_scope with py.
Notation "x <- m ;; k" := (bind m (fun x => k))
  (at level 61, m at next level, right associativity) : py_scope.
Notation "m ;;; k" := (bind m (fun _ => k))
  (at level 61, right associativity) : py_scope.
Notation "x <~ r ;; k" := (rbind r (fun x => k))
  (at level 61, r at next level, right associativity) : py_scope.

(** The built-in conversions the program calls and does not define. *)
Class PyBuiltins := {
  (** [float(s)] for a [str]; [None] is [ValueError] *)
  float_of_str : str -> option float;
  (** [str(v)] for a float, a list or a dict *)
  py_repr : pyval -> str;
  (** [json.dumps(v, separators=(",", ":"))] *)
  json_dumps : pyval -> str;
  (** whether the locale's encoding, with which [open] writes a text file,
      can represent every character of a text *)
  encodable : str -> bool
}.

(* ================================================================== *)
(** ** The Python operations the program uses *)

Definition is_none (v : pyval) : bool :=
  match v with PNone => true | _ => false end.

(** Truth value of an object, as [existing and ...], [if daily:] test it. *)
Definition py_truthy (v : pyval) : bool :=
  match v with
  | PNone => false
  | PBool b => b
  | PInt z => negb (z =? 0)
  | PFloat f => negb (is_zero f)
  | PStr s => match s with [] => false | _ => true end
  | PList l => match l with [] => false | _ => true end
  | PDict d => match d with [] => false | _ => true end
  end.

(** [k in obj] for a string [k]. *)
Definition py_contains (obj : pyval) (k : str) : result bool :=
  match obj with
  | PDict d => Ok (match dict_get d k with Some _ => true | None => false end)
  | PList l =>
      Ok (existsb (fun v => match v with PStr s => str_eqb s k | _ => false end) l)
  | PStr s => Ok (substrb k s)
  | _ => Raise TypeError
  end.

(** [obj[k]] for a string [k]. *)
Definition py_getitem (obj : pyval) (k : str) : result pyval :=
  match obj with
  | PDict d => match dict_get d k with Some v => Ok v | None => Raise KeyError end
  | _ => Raise TypeError
  end.

(** [obj.get(k, default)] *)
Definition py_get (obj : pyval) (k : str) (default : pyval) : result pyval :=
  match obj with
  | PDict d => Ok (match dict_get d k with Some v => v | None => default end)
  | _ => Raise AttributeError
  end.

(** [obj.items()] *)
Definition py_items (obj : pyval) : result (dict pyval) :=
  match obj with
  | PDict d => Ok d
  | _ => Raise AttributeError
  end.

(** [float(v)] *)
Definition py_float `{PyBuiltins} (v : pyval) : result float :=
  match v with
  | PFloat f => Ok f
  | PInt z =>
      match of_Z z with
      | S754_infinity _ => Raise OverflowError
      | f => Ok f
      end
  | PBool b => Ok (of_Z (if b then 1 else 0))
  | PStr s => match float_of_str s with Some f => Ok f | None => Raise ValueError end
  | _ => Raise TypeError
  end.

Definition str_of_Z (z : Z) : str :=
  lit (DecimalString.NilZero.string_of_int (Z.to_int z)).

(** [str(v)], as an f-string formats a value. *)
Definition py_str `{PyBuiltins} (v : pyval) : str :=
  match v with
  | PStr s => s
  | PNone => lit "None"
  | PBool true => lit "True"
  | PBool false => lit "False"
  | PInt z => str_of_Z z
  | _ => py_repr v
  end.

(** [sorted(items)] for pairs with distinct string keys: by key. *)
Fixpoint insert_by_key {V} (kv : str * V) (l : dict V) : dict V :=
  match l with
  | [] => [kv]
  | h :: t =>
      match str_compare (fst h) (fst kv) with
      | Lt => h :: insert_by_key kv t
      | _ => kv :: l
      end
  end.
Definition sorted {V} (items : dict V) : dict V :=
  fold_right insert_by_key [] items.

(** [max(ks)] of a non-empty sequence of strings: the first greatest one. *)
Definition py_max (ks : list str) : option str :=
  match ks with
  | [] => None
  | k :: rest =>
      Some (fold_left (fun best x => if str_leb x best then best else x) rest k)
  end.

(* ================================================================== *)
(** ** Configuration (both files) *)

Record stock := {
  ticker : str;
  av_symbol : str;
  p0 : float;
  currency : str;
  note : option str
}.

Definition START_DATE : str := lit "2026-01-02".

(** What the provider answers to one request: [NetError] stands for any
    exception out of [urlopen], [read], [decode] or [json.loads]; otherwise
    the parsed body. *)
Inductive response :=
| NetError
| Payload (data : pyval).

(** data/prices.json as [load_existing] finds it. *)
Inductive json_file :=
| NoFile              (* FileNotFoundError *)
| Corrupt             (* json.JSONDecodeError *)
| Unreadable (e : exn)
    (* any other exception out of [open] or [json.load]: UnicodeDecodeError
       for bytes that are no text in the locale's encoding, PermissionError,
       ... *)
| Parsed (v : pyval).

(** [load_existing()]: the two exceptions of its [except] clause give
    [None]; every other one leaves the function. *)
Definition load_existing (f : json_file) : result pyval :=
  match f with
  | Parsed v => Ok v
  | NoFile | Corrupt => Ok PNone
  | Unreadable e => Raise e
  end.

(** index.html as [open(html_path, "r")] and [f.read()] find it. *)
Inductive html_file :=
| NoHtml              (* FileNotFoundError *)
| BadHtml (e : exn)
    (* any other exception out of [open] or [read] *)
| Html (stored : str).
    (* the characters of the file, its line ends as they are stored *)

(** What [f.read()] returns for a file opened in text mode with the default
    [newline=None]: each line end of the file, be it CR LF, a lone CR or
    LF, comes back as LF. *)
Fixpoint universal_newlines (s : str) : str :=
  match s with
  | [] => []
  | c :: rest =>
      if Ascii.eqb c CR then
        LF :: match rest with
              | d :: rest' =>
                  if Ascii.eqb d LF then universal_newlines rest'
                  else universal_newlines rest
              | [] => []
              end
      else c :: universal_newlines rest
  end.

Definition DQ : ascii := ascii_of_nat 34.

Section Program.
Context `{PyBuiltins}.
Local Open Scope py_scope.

(* -------------------------------------------------------------- *)
(** *** Merge and derive: the part of [main] both files share *)

(** Lines 127-130 of scripts/fetch_prices.py, 132-136 of fetch_prices.py:
    the loop over [sorted(ts.items())] that fills [daily]. *)
Fixpoint extract_daily (items : dict pyval) (daily : dict float)
  : result (dict float) :=
  match items with
  | [] => Ok daily
  | (date_str, values) :: rest =>
      if str_geb date_str START_DATE then
        close <~ py_getitem values (lit "4. close") ;;
        f <~ py_float close ;;
        extract_daily rest (dict_set daily date_str (round2 f))
      else extract_daily rest daily
  end.

(** [round((latest_price - p0) / p0 * 100, 2)] *)
Definition ytd_percent (latest_price p0 : float) : result float :=
  if is_zero p0 then Raise ZeroDivisionError
  else Ok (round2 (fmul (fdiv (fsub latest_price p0) p0) (of_Z 100))).

Definition float_dict (d : dict float) : pyval :=
  PDict (map (fun kv => (fst kv, PFloat (snd kv))) d).

(** The branch taken when [ts] is not [None], up to the entry stored
    under the ticker. *)
Definition fresh_entry (stk : stock) (ts : pyval) : M pyval :=
  items <- lift (py_items ts) ;;
  daily <- lift (extract_daily (sorted items) []) ;;
  lp <- match daily with
        | _ :: _ =>
            latest_date <- lift (match py_max (keys daily) with
                                 | Some k => Ok k
                                 | None => Raise ValueError
                                 end) ;;
            latest_price <- lift (match dict_get daily latest_date with
                                  | Some v => Ok v
                                  | None => Raise KeyError
                                  end) ;;
            ytd <- lift (ytd_percent latest_price (p0 stk)) ;;
            emit (Print (MsgPrice (ticker stk) (p0 stk) latest_price ytd
                           (length daily))) ;;;
            ret (latest_price, PFloat ytd)
        | [] =>
            emit (Print (MsgNoYtd (ticker stk))) ;;;
            ret (p0 stk, PInt 0)
        end ;;
  ret (PDict [ (lit "p0", PFloat (p0 stk));
               (lit "p1", PFloat (fst lp));
               (lit "ytd", snd lp);
               (lit "currency", PStr (currency stk));
               (lit "daily", float_dict daily) ]).

(** [existing and ticker in existing.get("stocks", {})] *)
Definition has_cached (existing : pyval) (tk : str) : result bool :=
  if py_truthy existing then
    stocks <~ py_get existing (lit "stocks") (PDict []) ;;
    py_contains stocks tk
  else Ok false.

(** [existing["stocks"][ticker]] *)
Definition cached_entry (existing : pyval) (tk : str) : result pyval :=
  stocks <~ py_getitem existing (lit "stocks") ;;
  py_getitem stocks tk.

(** The frame of the loop of [main]: for the stocks [todo], numbered from
    [i], store under each ticker what the body of the loop computes, and
    stop at the first exception. *)
Fixpoint for_each_stock (body : nat -> stock -> M pyval) (i : nat)
         (todo : list stock) (stocks : dict pyval) : M (dict pyval) :=
  match todo with
  | [] => ret stocks
  | stk :: rest =>
      entry <- body i stk ;;
      for_each_stock body (S i) rest (dict_set stocks (ticker stk) entry)
  end.

End Program.

(* ================================================================== *)
(** ** The regular expression and the replacement template of [re.sub] *)

(** The pattern [r"const PRICES = \{[\s\S]*?\n\};"] : a literal opening,
    any characters (as few as possible), a literal closing. *)
Definition open_marker : str := lit "const PRICES = {".
Definition close_marker : str := LF :: lit "};".
Arguments open_marker : simpl never.
Arguments close_marker : simpl never.

(** The lazy [[\s\S]*?\n\};] from the start of [s]: the characters taken
    before the first closing marker, and what follows that marker. *)
Fixpoint find_close (s : str) : option (str * str) :=
  match s with
  | [] => None
  | c :: s' =>
      if prefixb close_marker s then Some ([], skipn (length close_marker) s)
      else match find_close s' with
           | Some (body, post) => Some (c :: body, post)
           | None => None
           end
  end.

(** The match of the pattern that starts exactly at the start of [s]. *)
Definition match_here (s : str) : option (str * str) :=
  if prefixb open_marker s then
    match find_close (skipn (length open_marker) s) with
    | Some (body, post) => Some (open_marker ++ body ++ close_marker, post)
    | None => None
    end
  else None.

(** [re.search(pattern, html)]: the leftmost match, as
    (text before, matched text, text after). *)
Fixpoint re_search (html : str) : option (str * str * str) :=
  match match_here html with
  | Some (m, post) => Some ([], m, post)
  | None =>
      match html with
      | [] => None
      | c :: t =>
          match re_search t with
          | Some (pre, m, post) => Some (c :: pre, m, post)
          | None => None
          end
      end
  end.

Definition in_range (lo hi : nat) (c : ascii) : bool :=
  (lo <=? nat_of_ascii c)%nat && (nat_of_ascii c <=? hi)%nat.
Definition is_digit : ascii -> bool := in_range 48 57.
Definition is_octdigit : ascii -> bool := in_range 48 55.
Definition is_ascii_letter (c : ascii) : bool :=
  in_range 65 90 c || in_range 97 122 c.
Definition digit_val (c : ascii) : nat := (nat_of_ascii c - 48)%nat.

(** The one-letter escapes a replacement template knows. *)
Definition template_escape (c : ascii) : option ascii :=
  match nat_of_ascii c with
  | 97%nat => Some (ascii_of_nat 7)     (* \a *)
  | 98%nat => Some (ascii_of_nat 8)     (* \b *)
  | 102%nat => Some (ascii_of_nat 12)   (* \f *)
  | 110%nat => Some (ascii_of_nat 10)   (* \n *)
  | 114%nat => Some (ascii_of_nat 13)   (* \r *)
  | 116%nat => Some (ascii_of_nat 9)    (* \t *)
  | 118%nat => Some (ascii_of_nat 11)   (* \v *)
  | 92%nat => Some backslash            (* \\ *)
  | _ => None
  end.

(** Where the template parser stands: in plain text, or inside the name of
    a [\g<name>] reference (the characters read so far, last first). *)
Inductive tstate :=
| TText
| TName (seen : str).

(** The text a [\g<name>] stands for.  The pattern has no group of its own:
    only a decimal name of value 0, the whole match, is a valid reference. *)
Definition group_ref (name : str) (m : str) : result str :=
  match name with
  | [] => Raise ReError
  | _ => if forallb is_digit name
         then if forallb (fun c => (digit_val c =? 0)%nat) name then Ok m
              else Raise ReError
         else Raise ReError
  end.

(** [re.sub]'s processing of the replacement string [repl] for the match
    [m] (CPython 3.12's [parse_template], for a pattern without groups).
    [ReError] is the [re.error], or the [IndexError] of an unknown group
    name, the parser raises. *)
Fixpoint expand_template (st : tstate) (repl : str) (m : str) : result str :=
  match st with
  | TName seen =>
      match repl with
      | [] => Raise ReError                     (* missing >, unterminated name *)
      | c :: rest =>
          if Ascii.eqb c ">"%char then
            rbind (group_ref (rev seen) m) (fun g =>
            rbind (expand_template TText rest m) (fun out => Ok (g ++ out)))
          else expand_template (TName (c :: seen)) rest m
      end
  | TText =>
      match repl with
      | [] => Ok []
      | c :: rest =>
          if Ascii.eqb c backslash then
            match rest with
            | [] => Raise ReError               (* bad escape (end of pattern) *)
            | e :: rest1 =>
                if Ascii.eqb e "g"%char then
                  match rest1 with
                  | lt :: rest2 =>
                      if Ascii.eqb lt "<"%char
                      then expand_template (TName []) rest2 m
                      else Raise ReError        (* missing < *)
                  | [] => Raise ReError
                  end
                else if Ascii.eqb e "0"%char then
                  (* octal escape of up to three digits *)
                  match rest1 with
                  | d1 :: rest2 =>
                      if is_octdigit d1 then
                        match rest2 with
                        | d2 :: rest3 =>
                            if is_octdigit d2 then
                              rbind (expand_template TText rest3 m) (fun out =>
                              Ok (ascii_of_nat ((digit_val d1 * 8 + digit_val d2) mod 256) :: out))
                            else
                              rbind (expand_template TText rest2 m) (fun out =>
                              Ok (ascii_of_nat (digit_val d1) :: out))
                        | [] => Ok [ascii_of_nat (digit_val d1)]
                        end
                      else
                        rbind (expand_template TText rest1 m) (fun out =>
                        Ok (ascii_of_nat 0 :: out))
                  | [] => Ok [ascii_of_nat 0]
                  end
                else if is_digit e then
                  (* three octal digits are a character; anything else is a
                     reference to a group the pattern does not have *)
                  match rest1 with
                  | d2 :: d3 :: rest3 =>
                      if is_octdigit e && is_octdigit d2 && is_octdigit d3 then
                        let code := (digit_val e * 64 + digit_val d2 * 8 + digit_val d3)%nat in
                        if (255 <? code)%nat then Raise ReError
                        else rbind (expand_template TText rest3 m) (fun out =>
                             Ok (ascii_of_nat code :: out))
                      else Raise ReError
                  | _ => Raise ReError
                  end
                else
                  match template_escape e with
                  | Some x =>
                      rbind (expand_template TText rest1 m) (fun out => Ok (x :: out))
                  | None =>
                      if is_ascii_letter e then Raise ReError      (* bad escape *)
                      else rbind (expand_template TText rest1 m) (fun out =>
                           Ok (c :: e :: out))
                  end
            end
          else rbind (expand_template TText rest m) (fun out => Ok (c :: out))
      end
  end.

(** [re.sub(pattern, repl, html, count=1)] *)
Definition re_sub_first (repl html : str) : result str :=
  match re_search html with
  | Some (pre, m, post) =>
      rbind (expand_template TText repl m) (fun text => Ok (pre ++ text ++ post))
  | None =>
      rbind (expand_template TText repl []) (fun _ => Ok html)
  end.

Definition TIME_SERIES_KEY : str := lit "Time Series (Daily)".

(** The [result] object both files write to data/prices.json. *)
Definition snapshot (now : str) (stocks : dict pyval) : pyval :=
  PDict [ (lit "updated", PStr now);
          (lit "start_date", PStr START_DATE);
          (lit "stocks", PDict stocks) ].

Definition net_data (resp : response) : result pyval :=
  match resp with
  | NetError => Raise URLError
  | Payload data => Ok data
  end.

(* ================================================================== *)
(** ** src/scripts/fetch_prices.py *)

Module Scripts.
Section Scripts.
Context `{PyBuiltins}.
Local Open Scope py_scope.

Definition STOCKS : list stock :=
  [ {| ticker := lit "HOOD"; av_symbol := lit "HOOD"; p0 := of_decimal 11548 (-2);
       currency := lit "USD"; note := None |};
    {| ticker := lit "TTD";  av_symbol := lit "TTD";  p0 := of_decimal 3819 (-2);
       currency := lit "USD"; note := None |};
    {| ticker := lit "GMAB"; av_symbol := lit "GMAB"; p0 := of_decimal 3118 (-2);
       currency := lit "USD"; note := None |};
    {| ticker := lit "XXI";  av_symbol := lit "XXI";  p0 := of_decimal 885 (-2);
       currency := lit "USD"; note := None |};
    {| ticker := lit "FOUR"; av_symbol := lit "FOUR"; p0 := of_decimal 6331 (-2);
       currency := lit "USD"; note := None |};
    {| ticker := lit "DFEN"; av_symbol := lit "DFEN"; p0 := of_decimal 5249 (-2);
       currency := lit "EUR"; note := None |} ].

(** The body of the [try] of [fetch_daily], after the response is parsed. *)
Definition fetch_daily_try (symbol : str) (data : pyval) : M pyval :=
  present <- lift (py_contains data TIME_SERIES_KEY) ;;
  if negb present then
    m1 <- lift (py_get data (lit "Error Message") (PStr (lit "Unknown"))) ;;
    m2 <- lift (py_get data (lit "Information") m1) ;;
    m3 <- lift (py_get data (lit "Note") m2) ;;
    emit (Print (MsgNoData symbol m3)) ;;;
    ret PNone
  else lift (py_getitem data TIME_SERIES_KEY).

(** [fetch_daily(symbol)]: the series, or [None]; it never raises. *)
Definition fetch_daily (resp : response) (symbol : str) : M pyval :=
  emit (Print (MsgFetching symbol)) ;;;
  emit (Request (TimeSeriesDaily symbol)) ;;;
  match (data <- lift (net_data resp) ;; fetch_daily_try symbol data) with
  | (t, Ok v) => (t, Ok v)
  | (t, Raise e) => (t ++ [Print (MsgErrorFetching symbol e)], Ok PNone)
  end.

(** Lines 76-81: the four lines of one ticker. *)
Definition render_entry (tk : str) (sd : pyval) : result (list str) :=
  daily <~ py_get sd (lit "daily") (PDict []) ;;
  let daily_str := json_dumps daily in
  a <~ py_getitem sd (lit "p0") ;;
  dflt <~ py_getitem sd (lit "p0") ;;
  b <~ py_get sd (lit "p1") dflt ;;
  c <~ py_getitem sd (lit "currency") ;;
  Ok [ lit "  " ++ [DQ] ++ tk ++ [DQ] ++ lit ": {";
       lit "    " ++ [DQ] ++ lit "p0" ++ [DQ] ++ lit ": " ++ py_str a
         ++ lit ", " ++ [DQ] ++ lit "p1" ++ [DQ] ++ lit ": " ++ py_str b
         ++ lit ", " ++ [DQ] ++ lit "currency" ++ [DQ] ++ lit ": "
         ++ [DQ] ++ py_str c ++ [DQ] ++ lit ",";
       lit "    " ++ [DQ] ++ lit "daily" ++ [DQ] ++ lit ": " ++ daily_str;
       lit "  }," ].

Fixpoint render_entries (stocks_data : dict pyval) : result (list str) :=
  match stocks_data with
  | [] => Ok []
  | (tk, sd) :: rest =>
      ls <~ render_entry tk sd ;;
      more <~ render_entries rest ;;
      Ok (ls ++ more)
  end.

(** Lines 75-83: [new_prices]. *)
Definition new_prices (stocks_data : dict pyval) : result str :=
  entries <~ render_entries stocks_data ;;
  Ok (join [LF] ([lit "const PRICES = {"] ++ entries ++ [lit "};"])).

(** Lines 89-90, [with open(html_path, "w") as f: f.write(html)]: opening
    the file empties it, and [write] encodes the whole text before it stores
    any of it, so a text the encoding cannot represent leaves the file empty
    and raises.  [WriteHtml] records what the file holds when the block is
    left; [os.linesep] is the line feed, as on every POSIX system, so the
    text is stored as it is. *)
Definition write_html (text : str) : M unit :=
  if encodable text then emit (WriteHtml text)
  else emit (WriteHtml []) ;;; lift (Raise UnicodeEncodeError).

(** [update_index_html(stocks_data)], for index.html as found. *)
Definition update_index_html (index_html : html_file) (stocks_data : dict pyval)
  : M unit :=
  match index_html with
  | NoHtml => emit (Print MsgNoHtml)
  | BadHtml e => lift (Raise e)
  | Html stored =>
      let html := universal_newlines stored in
      block <- lift (new_prices stocks_data) ;;
      match re_search html with
      | Some _ =>
          html' <- lift (re_sub_first block html) ;;
          write_html html' ;;;
          emit (Print MsgUpdatedEmbedded)
      | None => emit (Print MsgNoBlock)
      end
  end.

(** Lines 121-124: the entry of a stock without data of any kind. *)
Definition placeholder (stk : stock) : pyval :=
  PDict [ (lit "p0", PFloat (p0 stk));
          (lit "p1", PFloat (p0 stk));
          (lit "currency", PStr (currency stk));
          (lit "daily", PDict []);
          (lit "error", PStr (lit "No data available")) ].

(** The [ts is None] branch, lines 116-125. *)
Definition absent_entry (existing : pyval) (stk : stock) : M pyval :=
  cached <- lift (has_cached existing (ticker stk)) ;;
  if (cached : bool) then
    emit (Print (MsgUsingCached (ticker stk))) ;;;
    lift (cached_entry existing (ticker stk))
  else
    ret (placeholder stk).

(** Lines 116-145: the entry for a stock, given what was fetched. *)
Definition resolve (existing : pyval) (stk : stock) (ts : pyval) : M pyval :=
  if is_none ts then absent_entry existing stk else fresh_entry stk ts.

(** One pass through the body of the loop, lines 108-145, for the stock
    at index [i] of [n]: the value stored under its ticker. *)
Definition iteration (existing : pyval) (resp : response) (n i : nat)
           (stk : stock) : M pyval :=
  ts <- fetch_daily resp (av_symbol stk) ;;
  (if Z.of_nat i <? Z.of_nat n - 1 then emit (Sleep 13) else ret tt) ;;;
  resolve existing stk ts.

(** The [for i, stock in enumerate(STOCKS)] loop from index [i] on;
    [n] is [len(STOCKS)], [net k] answers the request of iteration [k],
    [stocks] is [result["stocks"]]. *)
Definition loop (existing : pyval) (net : nat -> response) (n i : nat)
           (todo : list stock) (stocks : dict pyval) : M (dict pyval) :=
  for_each_stock (fun k stk => iteration existing (net k) n k stk) i todo stocks.

(** [main()], for a configuration [cfg], the clock reading [now], the two
    files as found and the provider's answers. *)
Definition main (cfg : list stock) (now : str) (prices_json : json_file)
           (index_html : html_file) (net : nat -> response) : M unit :=
  emit (Print MsgBanner) ;;;
  existing <- lift (load_existing prices_json) ;;
  stocks <- loop existing net (length cfg) 0 cfg [] ;;
  emit (WriteJson (snapshot now stocks)) ;;;
  emit (Print MsgWritten) ;;;
  update_index_html index_html stocks ;;;
  emit (Print (MsgDone now)).

End Scripts.
End Scripts.

(* ================================================================== *)
(** ** src/fetch_prices.py *)

Module Root.
Section Root.
Context `{PyBuiltins}.
Local Open Scope py_scope.

Definition STOCKS : list stock :=
  [ {| ticker := lit "HOOD"; av_symbol := lit "HOOD"; p0 := of_decimal 11548 (-2);
       currency := lit "USD"; note := None |};
    {| ticker := lit "TTD";  av_symbol := lit "TTD";  p0 := of_decimal 3819 (-2);
       currency := lit "USD"; note := None |};
    {| ticker := lit "GMAB"; av_symbol := lit "GMAB"; p0 := of_decimal 3118 (-2);
       currency := lit "USD"; note := None |};
    {| ticker := lit "XXI";  av_symbol := lit "XXI";  p0 := of_decimal 885 (-2);
       currency := lit "USD"; note := None |};
    {| ticker := lit "FOUR"; av_symbol := lit "FOUR"; p0 := of_decimal 6331 (-2);
       currency := lit "USD"; note := None |};
    {| ticker := lit "DFEN"; av_symbol := lit "DFEN"; p0 := of_decimal 5249 (-2);
       currency := lit "EUR";
       note := Some (lit "Using US DFEN as proxy; EUR price derived from EUR/USD rate") |} ].

Definition fetch_daily_try (symbol : str) (data : pyval) : M pyval :=
  present <- lift (py_contains data TIME_SERIES_KEY) ;;
  if negb present then
    m1 <- lift (py_get data (lit "Error Message") (PStr (lit "Unknown error"))) ;;
    m2 <- lift (py_get data (lit "Note") m1) ;;
    emit (Print (MsgNoData symbol m2)) ;;;
    ret PNone
  else lift (py_getitem data TIME_SERIES_KEY).

Definition fetch_daily (resp : response) (symbol : str) : M pyval :=
  emit (Print (MsgFetching symbol)) ;;;
  emit (Request (TimeSeriesDaily symbol)) ;;;
  match (data <- lift (net_data resp) ;; fetch_daily_try symbol data) with
  | (t, Ok v) => (t, Ok v)
  | (t, Raise e) => (t ++ [Print (MsgErrorFetching symbol e)], Ok PNone)
  end.

(** The body of the [try] of [fetch_fx_rate], up to [rate]. *)
Definition fetch_fx_rate_try (resp : response) : result float :=
  data <~ net_data resp ;;
  quote <~ py_getitem data (lit "Realtime Currency Exchange Rate") ;;
  x <~ py_getitem quote (lit "5. Exchange Rate") ;;
  py_float x.

Definition FALLBACK_RATE : float := of_decimal 105 (-2).

(** [fetch_fx_rate()] *)
Definition fetch_fx_rate (resp : response) : M float :=
  emit (Print MsgFetchingFx) ;;;
  emit (Request CurrencyExchangeRate) ;;;
  match fetch_fx_rate_try resp with
  | Ok rate => emit (Print (MsgFxRate rate)) ;;; ret rate
  | Raise e => emit (Print (MsgFxWarning e)) ;;; ret FALLBACK_RATE
  end.

(** Lines 123-128: the entry of a stock without data of any kind. *)
Definition placeholder (stk : stock) : pyval :=
  PDict [ (lit "p0", PFloat (p0 stk));
          (lit "currency", PStr (currency stk));
          (lit "daily", PDict []);
          (lit "error", PStr (lit "No data available")) ].

(** The [ts is None] branch, lines 116-129. *)
Definition absent_entry (existing : pyval) (stk : stock) : M pyval :=
  cached <- lift (has_cached existing (ticker stk)) ;;
  if (cached : bool) then
    emit (Print (MsgUsingCached (ticker stk))) ;;;
    lift (cached_entry existing (ticker stk))
  else
    emit (Print (MsgSkipping (ticker stk))) ;;;
    ret (placeholder stk).

(** Lines 116-154: the entry for a stock, given what was fetched. *)
Definition resolve (existing : pyval) (stk : stock) (ts : pyval) : M pyval :=
  if is_none ts then absent_entry existing stk else fresh_entry stk ts.

(** One pass through the body of the loop, lines 109-154. *)
Definition iteration (existing : pyval) (resp : response) (stk : stock)
  : M pyval :=
  ts <- fetch_daily resp (av_symbol stk) ;;
  emit (Sleep 12) ;;;
  resolve existing stk ts.

(** The [for stock in STOCKS] loop; [net i] answers the request of
    iteration [i]. *)
Definition loop (existing : pyval) (net : nat -> response) (i : nat)
           (todo : list stock) (stocks : dict pyval) : M (dict pyval) :=
  for_each_stock (fun k stk => iteration existing (net k) stk) i todo stocks.

Definition main (cfg : list stock) (now : str) (prices_json : json_file)
           (net : nat -> response) : M unit :=
  emit (Print MsgBanner) ;;;
  existing <- lift (load_existing prices_json) ;;
  stocks <- loop existing net 0 cfg [] ;;
  emit (WriteJson (snapshot now stocks)) ;;;
  emit (Print MsgWritten) ;;;
  emit (Print (MsgDone now)).

End Root.
End Root.

(* ================================================================== *)
(** ** Notions the properties are stated with *)

(** What [fetch_daily] hands to [main] for a response: the value under
    "Time Series (Daily)" of a JSON object, [None] for anything else. *)
Definition provided (resp : response) : pyval :=
  match resp with
  | Payload (PDict d) =>
      match dict_get d TIME_SERIES_KEY with
      | Some v => v
      | None => PNone
      end
  | _ => PNone
  end.

(** The entry the prior snapshot holds for a ticker, if any. *)
Definition cache_lookup (existing : pyval) (tk : str) : option pyval :=
  match existing with
  | PDict top =>
      match dict_get top (lit "stocks") with
      | Some (PDict cache) => dict_get cache tk
      | _ => None
      end
  | _ => None
  end.

(** A prior snapshot of the expected shape: nothing (or an empty value), or
    an object whose "stocks", when present, is an object. *)
Definition snapshot_shaped (existing : pyval) : bool :=
  match existing with
  | PDict top =>
      match dict_get top (lit "stocks") with
      | Some (PDict _) | None => true
      | Some _ => false
      end
  | v => negb (py_truthy v)
  end.

Fixpoint nodupb (l : list str) : bool :=
  match l with
  | [] => true
  | x :: l' => negb (existsb (str_eqb x) l') && nodupb l'
  end.

(** The closing price of one day's record, as [main] reads it. *)
Definition close_of `{PyBuiltins} (values : pyval) : result float :=
  rbind (py_getitem values (lit "4. close")) py_float.

Definition is_ok {A} (r : result A) : bool :=
  match r with Ok _ => true | Raise _ => false end.

(** A fetched series of the expected shape: an object keyed by distinct
    dates, each day on or after the start date carrying a readable close. *)
Definition series_shaped `{PyBuiltins} (ts : pyval) : bool :=
  match ts with
  | PDict items =>
      nodupb (keys items)
      && forallb (fun kv => negb (str_geb (fst kv) START_DATE)
                            || is_ok (close_of (snd kv))) items
  | _ => false
  end.

(** The days of a series that [main] keeps. *)
Definition kept (items : dict pyval) : dict pyval :=
  filter (fun kv => str_geb (fst kv) START_DATE) items.

(** An outcome of one fetch that [main] can merge: no data, or a series of
    the expected shape for a stock whose baseline is not zero. *)
Definition mergeable `{PyBuiltins} (stk : stock) (resp : response) : bool :=
  is_none (provided resp)
  || (series_shaped (provided resp) && negb (is_zero (p0 stk))).

(** An entry the publisher can render: an object with "p0" and "currency". *)
Definition renderable (sd : pyval) : bool :=
  match sd with
  | PDict d =>
      match dict_get d (lit "p0"), dict_get d (lit "currency") with
      | Some _, Some _ => true
      | _, _ => false
      end
  | _ => false
  end.

Definition no_backslash (s : str) : bool :=
  forallb (fun c => negb (Ascii.eqb c backslash)) s.

Definition is_print (e : event) : bool :=
  match e with Print _ => true | _ => false end.
Definition is_sleep (e : event) : bool :=
  match e with Sleep _ => true | _ => false end.
Definition is_request (e : event) : bool :=
  match e with Request _ => true | _ => false end.
Definition is_write_html (e : event) : bool :=
  match e with WriteHtml _ => true | _ => false end.

(** The inter-call delays of a run. *)
Definition delays (t : list event) : nat := length (filter is_sleep t).
(** The provider calls of a run. *)
Definition calls (t : list event) : nat := length (filter is_request t).

(** The requests and the delays of a trace, in order. *)
Definition schedule (t : list event) : list event :=
  filter (fun e => is_sleep e || is_request e) t.

(** The rate the provider quotes in a response, when the response is a JSON
    object with that field. *)
Definition quoted (resp : response) : option pyval :=
  match resp with
  | Payload (PDict d) =>
      match dict_get d (lit "Realtime Currency Exchange Rate") with
      | Some (PDict q) => dict_get q (lit "5. Exchange Rate")
      | _ => None
      end
  | _ => None
  end.

(** The document contains a block: an opening marker and, somewhere after
    it, a closing marker. *)
Definition has_block (html : str) : Prop :=
  exists a b c, html = a ++ open_marker ++ b ++ close_marker ++ c.

(** In [body ++ close_marker ++ post] no closing marker starts before the
    one written: [body] is the shortest text the lazy match can take. *)
Definition first_close (body post : str) : Prop :=
  forall a b, body ++ close_marker ++ post = a ++ close_marker ++ b ->
              (length body <= length a)%nat.

(** No block of [html] starts before the end of [pre]. *)
Definition leftmost (pre html : str) : Prop :=
  forall a b c, html = a ++ open_marker ++ b ++ close_marker ++ c ->
                (length pre <= length a)%nat.

(** A computation that touches nothing but the console. *)
Definition quiet {A} (m : M A) : Prop := forallb is_print (fst m) = true.

(** [x1; sep; x2; sep; ...; xn]: a separator between neighbours only. *)
Fixpoint intersperse {A} (sep : A) (l : list A) : list A :=
  match l with
  | [] => []
  | x :: rest =>
      match rest with
      | [] => [x]
      | _ :: _ => x :: sep :: intersperse sep rest
      end
  end.

(** The provider calls a configuration asks for, in order. *)
Definition requests (cfg : list stock) : list event :=
  map (fun stk => Request (TimeSeriesDaily (av_symbol stk))) cfg.

(** The first of the keys [ks] that the object [d] holds, as the nested
    [data.get(k1, data.get(k2, ...))] of the warning picks it. *)
Fixpoint first_present (d : dict pyval) (ks : list str) (default : pyval) : pyval :=
  match ks with
  | [] => default
  | k :: ks' =>
      match dict_get d k with
      | Some v => v
      | None => first_present d ks' default
      end
  end.

Definition is_write (e : event) : bool :=
  match e with WriteJson _ | WriteHtml _ => true | _ => false end.

(** What a run writes to the two files, in order. *)
Definition writes (t : list event) : list event := filter is_write t.

(** A fetched value [main] cannot merge: not an object, or an object with
    a kept day whose close cannot be read. *)
Definition broken_series `{PyBuiltins} (ts : pyval) : bool :=
  match ts with
  | PNone => false
  | PDict items =>
      existsb (fun kv => str_geb (fst kv) START_DATE
                         && negb (is_ok (close_of (snd kv)))) items
  | _ => true
  end.

(** Dates in strictly ascending order. *)
Definition ascending (ks : list str) : Prop :=
  StronglySorted (fun a b => str_compare a b = Lt) ks.

(** A text without a carriage return: a file whose line ends are all LF
    holds such a text, and [f.read()] returns it as it is stored. *)
Definition no_cr (s : str) : bool :=
  forallb (fun c => negb (Ascii.eqb c CR)) s.

(** The text with its leftmost block replaced by [block]; the text itself
    when it has no block. *)
Definition regenerated (text block : str) : str :=
  match re_search text with
  | Some (pre, _, post) => pre ++ block ++ post
  | None => text
  end.

(** The character that follows the first backslash of [s], if there is
    one. *)
Fixpoint first_escape (s : str) : option ascii :=
  match s with
  | [] => None
  | c :: rest =>
      if Ascii.eqb c backslash then
        match rest with
        | e :: _ => Some e
        | [] => None
        end
      else first_escape rest
  end.

(** An ASCII letter that is no escape of a replacement template: any
    letter but [a b f g n r t v]. *)
Definition no_escape_letter (e : ascii) : bool :=
  is_ascii_letter e && negb (Ascii.eqb e "g"%char)
  && match template_escape e with Some _ => false | None => true end.

(* ------------------------------------------------------------------ *)
(** *** Built-ins for the worked examples

    [float] on plain decimal literals ([-12.50]), [json.dumps] on [null],
    booleans, integers and empty containers.  The examples format no float
    and no non-empty container. *)

Fixpoint digits_value (acc : Z) (s : str) : option Z :=
  match s with
  | [] => Some acc
  | c :: s' =>
      if is_digit c then digits_value (acc * 10 + Z.of_nat (digit_val c)) s'
      else None
  end.

Fixpoint split_dot (s : str) : str * option str :=
  match s with
  | [] => ([], None)
  | c :: s' =>
      if Ascii.eqb c "."%char then ([], Some s')
      else let '(a, b) := split_dot s' in (c :: a, b)
  end.

Definition unsigned_literal (neg : bool) (s : str) : option float :=
  let '(whole, frac) := split_dot s in
  let frac := match frac with Some f => f | None => [] end in
  match whole ++ frac with
  | [] => None
  | ds =>
      match digits_value 0 ds with
      | Some 0 => Some (S754_zero neg)
      | Some m => Some (of_decimal (if neg then - m else m) (- Z.of_nat (length frac)))
      | None => None
      end
  end.

Definition decimal_literal (s : str) : option float :=
  match s with
  | c :: s' =>
      if Ascii.eqb c "-"%char then unsigned_literal true s'
      else if Ascii.eqb c "+"%char then unsigned_literal false s'
      else unsigned_literal false s
  | [] => None
  end.

Definition dumps_flat (v : pyval) : str :=
  match v with
  | PNone => lit "null"
  | PBool true => lit "true"
  | PBool false => lit "false"
  | PInt z => str_of_Z z
  | PDict [] => lit "{}"
  | PList [] => lit "[]"
  | _ => []
  end.

Definition example_builtins : PyBuiltins :=
  {| float_of_str := decimal_literal;
     py_repr := fun _ => [];
     json_dumps := dumps_flat;
     encodable := fun _ => true |}.

(** The same built-ins under a locale whose encoding is ASCII. *)
Definition ascii_builtins : PyBuiltins :=
  {| float_of_str := decimal_literal;
     py_repr := fun _ => [];
     json_dumps := dumps_flat;
     encodable := forallb (fun c => (nat_of_ascii c <? 128)%nat) |}.


(* ------------------------------------------------------------------ *)
(** *** Worked inputs *)

(** A page with a stale block between hand-written lines. *)
Definition page_with_block : str :=
  lit "<script>" ++ [LF] ++ lit "const PRICES = {" ++ [LF] ++ lit "  stale"
    ++ [LF] ++ lit "};" ++ [LF] ++ lit "</script>".

Definition page_without_block : str :=
  lit "<html><body>no prices here</body></html>".

(** The smallest page with a block. *)
Definition empty_block : str := lit "const PRICES = {" ++ [LF] ++ lit "};".

Definition plain_stocks : dict pyval :=
  [ (lit "HOOD", PDict [ (lit "p0", PInt 115); (lit "p1", PInt 120);
                         (lit "currency", PStr (lit "USD"));
                         (lit "daily", PDict []) ]) ].

(** An entry whose currency text is a line break followed by [};], as a
    data/prices.json with ["currency": "\n};"] hands it to the publisher. *)
Definition hostile_stocks : dict pyval :=
  [ (lit "X", PDict [ (lit "p0", PInt 1);
                      (lit "currency", PStr (LF :: lit "};")) ]) ].

(** What a second run leaves behind the block it writes for
    [hostile_stocks]: the tail of the block the first run wrote. *)
Definition leftover : str :=
  [DQ] ++ lit "," ++ [LF] ++ lit "    " ++ [DQ] ++ lit "daily" ++ [DQ] ++ lit ": {}"
    ++ [LF] ++ lit "  }," ++ [LF] ++ lit "};".

Definition fx_answer : response :=
  Payload (PDict [ (lit "Realtime Currency Exchange Rate",
                    PDict [ (lit "1. From_Currency Code", PStr (lit "EUR"));
                            (lit "5. Exchange Rate", PStr (lit "1.08500000")) ]) ]).

(** The stock and the series of the metric example: baseline 100.00, closes
    100.00 on 2026-01-02 and 110.00 on 2026-01-05, as the provider sends
    them (latest day first). *)
Definition example_stock : stock :=
  {| ticker := lit "TEST"; av_symbol := lit "TEST"; p0 := of_decimal 10000 (-2);
     currency := lit "USD"; note := None |}.

Definition example_series : dict pyval :=
  [ (lit "2026-01-05", PDict [ (lit "1. open", PStr (lit "101.50"));
                               (lit "4. close", PStr (lit "110.00")) ]);
    (lit "2026-01-02", PDict [ (lit "1. open", PStr (lit "99.00"));
                               (lit "4. close", PStr (lit "100.00")) ]) ].

(** The entry [main] stores for a fetched series. *)
Definition fresh_result (stk : stock) (latest : float) (ytd : pyval)
           (daily : dict float) : pyval :=
  PDict [ (lit "p0", PFloat (p0 stk));
          (lit "p1", PFloat latest);
          (lit "ytd", ytd);
          (lit "currency", PStr (currency stk));
          (lit "daily", float_dict daily) ].

(** A prior snapshot that holds an entry for HOOD only. *)
Definition cached_hood : pyval :=
  PDict [ (lit "p0", PFloat (of_decimal 11548 (-2)));
          (lit "p1", PFloat (of_decimal 12001 (-2)));
          (lit "ytd", PFloat (of_decimal 392 (-2)));
          (lit "currency", PStr (lit "USD"));
          (lit "daily", PDict [ (lit "2026-01-02", PFloat (of_decimal 12001 (-2))) ]) ].

Definition cached_snapshot : pyval :=
  PDict [ (lit "updated", PStr (lit "2026-01-02 22:00 UTC"));
          (lit "start_date", PStr START_DATE);
          (lit "stocks", PDict [ (lit "HOOD", cached_hood) ]) ].

Definition prior_snapshot : json_file := Parsed cached_snapshot.

(** The provider answers the second request with a series and fails the
    others. *)
Definition mixed_answers : nat -> response :=
  fun k =>
    match k with
    | 1%nat => Payload (PDict [ (lit "Meta Data", PDict []);
                                (TIME_SERIES_KEY, PDict example_series) ])
    | _ => NetError
    end.

(** The first configured stock. *)
Definition hood : stock :=
  {| ticker := lit "HOOD"; av_symbol := lit "HOOD"; p0 := of_decimal 11548 (-2);
     currency := lit "USD"; note := None |}.

(** The provider's rate-limit notice: an object without the series. *)
Definition quota_notice : response :=
  Payload (PDict [ (lit "Information",
                    PStr (lit "API rate limit is 25 requests per day.")) ]).

(** A prior snapshot whose entry for HOOD is a number. *)
Definition odd_snapshot : json_file :=
  Parsed (PDict [ (lit "stocks", PDict [ (lit "HOOD", PInt 5) ]) ]).

(** A stock with a baseline of zero. *)
Definition free_stock : stock :=
  {| ticker := lit "FREE"; av_symbol := lit "FREE"; p0 := S754_zero false;
     currency := lit "USD"; note := None |}.

(** A series whose days all lie before the start date; the records are
    not even objects. *)
Definition last_year : dict pyval :=
  [ (lit "2025-12-31", PStr (lit "n/a")); (lit "2025-12-30", PNone) ].

(** A series with a kept day that has no close. *)
Definition no_close : dict pyval :=
  [ (lit "2026-01-05", PDict [ (lit "1. open", PStr (lit "101.50")) ]) ].

(** The provider answers every request with the example series. *)
Definition all_answered : nat -> response :=
  fun _ => Payload (PDict [ (TIME_SERIES_KEY, PDict example_series) ]).

(** A page stored with CR LF line ends throughout. *)
Definition crlf_page : str :=
  lit "<p>" ++ [CR; LF] ++ lit "const PRICES = {" ++ [CR; LF] ++ lit "};"
    ++ [CR; LF] ++ lit "</p>".

(** A page stored with CR line ends: its bytes hold no line feed at all. *)
Definition cr_page : str :=
  lit "<p>" ++ [CR] ++ lit "const PRICES = {" ++ [CR] ++ lit "  stale" ++ [CR]
    ++ lit "};" ++ [CR] ++ lit "</p>".

(** An entry whose currency text holds a character beyond ASCII (U+00E9),
    as a data/prices.json with ["currency": "\u00e9"] hands it to the
    publisher. *)
Definition accent_stocks : dict pyval :=
  [ (lit "ASML", PDict [ (lit "p0", PInt 1);
                         (lit "currency", PStr [ascii_of_nat 233]) ]) ].

Definition no_answer : nat -> response := fun _ => NetError.

(* ================================================================== *)
(** * Properties *)

(** ** The float model on a few values *)

Example literal_1_05 :
  of_decimal 105 (-2) = S754_finite false 4728779608739021 (-52).
Proof. vm_compute. reflexivity. Qed.

Example round2_below_half : round2 (of_decimal 2675 (-3)) = of_decimal 267 (-2).
Proof. vm_compute. reflexivity. Qed.

Example round2_tie_to_even : round2 (of_decimal 125 (-3)) = of_decimal 12 (-2).
Proof. vm_compute. reflexivity. Qed.

Example round2_negative_zero : round2 (of_decimal (-1) (-3)) = S754_zero true.
Proof. vm_compute. reflexivity. Qed.

Example decimal_literal_110 :
  decimal_literal (lit "110.00") = Some (of_Z 110).
Proof. vm_compute. reflexivity. Qed.

(** ** Strings and the search for the block *)

Lemma str_eqb_eq (a b : str) : str_eqb a b = true <-> a = b.
Proof.
  unfold str_eqb. destruct (list_eq_dec ascii_dec a b); split; congruence.
Qed.

Lemma str_eqb_refl (a : str) : str_eqb a a = true.
Proof. apply str_eqb_eq. reflexivity. Qed.

Lemma str_eqb_neq (a b : str) : str_eqb a b = false <-> a <> b.
Proof.
  unfold str_eqb. destruct (list_eq_dec ascii_dec a b); split; congruence.
Qed.

Lemma prefixb_app (p r : str) : prefixb p (p ++ r) = true.
Proof.
  induction p as [|a p IH]; simpl; [reflexivity|].
  rewrite Ascii.eqb_refl. exact IH.
Qed.

Lemma prefixb_true (p s : str) :
  prefixb p s = true -> s = p ++ skipn (length p) s.
Proof.
  revert s. induction p as [|a p IH]; intros s Hp; simpl in *; [reflexivity|].
  destruct s as [|b s]; [discriminate|].
  apply andb_true_iff in Hp. destruct Hp as [Hab Hp].
  apply Ascii.eqb_eq in Hab. subst b. simpl. f_equal. apply IH. exact Hp.
Qed.

Lemma skipn_exact {A} (p r : list A) : skipn (length p) (p ++ r) = r.
Proof. induction p; simpl; auto. Qed.

(** Two ways to cut one string: the shorter head is a prefix of the longer. *)
Lemma app_cut {A} (x y u v : list A) :
  x ++ y = u ++ v -> (length u <= length x)%nat ->
  exists w, x = u ++ w /\ v = w ++ y.
Proof.
  intros E L. apply app_eq_app in E. destruct E as [w [[E1 E2]|[E1 E2]]].
  - exists w. split; assumption.
  - subst u. rewrite length_app in L.
    destruct w as [|c w]; [|simpl in L; lia].
    exists []. rewrite !app_nil_r. simpl in E2. subst y.
    split; reflexivity.
Qed.

Lemma close_marker_length : length close_marker = 3%nat.
Proof. reflexivity. Qed.

Lemma find_close_sound (s body post : str) :
  find_close s = Some (body, post) ->
  s = body ++ close_marker ++ post
  /\ forall a b, s = a ++ close_marker ++ b -> (length body <= length a)%nat.
Proof.
  revert body post. induction s as [|c s IH]; intros body post Hf.
  - discriminate.
  - cbn [find_close] in Hf.
    destruct (prefixb close_marker (c :: s)) eqn:Hp.
    + inversion Hf; subst. split.
      * apply prefixb_true in Hp. exact Hp.
      * intros; simpl; lia.
    + destruct (find_close s) as [[body' post']|] eqn:Hs; [|discriminate].
      inversion Hf; subst. destruct (IH _ _ eq_refl) as [E Hfirst].
      split.
      * simpl. f_equal. exact E.
      * intros a b Hab. destruct a as [|x a].
        -- cbn [app] in Hab. rewrite Hab in Hp.
           rewrite prefixb_app in Hp. discriminate.
        -- cbn [app] in Hab. injection Hab as _ Hab'. cbn [length].
           specialize (Hfirst a b Hab'). lia.
Qed.

Lemma find_close_complete (a b : str) :
  find_close (a ++ close_marker ++ b) <> None.
Proof.
  induction a as [|c a IH].
  - simpl. discriminate.
  - change ((c :: a) ++ close_marker ++ b) with (c :: (a ++ close_marker ++ b)).
    cbn [find_close].
    destruct (prefixb close_marker (c :: a ++ close_marker ++ b)); [discriminate|].
    destruct (find_close (a ++ close_marker ++ b)) as [[? ?]|]; [discriminate|].
    exact IH.
Qed.

Lemma find_close_first (body post : str) :
  (forall a b, body ++ close_marker ++ post = a ++ close_marker ++ b ->
               (length body <= length a)%nat) ->
  find_close (body ++ close_marker ++ post) = Some (body, post).
Proof.
  intros Hfirst.
  destruct (find_close (body ++ close_marker ++ post)) as [[body' post']|] eqn:Hf.
  - apply find_close_sound in Hf. destruct Hf as [E Hmin].
    assert (L1 := Hfirst _ _ E). assert (L2 := Hmin _ _ eq_refl).
    assert (L : length body = length body') by lia.
    destruct (app_cut _ _ _ _ E (Nat.eq_le_incl _ _ (eq_sym L))) as [w [E1 E2]].
    assert (w = []).
    { apply (f_equal (@length ascii)) in E1. rewrite length_app in E1.
      destruct w; [reflexivity|simpl in E1; lia]. }
    subst w. rewrite app_nil_r in E1. subst body'. cbn [app] in E2.
    apply app_inv_head in E2. subst. reflexivity.
  - exfalso. exact (find_close_complete _ _ Hf).
Qed.

Lemma ok_inj {A} (a b : A) : Ok a = Ok b -> a = b.
Proof. intros E. injection E as E. exact E. Qed.

Lemma some_pair_inj {A B} (a c : A) (b d : B) :
  Some (a, b) = Some (c, d) -> a = c /\ b = d.
Proof. intros E. injection E as E1 E2. split; assumption. Qed.

Lemma some_triple_inj {A B C} (a a' : A) (b b' : B) (c c' : C) :
  Some (a, b, c) = Some (a', b', c') -> a = a' /\ b = b' /\ c = c'.
Proof. intros E. injection E as E1 E2 E3. repeat split; assumption. Qed.

Lemma match_here_sound (s m post : str) :
  match_here s = Some (m, post) ->
  exists body, m = open_marker ++ body ++ close_marker
               /\ s = m ++ post /\ first_close body post.
Proof.
  unfold match_here. intros Hm.
  destruct (prefixb open_marker s) eqn:Hp; [|discriminate].
  destruct (find_close (skipn (length open_marker) s)) as [[body post']|] eqn:Hf;
    [|discriminate].
  apply some_pair_inj in Hm. destruct Hm as [Em Ep]. subst m post'. exists body.
  apply find_close_sound in Hf. destruct Hf as [E Hfirst]. rewrite E in Hfirst.
  apply prefixb_true in Hp. rewrite E in Hp.
  split; [reflexivity|]. split.
  - rewrite Hp. rewrite <- !app_assoc. reflexivity.
  - exact Hfirst.
Qed.

Lemma match_here_complete (b d : str) :
  match_here (open_marker ++ b ++ close_marker ++ d) <> None.
Proof.
  unfold match_here. rewrite prefixb_app, skipn_exact.
  destruct (find_close (b ++ close_marker ++ d)) as [[? ?]|] eqn:Hf.
  - discriminate.
  - exfalso. exact (find_close_complete _ _ Hf).
Qed.

Lemma match_here_first (body post : str) :
  first_close body post ->
  match_here (open_marker ++ body ++ close_marker ++ post)
  = Some (open_marker ++ body ++ close_marker, post).
Proof.
  intros Hfirst. unfold match_here.
  rewrite prefixb_app, skipn_exact, (find_close_first _ _ Hfirst). reflexivity.
Qed.

(** What [re.search] returns is the leftmost block, closed at its first
    closing marker. *)
Lemma re_search_sound (html pre m post : str) :
  re_search html = Some (pre, m, post) ->
  html = pre ++ m ++ post
  /\ leftmost pre html
  /\ exists body, m = open_marker ++ body ++ close_marker /\ first_close body post.
Proof.
  revert pre. induction html as [|c t IH]; intros pre Hs.
  - discriminate.
  - cbn [re_search] in Hs.
    destruct (match_here (c :: t)) as [[m' post']|] eqn:Hm.
    + apply some_triple_inj in Hs. destruct Hs as [Ep [Em' Epost]].
      subst pre m' post'. apply match_here_sound in Hm.
      destruct Hm as [body [Em [Es Hfirst]]].
      split; [exact Es|]. split.
      * intros a b d _. simpl. lia.
      * exists body. split; assumption.
    + destruct (re_search t) as [[[pre' m'] post']|] eqn:Ht; [|discriminate].
      apply some_triple_inj in Hs. destruct Hs as [Ep [Em' Epost]].
      subst pre m' post'. destruct (IH _ eq_refl) as [Et [Hleft Hbody]].
      split; [cbn [app]; f_equal; exact Et|]. split; [|exact Hbody].
      intros a b d Hab. destruct a as [|x a].
      * cbn [app] in Hab. rewrite Hab in Hm.
        exfalso. exact (match_here_complete _ _ Hm).
      * cbn [app] in Hab. injection Hab as _ Hab'. cbn [length].
        specialize (Hleft a b d Hab'). lia.
Qed.

Lemma re_search_complete (html : str) :
  has_block html -> re_search html <> None.
Proof.
  intros [a [b [d E]]]. subst html. induction a as [|c a IH].
  - cbn [app].
    destruct (open_marker ++ b ++ close_marker ++ d) as [|x s] eqn:Es.
    + discriminate.
    + cbn [re_search]. rewrite <- Es.
      destruct (match_here (open_marker ++ b ++ close_marker ++ d))
        as [[? ?]|] eqn:Hm; [discriminate|].
      exfalso. exact (match_here_complete _ _ Hm).
  - cbn [app re_search].
    destruct (match_here (c :: a ++ open_marker ++ b ++ close_marker ++ d))
      as [[? ?]|]; [discriminate|].
    destruct (re_search (a ++ open_marker ++ b ++ close_marker ++ d))
      as [[[? ?] ?]|]; [discriminate|exact IH].
Qed.

Lemma re_search_none (html : str) :
  re_search html = None <-> ~ has_block html.
Proof.
  split.
  - intros Hn Hb. exact (re_search_complete Hb Hn).
  - intros Hn. destruct (re_search html) as [[[pre m] post]|] eqn:Hs; [|reflexivity].
    exfalso. apply Hn. apply re_search_sound in Hs.
    destruct Hs as [E [_ [body [Em _]]]]. subst m.
    exists pre, body, post. rewrite E. rewrite <- !app_assoc. reflexivity.
Qed.

(** Conversely, the leftmost block closed at its first closing marker is
    what [re.search] returns. *)
Lemma re_search_first (pre body post : str) :
  leftmost pre (pre ++ open_marker ++ body ++ close_marker ++ post) ->
  first_close body post ->
  re_search (pre ++ open_marker ++ body ++ close_marker ++ post)
  = Some (pre, open_marker ++ body ++ close_marker, post).
Proof.
  intros Hleft Hfirst. induction pre as [|c pre IH].
  - cbn [app].
    assert (Hm := match_here_first Hfirst).
    destruct (open_marker ++ body ++ close_marker ++ post) as [|x s] eqn:Es.
    + discriminate.
    + cbn [re_search]. rewrite Hm. reflexivity.
  - cbn [app re_search].
    destruct (match_here (c :: pre ++ open_marker ++ body ++ close_marker ++ post))
      as [[m' post']|] eqn:Hm.
    + exfalso. apply match_here_sound in Hm.
      destruct Hm as [b' [Em [Es _]]]. subst m'.
      specialize (Hleft [] b' post'). cbn [app length] in Hleft.
      rewrite <- !app_assoc in Es. specialize (Hleft Es). lia.
    + rewrite IH; [reflexivity|].
      intros a b d Hab. specialize (Hleft (c :: a) b d).
      cbn [app length] in Hleft. rewrite Hab in Hleft.
      specialize (Hleft eq_refl). lia.
Qed.

(** ** The replacement template and the rendered block *)

Lemma expand_template_literal (repl m : str) :
  no_backslash repl = true -> expand_template TText repl m = Ok repl.
Proof.
  induction repl as [|c repl IH]; intros Hn; [reflexivity|].
  cbn [no_backslash forallb] in Hn. apply andb_true_iff in Hn.
  destruct Hn as [Hc Hn]. apply negb_true_iff in Hc.
  cbn [expand_template]. rewrite Hc.
  unfold no_backslash in IH. rewrite (IH Hn). reflexivity.
Qed.

Lemma join_cons (sep l : str) (ls : list str) :
  exists rest, join sep (l :: ls) = l ++ rest.
Proof.
  destruct ls as [|l' ls].
  - exists []. simpl. rewrite app_nil_r. reflexivity.
  - exists (sep ++ join sep (l' :: ls)). reflexivity.
Qed.

Lemma join_snoc (sep x l : str) (ls : list str) :
  join sep ((l :: ls) ++ [x]) = join sep (l :: ls) ++ sep ++ x.
Proof.
  revert l. induction ls as [|l' ls IH]; intros l.
  - reflexivity.
  - change (join sep ((l :: l' :: ls) ++ [x]))
      with (l ++ sep ++ join sep ((l' :: ls) ++ [x])).
    rewrite IH.
    change (join sep (l :: l' :: ls)) with (l ++ sep ++ join sep (l' :: ls)).
    rewrite <- !app_assoc. reflexivity.
Qed.

Section PublisherFacts.
Context `{PyBuiltins}.
Import Scripts.

(** The rendered block opens with the opening marker and ends with the
    closing marker. *)
Lemma new_prices_shape (stocks : dict pyval) (block : str) :
  new_prices stocks = Ok block ->
  exists mid, block = open_marker ++ mid ++ close_marker.
Proof.
  unfold new_prices. destruct (render_entries stocks) as [entries|e]; [|discriminate].
  cbn [rbind]. intros E. apply ok_inj in E. subst block.
  change ([lit "const PRICES = {"] ++ entries ++ [lit "};"])
    with ((open_marker :: entries) ++ [lit "};"]).
  rewrite join_snoc. destruct (join_cons [LF] open_marker entries) as [rest Er].
  rewrite Er. exists rest. rewrite <- app_assoc. reflexivity.
Qed.

Lemma render_entry_ok (tk : str) (sd : pyval) :
  renderable sd = true -> exists ls, render_entry tk sd = Ok ls.
Proof.
  unfold renderable, render_entry. destruct sd as [| | | | | |d]; try discriminate.
  destruct (dict_get d (lit "p0")) as [a|] eqn:Ea; [|discriminate].
  destruct (dict_get d (lit "currency")) as [c|] eqn:Ec; [|discriminate].
  intros _. cbn [py_get py_getitem rbind]. rewrite Ea, Ec. cbn [rbind].
  eexists. reflexivity.
Qed.

Lemma new_prices_ok (stocks : dict pyval) :
  Forall (fun kv => renderable (snd kv) = true) stocks ->
  exists block, new_prices stocks = Ok block.
Proof.
  intros Hall. unfold new_prices.
  assert (exists entries, render_entries stocks = Ok entries) as [entries E].
  { induction Hall as [|[tk sd] rest Hsd _ IH].
    - exists []. reflexivity.
    - destruct IH as [more Em]. destruct (render_entry_ok tk sd Hsd) as [ls El].
      exists (ls ++ more). cbn [render_entries]. rewrite El, Em. reflexivity. }
  rewrite E. eexists. reflexivity.
Qed.

End PublisherFacts.

(** Reading in text mode: a text without a carriage return is read as it
    is stored, and no text that was read holds a carriage return. *)
Lemma no_cr_app (a b : str) : no_cr (a ++ b) = no_cr a && no_cr b.
Proof. apply forallb_app. Qed.

Lemma read_as_stored (s : str) : no_cr s = true -> universal_newlines s = s.
Proof.
  induction s as [|c s IH]; [reflexivity|]. cbn [no_cr forallb]. intros Hn.
  apply andb_true_iff in Hn. destruct Hn as [Hc Hn]. apply negb_true_iff in Hc.
  cbn [universal_newlines]. rewrite Hc. unfold no_cr in IH. rewrite (IH Hn).
  reflexivity.
Qed.

Lemma read_no_cr_bounded (n : nat) (s : str) :
  (length s <= n)%nat -> no_cr (universal_newlines s) = true.
Proof.
  revert s. induction n as [|n IH]; intros s Hl.
  - destruct s; [reflexivity|cbn in Hl; lia].
  - destruct s as [|c rest]; [reflexivity|]. cbn [length] in Hl.
    cbn [universal_newlines]. destruct (Ascii.eqb c CR) eqn:Ec.
    + cbn [no_cr forallb]. change (negb (Ascii.eqb LF CR)) with true.
      cbn [andb]. destruct rest as [|d rest']; [reflexivity|].
      cbn [length] in Hl. destruct (Ascii.eqb d LF).
      * apply IH. lia.
      * apply IH. cbn [length]. lia.
    + cbn [no_cr forallb]. rewrite Ec. cbn [negb andb]. apply IH. lia.
Qed.

Lemma read_no_cr (s : str) : no_cr (universal_newlines s) = true.
Proof. apply (read_no_cr_bounded (n := length s)). apply Nat.le_refl. Qed.

Section PublisherRuns.
Context `{PyBuiltins}.
Import Scripts.

(** The ways [update_index_html] ends on a document it could read. *)
Lemma update_replaces (stored pre m post block text : str) (stocks : dict pyval) :
  new_prices stocks = Ok block ->
  re_search (universal_newlines stored) = Some (pre, m, post) ->
  expand_template TText block m = Ok text ->
  update_index_html (Html stored) stocks
  = if encodable (pre ++ text ++ post)
    then ([WriteHtml (pre ++ text ++ post); Print MsgUpdatedEmbedded], Ok tt)
    else ([WriteHtml []], Raise UnicodeEncodeError).
Proof.
  intros Hb Hs He. unfold update_index_html, re_sub_first, write_html.
  cbn zeta. rewrite Hb, Hs. cbn [lift bind]. rewrite He. cbn [rbind bind].
  destruct (encodable (pre ++ text ++ post)); reflexivity.
Qed.

Lemma update_template_raises (stored pre m post block : str) (e : exn)
      (stocks : dict pyval) :
  new_prices stocks = Ok block ->
  re_search (universal_newlines stored) = Some (pre, m, post) ->
  expand_template TText block m = Raise e ->
  update_index_html (Html stored) stocks = ([], Raise e).
Proof.
  intros Hb Hs He. unfold update_index_html, re_sub_first. cbn zeta.
  rewrite Hb, Hs. cbn [lift bind]. rewrite He. reflexivity.
Qed.

Lemma update_render_raises (stored : str) (e : exn) (stocks : dict pyval) :
  new_prices stocks = Raise e ->
  update_index_html (Html stored) stocks = ([], Raise e).
Proof.
  intros Hb. unfold update_index_html. cbn zeta. rewrite Hb. reflexivity.
Qed.

Lemma update_no_block (stored : str) (stocks : dict pyval) :
  re_search (universal_newlines stored) = None ->
  update_index_html (Html stored) stocks
  = match new_prices stocks with
    | Ok _ => ([Print MsgNoBlock], Ok tt)
    | Raise e => ([], Raise e)
    end.
Proof.
  intros Hs. unfold update_index_html. cbn zeta. rewrite Hs.
  destruct (new_prices stocks); reflexivity.
Qed.

(** [main] is the load, its loop, the JSON write, the publisher, the last
    line. *)
Lemma main_run (cfg : list stock) (now : str) (pj : json_file)
      (index_html : html_file) (net : nat -> response) (existing : pyval)
      (t : list event) (stocks : dict pyval) :
  load_existing pj = Ok existing ->
  loop existing net (length cfg) 0 cfg [] = (t, Ok stocks) ->
  main cfg now pj index_html net
  = match update_index_html index_html stocks with
    | (t', Ok _) =>
        (Print MsgBanner :: t ++ WriteJson (snapshot now stocks) :: Print MsgWritten
           :: t' ++ [Print (MsgDone now)], Ok tt)
    | (t', Raise e) =>
        (Print MsgBanner :: t ++ WriteJson (snapshot now stocks) :: Print MsgWritten
           :: t', Raise e)
    end.
Proof.
  intros He Hl. unfold main. rewrite He. cbn [emit lift bind app]. rewrite Hl.
  cbn [bind].
  destruct (update_index_html index_html stocks) as [t' [[]|e]]; cbn [bind app];
    rewrite ?app_nil_r; reflexivity.
Qed.

End PublisherRuns.

(* ================================================================== *)
(** ** The publisher: [update_index_html] *)

(** C2, amended (localization).  On a document stored with LF line ends
    only and containing a block, the publisher ends in one of three ways.
    It raises before it writes anything; or it writes the document with
    exactly one span replaced, the leftmost block from its opening marker
    to the first closing marker after it, the characters before and after
    that span stored again unchanged; or the new text cannot be encoded.
    When the rendered block holds no backslash and the new text can be
    encoded, the span is replaced by the rendered block itself. *)
Theorem publisher_localized `{PyBuiltins} (stored : str) (stocks : dict pyval) :
  no_cr stored = true ->
  has_block stored ->
  exists pre body post,
    stored = pre ++ (open_marker ++ body ++ close_marker) ++ post
    /\ leftmost pre stored
    /\ first_close body post
    /\ ((exists text,
           encodable (pre ++ text ++ post) = true
           /\ Scripts.update_index_html (Html stored) stocks
              = ([WriteHtml (pre ++ text ++ post); Print MsgUpdatedEmbedded], Ok tt))
        \/ (exists e, Scripts.update_index_html (Html stored) stocks = ([], Raise e))
        \/ (exists text,
              encodable (pre ++ text ++ post) = false
              /\ Scripts.update_index_html (Html stored) stocks
                 = ([WriteHtml []], Raise UnicodeEncodeError)))
    /\ (forall block,
           Scripts.new_prices stocks = Ok block -> no_backslash block = true ->
           encodable (pre ++ block ++ post) = true ->
           Scripts.update_index_html (Html stored) stocks
           = ([WriteHtml (pre ++ block ++ post); Print MsgUpdatedEmbedded], Ok tt)).
Proof.
  intros Hcr Hb. assert (Hs := re_search_complete Hb).
  destruct (re_search stored) as [[[pre m] post]|] eqn:Es; [clear Hs|congruence].
  destruct (re_search_sound _ Es) as [E [Hleft [body [Em Hfirst]]]]. subst m.
  assert (Er : re_search (universal_newlines stored)
               = Some (pre, open_marker ++ body ++ close_marker, post)).
  { rewrite (read_as_stored _ Hcr). exact Es. }
  exists pre, body, post. repeat split; try assumption.
  - destruct (Scripts.new_prices stocks) as [block|e] eqn:Hn.
    + destruct (expand_template TText block (open_marker ++ body ++ close_marker))
        as [text|e] eqn:He.
      * assert (Hu := @update_replaces _ _ _ _ _ _ _ _ Hn Er He).
        destruct (encodable (pre ++ text ++ post)) eqn:Ee.
        -- left. exists text. split; assumption.
        -- right. right. exists text. split; assumption.
      * right. left. exists e. eapply update_template_raises; eassumption.
    + right. left. exists e. apply update_render_raises. exact Hn.
  - intros block Hn Hlit Henc.
    assert (He := expand_template_literal block
                    (open_marker ++ body ++ close_marker) Hlit).
    rewrite (@update_replaces _ _ _ _ _ _ _ _ Hn Er He), Henc. reflexivity.
Qed.

Lemma publisher_localized_witness :
  exists pre body post,
    page_with_block = pre ++ (open_marker ++ body ++ close_marker) ++ post
    /\ leftmost pre page_with_block
    /\ first_close body post
    /\ ((exists text,
           @encodable example_builtins (pre ++ text ++ post) = true
           /\ @Scripts.update_index_html example_builtins (Html page_with_block)
                plain_stocks
              = ([WriteHtml (pre ++ text ++ post); Print MsgUpdatedEmbedded], Ok tt))
        \/ (exists e, @Scripts.update_index_html example_builtins
                        (Html page_with_block) plain_stocks = ([], Raise e))
        \/ (exists text,
              @encodable example_builtins (pre ++ text ++ post) = false
              /\ @Scripts.update_index_html example_builtins (Html page_with_block)
                   plain_stocks
                 = ([WriteHtml []], Raise UnicodeEncodeError)))
    /\ (forall block,
           @Scripts.new_prices example_builtins plain_stocks = Ok block ->
           no_backslash block = true ->
           @encodable example_builtins (pre ++ block ++ post) = true ->
           @Scripts.update_index_html example_builtins (Html page_with_block)
             plain_stocks
           = ([WriteHtml (pre ++ block ++ post); Print MsgUpdatedEmbedded], Ok tt)).
Proof.
  apply (@publisher_localized example_builtins page_with_block plain_stocks).
  - reflexivity.
  - exists (lit "<script>" ++ [LF]), ([LF] ++ lit "  stale"), ([LF] ++ lit "</script>").
    reflexivity.
Defined.

(** C2, as stated, fails: on a page stored with CR LF line ends the pattern
    matches, and the document the publisher writes holds neither the
    characters that stood before the matched span nor those after it: every
    CR LF outside the span has become LF. *)
Lemma publisher_rewrites_line_ends :
  crlf_page = (lit "<p>" ++ [CR; LF])
                ++ (open_marker ++ [CR] ++ close_marker)
                ++ ([CR; LF] ++ lit "</p>")
  /\ exists written,
       @Scripts.update_index_html example_builtins (Html crlf_page) plain_stocks
       = ([WriteHtml written; Print MsgUpdatedEmbedded], Ok tt)
       /\ forall text,
            written <> (lit "<p>" ++ [CR; LF]) ++ text ++ ([CR; LF] ++ lit "</p>").
Proof.
  split; [reflexivity|].
  eexists. split; [vm_compute; reflexivity|].
  intros text E. apply (f_equal (firstn 4)) in E. vm_compute in E. discriminate E.
Qed.

(** C1, amended (idempotence).  On a document that, as read, contains a
    block, for a stocks mapping whose rendered block holds no backslash, no
    carriage return and the closing marker only as its last three
    characters, and when the regenerated document can be encoded, the
    publisher writes a document on which a second run with the same mapping
    writes the very same document again. *)
Theorem publisher_idempotent `{PyBuiltins}
        (stored : str) (stocks : dict pyval) (block inner : str) :
  has_block (universal_newlines stored) ->
  Scripts.new_prices stocks = Ok block ->
  no_backslash block = true ->
  no_cr block = true ->
  find_close block = Some (inner, []) ->
  encodable (regenerated (universal_newlines stored) block) = true ->
  exists once,
    Scripts.update_index_html (Html stored) stocks
    = ([WriteHtml once; Print MsgUpdatedEmbedded], Ok tt)
    /\ Scripts.update_index_html (Html once) stocks
       = ([WriteHtml once; Print MsgUpdatedEmbedded], Ok tt).
Proof.
  intros Hb Hn Hlit Hcr Hend Henc. assert (Hs := re_search_complete Hb).
  unfold regenerated in Henc.
  destruct (re_search (universal_newlines stored)) as [[[pre m] post]|] eqn:Es;
    [clear Hs|congruence].
  destruct (re_search_sound _ Es) as [E [Hleft [body [Em Hfirst]]]]. subst m.
  destruct (new_prices_shape _ Hn) as [mid Eb].
  destruct (find_close_sound _ Hend) as [Ei Hmin].
  rewrite app_nil_r in Ei.
  assert (Einner : inner = open_marker ++ mid).
  { rewrite Eb in Ei. rewrite app_assoc in Ei. apply app_inv_tail in Ei.
    symmetry. exact Ei. }
  assert (Hread : no_cr (pre ++ block ++ post) = true).
  { assert (Hr := read_no_cr stored). rewrite E in Hr.
    rewrite !no_cr_app in Hr. rewrite !no_cr_app, Hcr.
    apply andb_true_iff in Hr. destruct Hr as [Hp Hr].
    apply andb_true_iff in Hr. destruct Hr as [_ Hq].
    rewrite Hp, Hq. reflexivity. }
  exists (pre ++ block ++ post). split.
  - rewrite (@update_replaces _ _ _ _ _ _ _ _ Hn Es (expand_template_literal block _ Hlit)), Henc.
    reflexivity.
  - assert (Es' : re_search (universal_newlines (pre ++ block ++ post))
                  = Some (pre, block, post)).
    { rewrite (read_as_stored _ Hread).
      rewrite Eb. rewrite <- !app_assoc. apply re_search_first.
      - (* no block starts earlier than in the first document *)
        intros a b c Hab.
        destruct (le_lt_dec (length pre) (length a)) as [L|L]; [exact L|].
        assert (Hcut : exists w, pre ++ open_marker = (a ++ open_marker) ++ w).
        { assert (E2 : (pre ++ open_marker) ++ mid ++ close_marker ++ post
                       = (a ++ open_marker) ++ b ++ close_marker ++ c).
          { rewrite <- !app_assoc. exact Hab. }
          apply app_cut in E2.
          - destruct E2 as [w [Ew _]]. exists w. exact Ew.
          - rewrite !length_app. lia. }
        destruct Hcut as [w Ew]. apply (Hleft a (w ++ body) post).
        rewrite E. rewrite <- !app_assoc.
        rewrite app_assoc, Ew. rewrite <- !app_assoc. reflexivity.
      - (* the closing marker of the rendered block is the first one *)
        intros a b Hab.
        destruct (le_lt_dec (length mid) (length a)) as [L|L]; [exact L|].
        assert (E2 : (mid ++ close_marker) ++ post = (a ++ close_marker) ++ b).
        { rewrite <- !app_assoc. exact Hab. }
        apply app_cut in E2.
        + destruct E2 as [w [Ew _]].
          assert (Hocc : block = (open_marker ++ a) ++ close_marker ++ w).
          { rewrite Eb, Ew. rewrite <- !app_assoc. reflexivity. }
          specialize (Hmin _ _ Hocc). rewrite Einner in Hmin.
          rewrite !length_app in Hmin. lia.
        + rewrite !length_app, close_marker_length. lia. }
    rewrite (@update_replaces _ _ _ _ _ _ _ _ Hn Es' (expand_template_literal block _ Hlit)), Henc.
    reflexivity.
Qed.

Lemma publisher_idempotent_witness :
  exists once,
    @Scripts.update_index_html example_builtins (Html crlf_page) plain_stocks
    = ([WriteHtml once; Print MsgUpdatedEmbedded], Ok tt)
    /\ @Scripts.update_index_html example_builtins (Html once) plain_stocks
       = ([WriteHtml once; Print MsgUpdatedEmbedded], Ok tt).
Proof.
  eapply (@publisher_idempotent example_builtins crlf_page plain_stocks).
  - exists (lit "<p>" ++ [LF]), [], ([LF] ++ lit "</p>"). reflexivity.
  - vm_compute. reflexivity.
  - vm_compute. reflexivity.
  - vm_compute. reflexivity.
  - vm_compute. reflexivity.
  - reflexivity.
Defined.

(** C1, as stated, fails: with a currency text that holds a line break
    followed by [};] the block written by the first run is cut short by the
    second run's search, and the second run writes a longer document. *)
Lemma publisher_not_idempotent :
  has_block empty_block
  /\ exists once,
       @Scripts.update_index_html example_builtins (Html empty_block) hostile_stocks
       = ([WriteHtml once; Print MsgUpdatedEmbedded], Ok tt)
       /\ @Scripts.update_index_html example_builtins (Html once) hostile_stocks
          = ([WriteHtml (once ++ leftover); Print MsgUpdatedEmbedded], Ok tt)
       /\ once ++ leftover <> once.
Proof.
  split.
  - exists [], [], []. reflexivity.
  - eexists. split; [vm_compute; reflexivity|]. split; [vm_compute; reflexivity|].
    intros E. apply (f_equal (@length ascii)) in E. vm_compute in E. discriminate.
Qed.

(** C8, amended (no block found).  On a document whose text, as read, has
    no block the publisher never writes; when every entry can be rendered
    it prints the warning and returns, and the run, which has written the
    JSON snapshot before, goes on to its last line. *)
Theorem publisher_no_block `{PyBuiltins} (stored : str) (stocks : dict pyval) :
  ~ has_block (universal_newlines stored) ->
  filter is_write_html (fst (Scripts.update_index_html (Html stored) stocks)) = []
  /\ (Forall (fun kv => renderable (snd kv) = true) stocks ->
      Scripts.update_index_html (Html stored) stocks = ([Print MsgNoBlock], Ok tt)
      /\ forall cfg now pj existing net t,
           load_existing pj = Ok existing ->
           Scripts.loop existing net (length cfg) 0 cfg [] = (t, Ok stocks) ->
           Scripts.main cfg now pj (Html stored) net
           = (Print MsgBanner :: t ++
                [WriteJson (snapshot now stocks); Print MsgWritten;
                 Print MsgNoBlock; Print (MsgDone now)], Ok tt)).
Proof.
  intros Hn. apply re_search_none in Hn.
  assert (Hu := @update_no_block _ stored stocks Hn). split.
  - rewrite Hu. destruct (Scripts.new_prices stocks); reflexivity.
  - intros Hall. destruct (new_prices_ok Hall) as [block Hb].
    rewrite Hb in Hu. split; [exact Hu|].
    intros cfg now pj existing net t He Hl.
    rewrite (@main_run _ _ now _ (Html stored) _ _ _ _ He Hl), Hu. reflexivity.
Qed.

Lemma publisher_no_block_witness :
  filter is_write_html
    (fst (@Scripts.update_index_html example_builtins (Html page_without_block)
            plain_stocks)) = []
  /\ (Forall (fun kv => renderable (snd kv) = true) plain_stocks ->
      @Scripts.update_index_html example_builtins (Html page_without_block)
        plain_stocks
      = ([Print MsgNoBlock], Ok tt)
      /\ forall cfg now pj existing net t,
           load_existing pj = Ok existing ->
           @Scripts.loop example_builtins existing net (length cfg) 0 cfg []
           = (t, Ok plain_stocks) ->
           @Scripts.main example_builtins cfg now pj (Html page_without_block) net
           = (Print MsgBanner :: t ++
                [WriteJson (snapshot now plain_stocks); Print MsgWritten;
                 Print MsgNoBlock; Print (MsgDone now)], Ok tt)).
Proof.
  apply (@publisher_no_block example_builtins page_without_block plain_stocks).
  apply re_search_none. vm_compute. reflexivity.
Defined.

(** C8, as stated, fails in two ways.  With an entry taken from a prior
    snapshot that is no object, the run on a page without a block writes
    the JSON snapshot and then raises in the publisher: no warning, no
    last line.  And a page stored with CR line ends, in whose bytes the
    pattern does not match, is read with LF line ends and rewritten. *)
Lemma publisher_no_block_fails :
  (~ has_block page_without_block
   /\ exists t stocks,
        @Scripts.main example_builtins [hood] (lit "now") odd_snapshot
          (Html page_without_block) no_answer
        = (t, Raise AttributeError)
        /\ writes t = [WriteJson (snapshot (lit "now") stocks)]
        /\ ~ In (Print MsgNoBlock) t)
  /\ (~ has_block cr_page
      /\ exists written,
           @Scripts.update_index_html example_builtins (Html cr_page) plain_stocks
           = ([WriteHtml written; Print MsgUpdatedEmbedded], Ok tt)).
Proof.
  split; split.
  - apply re_search_none. vm_compute. reflexivity.
  - eexists. eexists. split; [vm_compute; reflexivity|].
    split; [vm_compute; reflexivity|].
    intros Hin. repeat (destruct Hin as [E|Hin]; [discriminate E|]). exact Hin.
  - apply re_search_none. vm_compute. reflexivity.
  - eexists. vm_compute. reflexivity.
Qed.

(** C9 (index.html missing).  When the file does not exist the publisher
    prints its warning and returns: nothing is written, nothing is raised,
    and the run ends normally after the JSON snapshot it wrote before. *)
Theorem publisher_missing_file `{PyBuiltins} (stocks : dict pyval)
        (cfg : list stock) (now : str) (pj : json_file) (existing : pyval)
        (net : nat -> response) (t : list event) :
  Scripts.update_index_html NoHtml stocks = ([Print MsgNoHtml], Ok tt)
  /\ (load_existing pj = Ok existing ->
      Scripts.loop existing net (length cfg) 0 cfg [] = (t, Ok stocks) ->
      Scripts.main cfg now pj NoHtml net
      = (Print MsgBanner :: t ++
           [WriteJson (snapshot now stocks); Print MsgWritten;
            Print MsgNoHtml; Print (MsgDone now)], Ok tt)).
Proof.
  split; [reflexivity|].
  intros He Hl. rewrite (@main_run _ _ now _ NoHtml _ _ _ _ He Hl). reflexivity.
Qed.

Lemma publisher_missing_file_witness :
  exists t stocks,
    @Scripts.loop example_builtins PNone no_answer
      (length Scripts.STOCKS) 0 Scripts.STOCKS [] = (t, Ok stocks)
    /\ @Scripts.update_index_html example_builtins NoHtml stocks
       = ([Print MsgNoHtml], Ok tt)
    /\ @Scripts.main example_builtins Scripts.STOCKS (lit "2026-03-01 07:00 UTC")
         NoFile NoHtml no_answer
       = (Print MsgBanner :: t ++
            [WriteJson (snapshot (lit "2026-03-01 07:00 UTC") stocks);
             Print MsgWritten; Print MsgNoHtml;
             Print (MsgDone (lit "2026-03-01 07:00 UTC"))], Ok tt).
Proof.
  assert (Hr : exists t stocks,
             @Scripts.loop example_builtins PNone no_answer
               (length Scripts.STOCKS) 0 Scripts.STOCKS [] = (t, Ok stocks))
    by (vm_compute; eexists; eexists; reflexivity).
  destruct Hr as [t [stocks Hl]]. exists t, stocks.
  split; [exact Hl|].
  destruct (@publisher_missing_file example_builtins stocks Scripts.STOCKS
              (lit "2026-03-01 07:00 UTC") NoFile PNone no_answer t) as [Hu Hm].
  split; [exact Hu|]. exact (Hm eq_refl Hl).
Defined.

(* ================================================================== *)
(** ** The exchange rate: [fetch_fx_rate] *)

Lemma fetch_fx_rate_try_quoted `{PyBuiltins} (resp : response) :
  Root.fetch_fx_rate_try resp
  = match quoted resp with
    | Some x => py_float x
    | None => match Root.fetch_fx_rate_try resp with
              | Ok r => Raise KeyError
              | Raise e => Raise e
              end
    end.
Proof.
  unfold Root.fetch_fx_rate_try, quoted.
  destruct resp as [|data]; [reflexivity|].
  destruct data as [| | | | | |d]; try reflexivity.
  cbn [net_data rbind py_getitem].
  destruct (dict_get d (lit "Realtime Currency Exchange Rate")) as [q|]; [|reflexivity].
  cbn [rbind]. destruct q as [| | | | | |q]; try reflexivity.
  cbn [py_getitem]. destruct (dict_get q (lit "5. Exchange Rate")); reflexivity.
Qed.

(** C10.  [fetch_fx_rate] never raises.  It returns the rate the provider
    quotes when the response carries one that [float] reads, and the
    fallback rate 1.05 in every other case: no response, a body that is not
    the expected object, a rate that [float] rejects. *)
Theorem fetch_fx_rate_total `{PyBuiltins} (resp : response) :
  (exists t rate, Root.fetch_fx_rate resp = (t, Ok rate))
  /\ (forall x rate, quoted resp = Some x -> py_float x = Ok rate ->
        Root.fetch_fx_rate resp
        = ([Print MsgFetchingFx; Request CurrencyExchangeRate; Print (MsgFxRate rate)],
           Ok rate))
  /\ (quoted resp = None \/ (exists x e, quoted resp = Some x /\ py_float x = Raise e) ->
        exists e, Root.fetch_fx_rate resp
        = ([Print MsgFetchingFx; Request CurrencyExchangeRate; Print (MsgFxWarning e)],
           Ok Root.FALLBACK_RATE))
  /\ Root.FALLBACK_RATE = S754_finite false 4728779608739021 (-52).
Proof.
  assert (Hq := fetch_fx_rate_try_quoted resp).
  unfold Root.fetch_fx_rate. repeat split.
  - destruct (Root.fetch_fx_rate_try resp); eexists; eexists; reflexivity.
  - intros x rate Ex Er. rewrite Hq, Ex, Er. reflexivity.
  - intros [En|[x [e [Ex Er]]]].
    + rewrite En in Hq. destruct (Root.fetch_fx_rate_try resp) as [r|e].
      * discriminate.
      * exists e. reflexivity.
    + rewrite Hq, Ex, Er. exists e. reflexivity.
Qed.

Lemma fetch_fx_rate_total_witness :
  @Root.fetch_fx_rate example_builtins fx_answer
  = ([Print MsgFetchingFx; Request CurrencyExchangeRate;
      Print (MsgFxRate (of_decimal 1085 (-3)))], Ok (of_decimal 1085 (-3)))
  /\ exists e, @Root.fetch_fx_rate example_builtins NetError
     = ([Print MsgFetchingFx; Request CurrencyExchangeRate; Print (MsgFxWarning e)],
        Ok Root.FALLBACK_RATE).
Proof.
  split.
  - apply (proj1 (proj2 (@fetch_fx_rate_total example_builtins fx_answer))
             (PStr (lit "1.08500000"))).
    + reflexivity.
    + vm_compute. reflexivity.
  - apply (proj1 (proj2 (proj2 (@fetch_fx_rate_total example_builtins NetError)))).
    left. reflexivity.
Defined.

(* ================================================================== *)
(** ** Dictionaries *)

Lemma dict_get_set_same {V} (d : dict V) (k : str) (v : V) :
  dict_get (dict_set d k v) k = Some v.
Proof.
  induction d as [|[k' v'] d IH]; cbn [dict_set dict_get].
  - rewrite str_eqb_refl. reflexivity.
  - destruct (str_eqb k' k) eqn:E; cbn [dict_get]; rewrite E; [reflexivity|exact IH].
Qed.

Lemma dict_get_set_other {V} (d : dict V) (k k' : str) (v : V) :
  k <> k' -> dict_get (dict_set d k v) k' = dict_get d k'.
Proof.
  intros Hne. induction d as [|[k0 v0] d IH]; cbn [dict_set dict_get].
  - apply str_eqb_neq in Hne. rewrite Hne. reflexivity.
  - destruct (str_eqb k0 k) eqn:E; cbn [dict_get].
    + apply str_eqb_eq in E. subst k0. apply str_eqb_neq in Hne. rewrite Hne.
      reflexivity.
    + destruct (str_eqb k0 k'); [reflexivity|exact IH].
Qed.

Lemma dict_get_in {V} (d : dict V) (k : str) :
  In k (keys d) <-> dict_get d k <> None.
Proof.
  induction d as [|[k' v'] d IH]; cbn [keys map dict_get In fst].
  - split; [intros []|congruence].
  - destruct (str_eqb k' k) eqn:E.
    + apply str_eqb_eq in E. split; [discriminate|auto].
    + apply str_eqb_neq in E. fold (keys d). rewrite <- IH. tauto.
Qed.

Lemma dict_get_none {V} (d : dict V) (k : str) :
  ~ In k (keys d) <-> dict_get d k = None.
Proof.
  rewrite dict_get_in. destruct (dict_get d k); intuition congruence.
Qed.

(** A new key goes last; an old one keeps the keys as they are. *)
Lemma keys_set_new {V} (d : dict V) (k : str) (v : V) :
  ~ In k (keys d) -> keys (dict_set d k v) = keys d ++ [k].
Proof.
  induction d as [|[k' v'] d IH]; intros Hn; cbn [dict_set keys map fst app].
  - reflexivity.
  - destruct (str_eqb k' k) eqn:E.
    + apply str_eqb_eq in E. subst k'. exfalso. apply Hn. left. reflexivity.
    + cbn [map fst]. f_equal. apply IH. intros Hin. apply Hn. right. exact Hin.
Qed.

Lemma keys_set_old {V} (d : dict V) (k : str) (v : V) :
  In k (keys d) -> keys (dict_set d k v) = keys d.
Proof.
  induction d as [|[k' v'] d IH]; intros Hin; cbn [dict_set keys map fst].
  - destruct Hin.
  - destruct (str_eqb k' k) eqn:E; cbn [map fst].
    + reflexivity.
    + f_equal. apply IH. destruct Hin as [Hk|Hin]; [|exact Hin].
      apply str_eqb_neq in E. cbn [fst] in Hk. congruence.
Qed.

Lemma in_keys_set {V} (d : dict V) (k x : str) (v : V) :
  In x (keys (dict_set d k v)) <-> x = k \/ In x (keys d).
Proof.
  destruct (in_dec (list_eq_dec ascii_dec) k (keys d)) as [Hin|Hn].
  - rewrite (@keys_set_old _ d k v Hin). split; [tauto|].
    intros [E|H]; [subst; exact Hin|exact H].
  - rewrite (@keys_set_new _ d k v Hn), in_app_iff. cbn [In]. split.
    + intros [H|[E|[]]]; [right; exact H|left; symmetry; exact E].
    + intros [E|H]; [right; left; symmetry; exact E|left; exact H].
Qed.

Lemma nodup_keys_set {V} (d : dict V) (k : str) (v : V) :
  NoDup (keys d) -> NoDup (keys (dict_set d k v)).
Proof.
  intros Hnd. destruct (in_dec (list_eq_dec ascii_dec) k (keys d)) as [Hin|Hn].
  - rewrite (@keys_set_old _ d k v Hin). exact Hnd.
  - rewrite (@keys_set_new _ d k v Hn). apply NoDup_app.
    + exact Hnd.
    + constructor; [intros []|constructor].
    + intros x Hx [E|[]]. subst. exact (Hn Hx).
Qed.

(* ================================================================== *)
(** ** The trace monad and the frame of the loop *)

Lemma bind_ok {A B} (m : M A) (f : A -> M B) (t : list event) (b : B) :
  bind m f = (t, Ok b) ->
  exists t1 a t2, m = (t1, Ok a) /\ f a = (t2, Ok b) /\ t = t1 ++ t2.
Proof.
  unfold bind. destruct m as [t1 [a|e]]; [|discriminate].
  destruct (f a) as [t2 r] eqn:Ef. intros E. inversion E; subst.
  exists t1, a, t2. auto.
Qed.

Lemma bind_eq {A B} (m : M A) (f : A -> M B) (t1 t2 : list event) (a : A)
      (r : result B) :
  m = (t1, Ok a) -> f a = (t2, r) -> bind m f = (t1 ++ t2, r).
Proof. intros Em Ef. unfold bind. rewrite Em, Ef. reflexivity. Qed.

Section LoopFrame.
Variable body : nat -> stock -> M pyval.

Lemma for_each_step (i : nat) (stk : stock) (rest : list stock)
      (acc : dict pyval) (t : list event) (stocks : dict pyval) :
  for_each_stock body i (stk :: rest) acc = (t, Ok stocks) ->
  exists t1 e t2,
    body i stk = (t1, Ok e)
    /\ for_each_stock body (S i) rest (dict_set acc (ticker stk) e) = (t2, Ok stocks)
    /\ t = t1 ++ t2.
Proof. cbn [for_each_stock]. apply bind_ok. Qed.

(** The loop returns as soon as every pass through its body returns. *)
Lemma for_each_total (todo : list stock) (i : nat) (acc : dict pyval) :
  (forall k stk, nth_error todo k = Some stk ->
                 exists t e, body (i + k) stk = (t, Ok e)) ->
  exists t stocks, for_each_stock body i todo acc = (t, Ok stocks).
Proof.
  revert i acc. induction todo as [|stk rest IH]; intros i acc Hall.
  - exists [], acc. reflexivity.
  - destruct (Hall 0%nat stk eq_refl) as [t1 [e E1]]. rewrite Nat.add_0_r in E1.
    destruct (IH (S i) (dict_set acc (ticker stk) e)) as [t2 [stocks E2]].
    { intros k s Hk. specialize (Hall (S k) s Hk).
      rewrite Nat.add_succ_r in Hall. exact Hall. }
    exists (t1 ++ t2), stocks. cbn [for_each_stock].
    eapply bind_eq; eassumption.
Qed.

(** A loop that returned went through its body for every stock, and its
    trace is the traces of the passes, one after the other. *)
Lemma for_each_passes (todo : list stock) (i : nat) (acc : dict pyval)
      (t : list event) (stocks : dict pyval) :
  for_each_stock body i todo acc = (t, Ok stocks) ->
  (forall k stk, nth_error todo k = Some stk ->
                 exists t1 e, body (i + k) stk = (t1, Ok e))
  /\ t = concat (map (fun p => fst (body (fst p) (snd p)))
                     (combine (seq i (length todo)) todo)).
Proof.
  revert i acc t. induction todo as [|stk rest IH]; intros i acc t Hl.
  - cbn in Hl. inversion Hl; subst. split; [|reflexivity].
    intros [|k] s Hk; discriminate.
  - destruct (for_each_step _ _ _ _ Hl) as [t1 [e [t2 [E1 [E2 Et]]]]].
    destruct (IH _ _ _ E2) as [Hall Ht]. split.
    + intros [|k] s Hk.
      * cbn in Hk. inversion Hk; subst. rewrite Nat.add_0_r. eauto.
      * rewrite Nat.add_succ_r. apply (Hall k s Hk).
    + cbn [length seq combine map concat fst snd]. rewrite E1. cbn [fst].
      rewrite Et, Ht. reflexivity.
Qed.

(** The keys of the result: those there before, then the new tickers. *)
Lemma for_each_keys (todo : list stock) (i : nat) (acc : dict pyval)
      (t : list event) (stocks : dict pyval) :
  for_each_stock body i todo acc = (t, Ok stocks) ->
  (forall tk, In tk (keys stocks) <-> In tk (keys acc) \/ In tk (map ticker todo))
  /\ (NoDup (keys acc) -> NoDup (keys stocks))
  /\ (NoDup (map ticker todo) ->
      (forall tk, In tk (map ticker todo) -> ~ In tk (keys acc)) ->
      keys stocks = keys acc ++ map ticker todo).
Proof.
  revert i acc t. induction todo as [|stk rest IH]; intros i acc t Hl.
  - cbn in Hl. inversion Hl; subst. cbn [map]. repeat split.
    + tauto.
    + intros [H|[]]. exact H.
    + tauto.
    + intros _ _. rewrite app_nil_r. reflexivity.
  - destruct (for_each_step _ _ _ _ Hl) as [t1 [e [t2 [E1 [E2 Et]]]]].
    destruct (IH _ _ _ E2) as [Hin [Hnd Hexact]]. cbn [map]. repeat split.
    + intros H. apply Hin in H. rewrite in_keys_set in H. cbn [In].
      intuition (subst; auto).
    + intros H. apply Hin. rewrite in_keys_set. cbn [In] in H.
      intuition (subst; auto).
    + intros Hacc. apply Hnd. apply nodup_keys_set. exact Hacc.
    + intros Hnd' Hfresh. inversion Hnd' as [|x l Hx Hl']; subst.
      rewrite Hexact.
      * rewrite keys_set_new; [|apply Hfresh; left; reflexivity].
        rewrite <- app_assoc. reflexivity.
      * exact Hl'.
      * intros tk Htk. rewrite in_keys_set. intros [E|H].
        -- subst. exact (Hx Htk).
        -- apply (Hfresh tk); [right; exact Htk|exact H].
Qed.

(** Tickers the loop does not visit keep their entry. *)
Lemma for_each_keeps (todo : list stock) (i : nat) (acc : dict pyval)
      (t : list event) (stocks : dict pyval) (tk : str) :
  for_each_stock body i todo acc = (t, Ok stocks) ->
  ~ In tk (map ticker todo) ->
  dict_get stocks tk = dict_get acc tk.
Proof.
  revert i acc t. induction todo as [|stk rest IH]; intros i acc t Hl Hn.
  - cbn in Hl. inversion Hl; subst. reflexivity.
  - destruct (for_each_step _ _ _ _ Hl) as [t1 [e [t2 [E1 [E2 Et]]]]].
    cbn [map In] in Hn. rewrite (IH _ _ _ E2); [|tauto].
    apply dict_get_set_other. tauto.
Qed.

(** Under distinct tickers, the result holds for each stock what the pass
    for that stock returned. *)
Lemma for_each_entry (todo : list stock) (i : nat) (acc : dict pyval)
      (t : list event) (stocks : dict pyval) (k : nat) (stk : stock)
      (t1 : list event) (e : pyval) :
  NoDup (map ticker todo) ->
  for_each_stock body i todo acc = (t, Ok stocks) ->
  nth_error todo k = Some stk ->
  body (i + k) stk = (t1, Ok e) ->
  dict_get stocks (ticker stk) = Some e.
Proof.
  revert i acc t k. induction todo as [|s rest IH]; intros i acc t k Hnd Hl Hk Hb.
  - destruct k; discriminate.
  - destruct (for_each_step _ _ _ _ Hl) as [t1' [e' [t2 [E1 [E2 Et]]]]].
    cbn [map] in Hnd. inversion Hnd as [|x l Hx Hl']; subst.
    destruct k as [|k].
    + cbn in Hk. inversion Hk; subst. rewrite Nat.add_0_r in Hb.
      rewrite Hb in E1. inversion E1; subst.
      erewrite for_each_keeps; [apply dict_get_set_same|exact E2|exact Hx].
    + cbn in Hk. rewrite Nat.add_succ_r in Hb.
      apply (IH (S i) _ _ k Hl' E2 Hk Hb).
Qed.

End LoopFrame.

(* ================================================================== *)
(** ** The provider client: [fetch_daily] *)

Lemma quiet_ret {A} (a : A) : quiet (ret a).
Proof. reflexivity. Qed.

Lemma quiet_lift {A} (r : result A) : quiet (lift r).
Proof. reflexivity. Qed.

Lemma quiet_print (m : message) : quiet (emit (Print m)).
Proof. reflexivity. Qed.

Lemma quiet_bind {A B} (m : M A) (f : A -> M B) :
  quiet m -> (forall a, quiet (f a)) -> quiet (bind m f).
Proof.
  unfold quiet, bind. destruct m as [t [a|e]]; cbn [fst]; intros Hm Hf.
  - specialize (Hf a). destruct (f a) as [t' r]. cbn [fst] in *.
    rewrite forallb_app, Hm, Hf. reflexivity.
  - exact Hm.
Qed.

Lemma quiet_schedule (t : list event) :
  forallb is_print t = true -> schedule t = [].
Proof.
  induction t as [|e t IH]; [reflexivity|]. cbn [forallb]. intros Hp.
  apply andb_true_iff in Hp. destruct Hp as [He Ht].
  unfold schedule. cbn [filter]. destruct e; try discriminate.
  cbn. apply IH. exact Ht.
Qed.

Lemma schedule_app (t1 t2 : list event) :
  schedule (t1 ++ t2) = schedule t1 ++ schedule t2.
Proof. apply filter_app. Qed.

Section FetchFacts.
Context `{PyBuiltins}.

(** [fetch_daily] never raises: it asks the provider once and returns what
    [provided] describes. *)
Lemma scripts_fetch_daily (resp : response) (symbol : str) :
  exists log,
    Scripts.fetch_daily resp symbol
    = (Print (MsgFetching symbol) :: Request (TimeSeriesDaily symbol) :: log,
       Ok (provided resp))
    /\ forallb is_print log = true.
Proof.
  unfold Scripts.fetch_daily, Scripts.fetch_daily_try, provided.
  destruct resp as [|data]; [eexists; split; reflexivity|].
  destruct data as [| | | | s|l|d]; try (eexists; split; reflexivity).
  - cbn [net_data lift bind py_contains app].
    destruct (substrb TIME_SERIES_KEY s); eexists; split; reflexivity.
  - cbn [net_data lift bind py_contains app].
    destruct (existsb _ l); eexists; split; reflexivity.
  - cbn [net_data lift bind py_contains app py_getitem py_get].
    destruct (dict_get d TIME_SERIES_KEY) as [v|]; eexists; split; reflexivity.
Qed.

Lemma root_fetch_daily (resp : response) (symbol : str) :
  exists log,
    Root.fetch_daily resp symbol
    = (Print (MsgFetching symbol) :: Request (TimeSeriesDaily symbol) :: log,
       Ok (provided resp))
    /\ forallb is_print log = true.
Proof.
  unfold Root.fetch_daily, Root.fetch_daily_try, provided.
  destruct resp as [|data]; [eexists; split; reflexivity|].
  destruct data as [| | | | s|l|d]; try (eexists; split; reflexivity).
  - cbn [net_data lift bind py_contains app].
    destruct (substrb TIME_SERIES_KEY s); eexists; split; reflexivity.
  - cbn [net_data lift bind py_contains app].
    destruct (existsb _ l); eexists; split; reflexivity.
  - cbn [net_data lift bind py_contains app py_getitem py_get].
    destruct (dict_get d TIME_SERIES_KEY) as [v|]; eexists; split; reflexivity.
Qed.

End FetchFacts.

(* ================================================================== *)
(** ** Merge and derive *)

Section MergeFacts.
Context `{PyBuiltins}.

Lemma cache_lookup_has (existing : pyval) (tk : str) (e : pyval) :
  cache_lookup existing tk = Some e ->
  has_cached existing tk = Ok true /\ cached_entry existing tk = Ok e.
Proof.
  unfold cache_lookup, has_cached, cached_entry.
  destruct existing as [| | | | | |top]; try discriminate.
  destruct top as [|kv top]; [discriminate|]. cbn [py_truthy py_get py_getitem rbind].
  destruct (dict_get (kv :: top) (lit "stocks")) as [[| | | | | |cache]|];
    try discriminate.
  cbn [rbind py_contains py_getitem]. intros E. rewrite E. split; reflexivity.
Qed.

Lemma cache_lookup_none (existing : pyval) (tk : str) :
  snapshot_shaped existing = true ->
  cache_lookup existing tk = None ->
  has_cached existing tk = Ok false.
Proof.
  unfold snapshot_shaped, cache_lookup, has_cached.
  destruct existing as [| |z|f|s|l|top]; cbn [py_truthy negb];
    try (intros E _; apply negb_true_iff in E; rewrite E; reflexivity);
    try reflexivity.
  destruct top as [|kv top]; [reflexivity|]. cbn [py_get rbind].
  destruct (dict_get (kv :: top) (lit "stocks")) as [[| | | | | |cache]|];
    try discriminate.
  - intros _ E. cbn [py_contains]. rewrite E. reflexivity.
  - reflexivity.
Qed.

Lemma scripts_absent_cached (existing : pyval) (stk : stock) (e : pyval) :
  cache_lookup existing (ticker stk) = Some e ->
  Scripts.absent_entry existing stk
  = ([Print (MsgUsingCached (ticker stk))], Ok e).
Proof.
  intros Hc. apply cache_lookup_has in Hc. destruct Hc as [Hh He].
  unfold Scripts.absent_entry. rewrite Hh, He. reflexivity.
Qed.

Lemma root_absent_cached (existing : pyval) (stk : stock) (e : pyval) :
  cache_lookup existing (ticker stk) = Some e ->
  Root.absent_entry existing stk
  = ([Print (MsgUsingCached (ticker stk))], Ok e).
Proof.
  intros Hc. apply cache_lookup_has in Hc. destruct Hc as [Hh He].
  unfold Root.absent_entry. rewrite Hh, He. reflexivity.
Qed.

Lemma scripts_absent_placeholder (existing : pyval) (stk : stock) :
  snapshot_shaped existing = true ->
  cache_lookup existing (ticker stk) = None ->
  Scripts.absent_entry existing stk = ([], Ok (Scripts.placeholder stk)).
Proof.
  intros Hs Hc. unfold Scripts.absent_entry.
  rewrite (cache_lookup_none _ _ Hs Hc). reflexivity.
Qed.

Lemma root_absent_placeholder (existing : pyval) (stk : stock) :
  snapshot_shaped existing = true ->
  cache_lookup existing (ticker stk) = None ->
  Root.absent_entry existing stk
  = ([Print (MsgSkipping (ticker stk))], Ok (Root.placeholder stk)).
Proof.
  intros Hs Hc. unfold Root.absent_entry.
  rewrite (cache_lookup_none _ _ Hs Hc). reflexivity.
Qed.

Lemma quiet_scripts_absent (existing : pyval) (stk : stock) :
  quiet (Scripts.absent_entry existing stk).
Proof.
  unfold Scripts.absent_entry. apply quiet_bind; [apply quiet_lift|].
  intros [|].
  - apply quiet_bind; [apply quiet_print|]. intros _. apply quiet_lift.
  - apply quiet_ret.
Qed.

Lemma quiet_root_absent (existing : pyval) (stk : stock) :
  quiet (Root.absent_entry existing stk).
Proof.
  unfold Root.absent_entry. apply quiet_bind; [apply quiet_lift|].
  intros [|].
  - apply quiet_bind; [apply quiet_print|]. intros _. apply quiet_lift.
  - apply quiet_bind; [apply quiet_print|]. intros _. apply quiet_ret.
Qed.

Lemma quiet_fresh (stk : stock) (ts : pyval) : quiet (fresh_entry stk ts).
Proof.
  unfold fresh_entry. apply quiet_bind; [apply quiet_lift|]. intros items.
  apply quiet_bind; [apply quiet_lift|]. intros daily.
  apply quiet_bind; [|intros; apply quiet_ret].
  destruct daily.
  - apply quiet_bind; [apply quiet_print|]. intros; apply quiet_ret.
  - apply quiet_bind; [apply quiet_lift|]. intros.
    apply quiet_bind; [apply quiet_lift|]. intros.
    apply quiet_bind; [apply quiet_lift|]. intros.
    apply quiet_bind; [apply quiet_print|]. intros; apply quiet_ret.
Qed.

End MergeFacts.

(* ================================================================== *)
(** ** One pass through the loop, and the schedule of a run *)

Section IterationFacts.
Context `{PyBuiltins}.

Lemma quiet_scripts_resolve (existing : pyval) (stk : stock) (ts : pyval) :
  quiet (Scripts.resolve existing stk ts).
Proof.
  unfold Scripts.resolve. destruct (is_none ts);
    [apply quiet_scripts_absent|apply quiet_fresh].
Qed.

Lemma quiet_root_resolve (existing : pyval) (stk : stock) (ts : pyval) :
  quiet (Root.resolve existing stk ts).
Proof.
  unfold Root.resolve. destruct (is_none ts);
    [apply quiet_root_absent|apply quiet_fresh].
Qed.

(** A pass is: the call, the delay when another call follows, the merge. *)
Lemma scripts_iteration_eq (existing : pyval) (resp : response) (n k : nat)
      (stk : stock) :
  exists log,
    forallb is_print log = true
    /\ Scripts.iteration existing resp n k stk
       = (Print (MsgFetching (av_symbol stk))
            :: Request (TimeSeriesDaily (av_symbol stk))
            :: log
            ++ (if Z.of_nat k <? Z.of_nat n - 1 then [Sleep 13] else [])
            ++ fst (Scripts.resolve existing stk (provided resp)),
          snd (Scripts.resolve existing stk (provided resp))).
Proof.
  destruct (scripts_fetch_daily resp (av_symbol stk)) as [log [Ef Hlog]].
  exists log. split; [exact Hlog|].
  unfold Scripts.iteration. rewrite Ef. unfold bind at 1.
  destruct (Scripts.resolve existing stk (provided resp)) as [t r] eqn:Er.
  destruct (Z.of_nat k <? Z.of_nat n - 1); cbn [emit ret bind fst snd app];
    destruct r; rewrite <- ?app_assoc; reflexivity.
Qed.

Lemma root_iteration_eq (existing : pyval) (resp : response) (stk : stock) :
  exists log,
    forallb is_print log = true
    /\ Root.iteration existing resp stk
       = (Print (MsgFetching (av_symbol stk))
            :: Request (TimeSeriesDaily (av_symbol stk))
            :: log ++ [Sleep 12]
            ++ fst (Root.resolve existing stk (provided resp)),
          snd (Root.resolve existing stk (provided resp))).
Proof.
  destruct (root_fetch_daily resp (av_symbol stk)) as [log [Ef Hlog]].
  exists log. split; [exact Hlog|].
  unfold Root.iteration. rewrite Ef. unfold bind at 1.
  destruct (Root.resolve existing stk (provided resp)) as [t r] eqn:Er.
  cbn [emit ret bind fst snd app]. destruct r; rewrite <- ?app_assoc; reflexivity.
Qed.

Lemma scripts_iteration_schedule (existing : pyval) (resp : response)
      (n k : nat) (stk : stock) :
  schedule (fst (Scripts.iteration existing resp n k stk))
  = Request (TimeSeriesDaily (av_symbol stk))
      :: (if Z.of_nat k <? Z.of_nat n - 1 then [Sleep 13] else []).
Proof.
  destruct (scripts_iteration_eq existing resp n k stk) as [log [Hlog E]].
  rewrite E. cbn [fst].
  change (schedule (?a :: ?b :: ?l)) with (b :: schedule l).
  rewrite !schedule_app, (quiet_schedule _ Hlog),
    (quiet_schedule _ (quiet_scripts_resolve existing stk (provided resp))).
  rewrite app_nil_r. cbn [app].
  destruct (Z.of_nat k <? Z.of_nat n - 1); reflexivity.
Qed.

Lemma root_iteration_schedule (existing : pyval) (resp : response) (stk : stock) :
  schedule (fst (Root.iteration existing resp stk))
  = [Request (TimeSeriesDaily (av_symbol stk)); Sleep 12].
Proof.
  destruct (root_iteration_eq existing resp stk) as [log [Hlog E]].
  rewrite E. cbn [fst].
  change (schedule (?a :: ?b :: ?l)) with (b :: schedule l).
  rewrite !schedule_app, (quiet_schedule _ Hlog),
    (quiet_schedule _ (quiet_root_resolve existing stk (provided resp))).
  reflexivity.
Qed.

(** The schedule of scripts/fetch_prices.py: a delay between two calls,
    none before the first call, none after the last. *)
Lemma scripts_loop_schedule (existing : pyval) (net : nat -> response) (n : nat)
      (todo : list stock) (i : nat) (acc : dict pyval)
      (t : list event) (stocks : dict pyval) :
  Scripts.loop existing net n i todo acc = (t, Ok stocks) ->
  (i + length todo = n)%nat ->
  schedule t = intersperse (Sleep 13) (requests todo).
Proof.
  unfold Scripts.loop. revert i acc t.
  induction todo as [|stk rest IH]; intros i acc t Hl Hn.
  - cbn in Hl. inversion Hl; subst. reflexivity.
  - destruct (for_each_step _ _ _ _ _ Hl) as [t1 [e [t2 [E1 [E2 Et]]]]].
    assert (Hs := scripts_iteration_schedule existing (net i) n i stk).
    rewrite E1 in Hs. cbn [fst] in Hs.
    rewrite Et, schedule_app, Hs.
    cbn [length] in Hn. rewrite (IH (S i) _ _ E2) by lia.
    destruct rest as [|stk' rest'].
    + cbn [length] in Hn.
      assert (Hlast : (Z.of_nat i <? Z.of_nat n - 1) = false)
        by (apply Z.ltb_ge; lia).
      rewrite Hlast. reflexivity.
    + cbn [length] in Hn.
      assert (Hmore : (Z.of_nat i <? Z.of_nat n - 1) = true)
        by (apply Z.ltb_lt; lia).
      rewrite Hmore. reflexivity.
Qed.

(** The schedule of fetch_prices.py: a delay after every call. *)
Lemma root_loop_schedule (existing : pyval) (net : nat -> response)
      (todo : list stock) (i : nat) (acc : dict pyval)
      (t : list event) (stocks : dict pyval) :
  Root.loop existing net i todo acc = (t, Ok stocks) ->
  schedule t = flat_map (fun r => [r; Sleep 12]) (requests todo).
Proof.
  unfold Root.loop. revert i acc t.
  induction todo as [|stk rest IH]; intros i acc t Hl.
  - cbn in Hl. inversion Hl; subst. reflexivity.
  - destruct (for_each_step _ _ _ _ _ Hl) as [t1 [e [t2 [E1 [E2 Et]]]]].
    assert (Hs := root_iteration_schedule existing (net i) stk).
    rewrite E1 in Hs. cbn [fst] in Hs.
    rewrite Et, schedule_app, Hs, (IH (S i) _ _ E2). reflexivity.
Qed.

End IterationFacts.

Lemma delays_schedule (t : list event) : delays t = delays (schedule t).
Proof.
  unfold delays, schedule. induction t as [|e t IH]; [reflexivity|].
  cbn [filter]. destruct e; cbn; auto.
Qed.

Lemma calls_schedule (t : list event) : calls t = calls (schedule t).
Proof.
  unfold calls, schedule. induction t as [|e t IH]; [reflexivity|].
  cbn [filter]. destruct e; cbn; auto.
Qed.

Lemma intersperse_counts (todo : list stock) :
  delays (intersperse (Sleep 13) (requests todo)) = (length todo - 1)%nat
  /\ calls (intersperse (Sleep 13) (requests todo)) = length todo.
Proof.
  induction todo as [|stk rest IH]; [split; reflexivity|].
  destruct rest as [|stk' rest'].
  - split; reflexivity.
  - destruct IH as [IHd IHc].
    change (intersperse (Sleep 13) (requests (stk :: stk' :: rest')))
      with (Request (TimeSeriesDaily (av_symbol stk)) :: Sleep 13
              :: intersperse (Sleep 13) (requests (stk' :: rest'))).
    change (delays (?r :: Sleep 13 :: ?l)) with (S (delays l)).
    change (calls (Request ?q :: Sleep 13 :: ?l)) with (S (calls l)).
    rewrite IHd, IHc. cbn [length]. split; lia.
Qed.

(* ================================================================== *)
(** ** The order on dates, [sorted] and [max] *)

Lemma nat_of_ascii_inj (x y : ascii) : nat_of_ascii x = nat_of_ascii y -> x = y.
Proof.
  intros E. rewrite <- (ascii_nat_embedding x), <- (ascii_nat_embedding y), E.
  reflexivity.
Qed.

Lemma str_compare_refl (a : str) : str_compare a a = Eq.
Proof.
  induction a as [|x a IH]; [reflexivity|].
  cbn [str_compare]. rewrite Nat.compare_refl. exact IH.
Qed.

Lemma str_compare_eq (a b : str) : str_compare a b = Eq -> a = b.
Proof.
  revert b. induction a as [|x a IH]; intros [|y b]; cbn [str_compare];
    try discriminate; [reflexivity|].
  destruct (Nat.compare_spec (nat_of_ascii x) (nat_of_ascii y)) as [E|L|G];
    try discriminate.
  intros Hc. apply nat_of_ascii_inj in E. subst y. f_equal. apply IH. exact Hc.
Qed.

Lemma str_compare_antisym (a b : str) :
  str_compare b a = CompOpp (str_compare a b).
Proof.
  revert b. induction a as [|x a IH]; intros [|y b]; cbn [str_compare];
    try reflexivity.
  rewrite (Nat.compare_antisym (nat_of_ascii x) (nat_of_ascii y)).
  destruct (nat_of_ascii x ?= nat_of_ascii y)%nat; cbn [CompOpp];
    [apply IH|reflexivity|reflexivity].
Qed.

Lemma str_compare_lt_trans (a b c : str) :
  str_compare a b = Lt -> str_compare b c = Lt -> str_compare a c = Lt.
Proof.
  revert b c. induction a as [|x a IH]; intros [|y b] [|z c]; cbn [str_compare];
    try discriminate; try reflexivity.
  destruct (Nat.compare_spec (nat_of_ascii x) (nat_of_ascii y)) as [E1|L1|G1];
    destruct (Nat.compare_spec (nat_of_ascii y) (nat_of_ascii z)) as [E2|L2|G2];
    try discriminate; intros H1 H2;
    destruct (Nat.compare_spec (nat_of_ascii x) (nat_of_ascii z)) as [E3|L3|G3];
    try lia; try reflexivity.
  eapply IH; eassumption.
Qed.

Lemma str_leb_refl (a : str) : str_leb a a = true.
Proof. unfold str_leb. rewrite str_compare_refl. reflexivity. Qed.

Lemma str_leb_total (a b : str) : str_leb a b = true \/ str_leb b a = true.
Proof.
  unfold str_leb. rewrite (str_compare_antisym a b).
  destruct (str_compare a b); cbn; auto.
Qed.

Lemma str_leb_trans (a b c : str) :
  str_leb a b = true -> str_leb b c = true -> str_leb a c = true.
Proof.
  unfold str_leb.
  destruct (str_compare a b) eqn:E1; try discriminate;
    destruct (str_compare b c) eqn:E2; try discriminate; intros _ _.
  - apply str_compare_eq in E1. subst. rewrite E2. reflexivity.
  - apply str_compare_eq in E1. subst. rewrite E2. reflexivity.
  - apply str_compare_eq in E2. subst. rewrite E1. reflexivity.
  - rewrite (str_compare_lt_trans _ _ _ E1 E2). reflexivity.
Qed.

Lemma insert_by_key_perm {V} (kv : str * V) (l : dict V) :
  Permutation (insert_by_key kv l) (kv :: l).
Proof.
  induction l as [|h t IH]; cbn [insert_by_key]; [reflexivity|].
  destruct (str_compare (fst h) (fst kv)); try reflexivity.
  rewrite IH. apply perm_swap.
Qed.

Lemma sorted_perm {V} (l : dict V) : Permutation (sorted l) l.
Proof.
  induction l as [|kv l IH]; cbn [sorted fold_right]; [reflexivity|].
  fold (sorted l). rewrite insert_by_key_perm. constructor. exact IH.
Qed.

Lemma py_max_fold (rest : list str) (best : str) :
  let m := fold_left (fun best x => if str_leb x best then best else x) rest best in
  (m = best \/ In m rest)
  /\ str_leb best m = true
  /\ forall x, In x rest -> str_leb x m = true.
Proof.
  revert best. induction rest as [|y rest IH]; intros best; cbn [fold_left].
  - split; [left; reflexivity|]. split; [apply str_leb_refl|intros x []].
  - destruct (str_leb y best) eqn:E.
    + destruct (IH best) as [Hin [Hb Hall]]. split; [|split].
      * destruct Hin; [left|right; right]; assumption.
      * exact Hb.
      * intros x [Hx|Hx]; [subst x; eapply str_leb_trans; eassumption|auto].
    + destruct (IH y) as [Hin [Hb Hall]]. split; [|split].
      * right. destruct Hin as [Hm|Hm]; [left; symmetry|right]; assumption.
      * destruct (str_leb_total best y) as [Hby|Hyb]; [|congruence].
        eapply str_leb_trans; eassumption.
      * intros x [Hx|Hx]; [subst x; exact Hb|auto].
Qed.

(** [max] returns a greatest element of a non-empty sequence. *)
Lemma py_max_spec (ks : list str) :
  ks <> [] ->
  exists m, py_max ks = Some m /\ In m ks /\ forall x, In x ks -> str_leb x m = true.
Proof.
  destruct ks as [|k rest]; [congruence|]. intros _.
  destruct (py_max_fold rest k) as [Hin [Hb Hall]].
  eexists. split; [reflexivity|]. split.
  - destruct Hin as [E|Hin]; [left; symmetry; exact E|right; exact Hin].
  - intros x [Hx|Hx]; [subst x; exact Hb|apply Hall; exact Hx].
Qed.

(* ================================================================== *)
(** ** The fetched series: [daily], the latest price, the change *)

Section FreshFacts.
Context `{PyBuiltins}.

Lemma extract_daily_cons (d : str) (v : pyval) (rest : dict pyval)
      (acc : dict float) :
  extract_daily ((d, v) :: rest) acc
  = if str_geb d START_DATE
    then rbind (close_of v)
               (fun f => extract_daily rest (dict_set acc d (round2 f)))
    else extract_daily rest acc.
Proof.
  cbn [extract_daily]. destruct (str_geb d START_DATE); [|reflexivity].
  unfold close_of. destruct (py_getitem v (lit "4. close")); reflexivity.
Qed.

Lemma extract_daily_total (its : dict pyval) (acc : dict float) :
  forallb (fun kv => negb (str_geb (fst kv) START_DATE)
                     || is_ok (close_of (snd kv))) its = true ->
  exists daily, extract_daily its acc = Ok daily.
Proof.
  revert acc. induction its as [|[d v] rest IH]; intros acc Hall.
  - exists acc. reflexivity.
  - cbn [forallb fst snd] in Hall. apply andb_true_iff in Hall.
    destruct Hall as [Hd Hrest]. rewrite extract_daily_cons.
    destruct (str_geb d START_DATE); cbn [negb orb] in Hd.
    + destruct (close_of v) as [f|e]; [|discriminate]. cbn [rbind].
      apply IH. exact Hrest.
    + apply IH. exact Hrest.
Qed.

Lemma kept_keys_in (its : dict pyval) (d : str) :
  In d (keys (kept its)) -> In d (keys its).
Proof.
  unfold keys, kept. rewrite !in_map_iff. intros [kv [E Hin]].
  apply filter_In in Hin. exists kv. tauto.
Qed.

(** What the loop over the items leaves in [daily]: the rounded close of
    every kept day, and nothing else new. *)
Lemma extract_daily_spec (its : dict pyval) (acc daily : dict float) :
  extract_daily its acc = Ok daily ->
  NoDup (keys its) ->
  (forall d, ~ In d (keys (kept its)) -> dict_get daily d = dict_get acc d)
  /\ (forall d v, In (d, v) (kept its) ->
                  exists f, close_of v = Ok f /\ dict_get daily d = Some (round2 f)).
Proof.
  revert acc. induction its as [|[d0 v0] rest IH]; intros acc He Hnd.
  - cbn in He. apply ok_inj in He. subst daily. split; [reflexivity|intros ? ? []].
  - rewrite extract_daily_cons in He. cbn [keys map fst] in Hnd.
    inversion Hnd as [|x l Hx Hnd']; subst. fold (keys rest) in Hx, Hnd'.
    unfold kept. cbn [filter fst]. fold (kept rest).
    destruct (str_geb d0 START_DATE) eqn:Hk.
    + destruct (close_of v0) as [f0|e] eqn:Hc; [|discriminate]. cbn [rbind] in He.
      destruct (IH _ He Hnd') as [Hout Hin]. split.
      * intros d Hd. cbn [keys map fst In] in Hd. fold (keys (kept rest)) in Hd.
        rewrite Hout by tauto. apply dict_get_set_other. tauto.
      * intros d v [E|Hdv].
        -- inversion E; subst. exists f0. split; [exact Hc|].
           rewrite Hout; [apply dict_get_set_same|].
           intros Hin'. apply Hx. apply kept_keys_in. exact Hin'.
        -- apply Hin. exact Hdv.
    + apply IH; assumption.
Qed.

Lemma kept_sorted_in (items : dict pyval) (kv : str * pyval) :
  In kv (kept (sorted items)) <-> In kv (kept items).
Proof.
  unfold kept. rewrite !filter_In. split; intros [Hin Hk]; split; try exact Hk.
  - apply (Permutation_in _ (sorted_perm items)). exact Hin.
  - apply (Permutation_in _ (Permutation_sym (sorted_perm items))). exact Hin.
Qed.

Lemma sorted_nodup (items : dict pyval) :
  NoDup (keys items) -> NoDup (keys (sorted items)).
Proof.
  apply Permutation_NoDup. unfold keys. apply Permutation_map.
  apply Permutation_sym. apply sorted_perm.
Qed.

(** [fresh_entry] once [daily] is known. *)
Lemma fresh_entry_run (stk : stock) (items : dict pyval) (daily : dict float) :
  extract_daily (sorted items) [] = Ok daily ->
  fresh_entry stk (PDict items)
  = match daily with
    | [] => ([Print (MsgNoYtd (ticker stk))],
             Ok (fresh_result stk (p0 stk) (PInt 0) daily))
    | _ :: _ =>
        match py_max (keys daily) with
        | None => ([], Raise ValueError)
        | Some latest_date =>
            match dict_get daily latest_date with
            | None => ([], Raise KeyError)
            | Some latest =>
                match ytd_percent latest (p0 stk) with
                | Raise e => ([], Raise e)
                | Ok ytd =>
                    ([Print (MsgPrice (ticker stk) (p0 stk) latest ytd (length daily))],
                     Ok (fresh_result stk latest (PFloat ytd) daily))
                end
            end
        end
    end.
Proof.
  intros He. unfold fresh_entry. cbn [py_items lift bind]. rewrite He.
  cbn [bind app]. destruct daily as [|kv daily']; [reflexivity|].
  destruct (py_max (keys (kv :: daily'))) as [m|]; [|reflexivity].
  cbn [bind app].
  destruct (dict_get (kv :: daily') m) as [latest|]; [|reflexivity].
  cbn [bind app]. destruct (ytd_percent latest (p0 stk)); reflexivity.
Qed.

End FreshFacts.

Lemma nodupb_nodup (l : list str) : nodupb l = true -> NoDup l.
Proof.
  induction l as [|x l IH]; cbn [nodupb]; intros Hn; [constructor|].
  apply andb_true_iff in Hn. destruct Hn as [Hx Hl]. constructor.
  - intros Hin. apply negb_true_iff in Hx.
    assert (existsb (str_eqb x) l = true) as Hex.
    { apply existsb_exists. exists x. split; [exact Hin|apply str_eqb_refl]. }
    congruence.
  - apply IH. exact Hl.
Qed.

Section MetricFacts.
Context `{PyBuiltins}.

Lemma series_shaped_sorted (items : dict pyval) :
  series_shaped (PDict items) = true ->
  NoDup (keys (sorted items))
  /\ forallb (fun kv => negb (str_geb (fst kv) START_DATE)
                        || is_ok (close_of (snd kv))) (sorted items) = true.
Proof.
  cbn [series_shaped]. intros Hs. apply andb_true_iff in Hs.
  destruct Hs as [Hnd Hall]. split.
  - apply sorted_nodup. apply nodupb_nodup. exact Hnd.
  - rewrite forallb_forall in *. intros kv Hin. apply Hall.
    apply (Permutation_in _ (sorted_perm items)). exact Hin.
Qed.

(** The merge of a well-shaped series: what is kept, which day is the
    latest, and the entry that results. *)
Lemma fresh_entry_metric (stk : stock) (items : dict pyval) :
  series_shaped (PDict items) = true ->
  is_zero (p0 stk) = false ->
  kept items <> [] ->
  exists latest_date values close daily,
    In (latest_date, values) (kept items)
    /\ (forall d v, In (d, v) (kept items) -> str_leb d latest_date = true)
    /\ close_of values = Ok close
    /\ (forall d v, In (d, v) (kept items) ->
          exists f, close_of v = Ok f /\ dict_get daily d = Some (round2 f))
    /\ (forall d, In d (keys daily) -> In d (keys (kept items)))
    /\ fresh_entry stk (PDict items)
       = ([Print (MsgPrice (ticker stk) (p0 stk) (round2 close)
                   (round2 (fmul (fdiv (fsub (round2 close) (p0 stk)) (p0 stk))
                                 (of_Z 100)))
                   (length daily))],
          Ok (fresh_result stk (round2 close)
                (PFloat (round2 (fmul (fdiv (fsub (round2 close) (p0 stk)) (p0 stk))
                                      (of_Z 100))))
                daily)).
Proof.
  intros Hs Hz Hne. destruct (series_shaped_sorted _ Hs) as [Hnd Hall].
  destruct (extract_daily_total _ [] Hall) as [daily He].
  destruct (extract_daily_spec _ _ He Hnd) as [Hout Hin].
  assert (Hkeys : forall d, In d (keys daily) -> In d (keys (kept (sorted items)))).
  { intros d Hd.
    destruct (in_dec (list_eq_dec ascii_dec) d (keys (kept (sorted items))))
      as [Hy|Hno]; [exact Hy|].
    apply dict_get_in in Hd. rewrite (Hout d Hno) in Hd. cbn in Hd. congruence. }
  assert (Hdaily : forall d v, In (d, v) (kept items) ->
            exists f, close_of v = Ok f /\ dict_get daily d = Some (round2 f)).
  { intros d v Hdv. apply Hin. apply (proj2 (kept_sorted_in _ _)). exact Hdv. }
  assert (Hnonempty : keys daily <> []).
  { destruct (kept items) as [|[d v] rest] eqn:Ek; [congruence|].
    destruct (Hdaily d v (or_introl eq_refl)) as [f [_ Hg]].
    intros E. assert (Hd : In d (keys daily)) by (apply dict_get_in; congruence).
    rewrite E in Hd. destruct Hd. }
  destruct (py_max_spec Hnonempty) as [m [Em [Hm Hmax]]].
  assert (Hmk := Hkeys m Hm). unfold keys in Hmk. apply in_map_iff in Hmk.
  destruct Hmk as [[m' values] [Efst Hmv]]. cbn [fst] in Efst. subst m'.
  apply (proj1 (kept_sorted_in _ _)) in Hmv.
  destruct (Hdaily m values Hmv) as [close [Hc Hg]].
  exists m, values, close, daily. repeat split.
  - exact Hmv.
  - intros d v Hdv. apply Hmax. destruct (Hdaily d v Hdv) as [f [_ Hgd]].
    apply dict_get_in. congruence.
  - exact Hc.
  - exact Hdaily.
  - intros d Hd. specialize (Hkeys d Hd). unfold keys in *.
    apply in_map_iff in Hkeys. destruct Hkeys as [kv [E Hkv]].
    apply in_map_iff. exists kv. split; [exact E|].
    apply (proj1 (kept_sorted_in _ _)). exact Hkv.
  - rewrite (fresh_entry_run stk items He).
    destruct daily as [|kv daily']; [exfalso; apply Hnonempty; reflexivity|].
    rewrite Em, Hg. unfold ytd_percent. rewrite Hz. reflexivity.
Qed.

(** A well-shaped series merges without an exception. *)
Lemma fresh_entry_total (stk : stock) (ts : pyval) :
  series_shaped ts = true -> is_zero (p0 stk) = false ->
  exists t e, fresh_entry stk ts = (t, Ok e).
Proof.
  intros Hs Hz. destruct ts as [| | | | | |items]; try discriminate.
  destruct (kept items) as [|kv rest] eqn:Ek.
  - destruct (series_shaped_sorted _ Hs) as [Hnd Hall].
    destruct (extract_daily_total _ [] Hall) as [daily He].
    rewrite (fresh_entry_run stk items He).
    destruct daily as [|kv daily']; [eexists; eexists; reflexivity|].
    destruct (extract_daily_spec _ _ He Hnd) as [Hout _].
    exfalso. destruct kv as [d f].
    assert (Hno : ~ In d (keys (kept (sorted items)))).
    { unfold keys. rewrite in_map_iff. intros [kv [_ Hkv]].
      apply (proj1 (kept_sorted_in _ _)) in Hkv. rewrite Ek in Hkv. destruct Hkv. }
    specialize (Hout d Hno). cbn [dict_get] in Hout.
    rewrite str_eqb_refl in Hout. discriminate.
  - destruct (@fresh_entry_metric stk items Hs Hz) as [m [v [c [daily [_ [_ [_ [_ [_ E]]]]]]]]].
    { rewrite Ek. discriminate. }
    rewrite E. eexists; eexists; reflexivity.
Qed.

End MetricFacts.

(* ================================================================== *)
(** ** The run: [main] *)

Section RunFacts.
Context `{PyBuiltins}.

Lemma root_main_run (cfg : list stock) (now : str) (pj : json_file)
      (net : nat -> response) (existing : pyval) (t : list event)
      (stocks : dict pyval) :
  load_existing pj = Ok existing ->
  Root.loop existing net 0 cfg [] = (t, Ok stocks) ->
  Root.main cfg now pj net
  = (Print MsgBanner :: t ++
       [WriteJson (snapshot now stocks); Print MsgWritten; Print (MsgDone now)],
     Ok tt).
Proof.
  intros He Hl. unfold Root.main. rewrite He. cbn [emit lift bind app].
  rewrite Hl. reflexivity.
Qed.

(** A prior snapshot that cannot be loaded ends the run at once. *)
Lemma scripts_main_unloaded (cfg : list stock) (now : str) (pj : json_file)
      (index_html : html_file) (net : nat -> response) (e : exn) :
  load_existing pj = Raise e ->
  Scripts.main cfg now pj index_html net = ([Print MsgBanner], Raise e).
Proof. intros He. unfold Scripts.main. rewrite He. reflexivity. Qed.

Lemma root_main_unloaded (cfg : list stock) (now : str) (pj : json_file)
      (net : nat -> response) (e : exn) :
  load_existing pj = Raise e ->
  Root.main cfg now pj net = ([Print MsgBanner], Raise e).
Proof. intros He. unfold Root.main. rewrite He. reflexivity. Qed.

Lemma scripts_main_writes_json (cfg : list stock) (now : str) (pj : json_file)
      (index_html : html_file) (net : nat -> response) (existing : pyval)
      (t : list event) (stocks : dict pyval) :
  load_existing pj = Ok existing ->
  Scripts.loop existing net (length cfg) 0 cfg [] = (t, Ok stocks) ->
  In (WriteJson (snapshot now stocks))
     (fst (Scripts.main cfg now pj index_html net)).
Proof.
  intros He Hl. rewrite (@main_run _ _ now _ index_html _ _ _ _ He Hl).
  destruct (Scripts.update_index_html index_html stocks) as [t' [[]|e]];
    cbn [fst]; right; apply in_or_app; right; left; reflexivity.
Qed.

Lemma scripts_resolve_total (existing : pyval) (stk : stock) (resp : response) :
  snapshot_shaped existing = true -> mergeable stk resp = true ->
  exists t e, Scripts.resolve existing stk (provided resp) = (t, Ok e).
Proof.
  intros Hs Hm. unfold mergeable in Hm. unfold Scripts.resolve.
  destruct (is_none (provided resp)).
  - destruct (cache_lookup existing (ticker stk)) as [e|] eqn:Hc.
    + erewrite scripts_absent_cached by eassumption. eexists; eexists; reflexivity.
    + rewrite scripts_absent_placeholder by assumption. eexists; eexists; reflexivity.
  - cbn [orb] in Hm. apply andb_true_iff in Hm. destruct Hm as [Hsh Hz].
    apply negb_true_iff in Hz. apply fresh_entry_total; assumption.
Qed.

Lemma root_resolve_total (existing : pyval) (stk : stock) (resp : response) :
  snapshot_shaped existing = true -> mergeable stk resp = true ->
  exists t e, Root.resolve existing stk (provided resp) = (t, Ok e).
Proof.
  intros Hs Hm. unfold mergeable in Hm. unfold Root.resolve.
  destruct (is_none (provided resp)).
  - destruct (cache_lookup existing (ticker stk)) as [e|] eqn:Hc.
    + erewrite root_absent_cached by eassumption. eexists; eexists; reflexivity.
    + rewrite root_absent_placeholder by assumption. eexists; eexists; reflexivity.
  - cbn [orb] in Hm. apply andb_true_iff in Hm. destruct Hm as [Hsh Hz].
    apply negb_true_iff in Hz. apply fresh_entry_total; assumption.
Qed.

(** A pass returns what the merge returns. *)
Lemma scripts_iteration_returns (existing : pyval) (resp : response) (n k : nat)
      (stk : stock) (t : list event) (e : pyval) :
  Scripts.resolve existing stk (provided resp) = (t, Ok e) ->
  exists t', Scripts.iteration existing resp n k stk = (t', Ok e).
Proof.
  intros Hr. destruct (scripts_iteration_eq existing resp n k stk) as [log [_ E]].
  rewrite E, Hr. eexists. reflexivity.
Qed.

Lemma root_iteration_returns (existing : pyval) (resp : response)
      (stk : stock) (t : list event) (e : pyval) :
  Root.resolve existing stk (provided resp) = (t, Ok e) ->
  exists t', Root.iteration existing resp stk = (t', Ok e).
Proof.
  intros Hr. destruct (root_iteration_eq existing resp stk) as [log [_ E]].
  rewrite E, Hr. eexists. reflexivity.
Qed.

Lemma scripts_loop_total (cfg : list stock) (existing : pyval)
      (net : nat -> response) (n : nat) :
  snapshot_shaped existing = true ->
  (forall k stk, nth_error cfg k = Some stk -> mergeable stk (net k) = true) ->
  exists t stocks, Scripts.loop existing net n 0 cfg [] = (t, Ok stocks).
Proof.
  intros Hs Hall. unfold Scripts.loop. apply for_each_total.
  intros k stk Hk. cbn [Nat.add].
  destruct (@scripts_resolve_total existing stk (net k) Hs (Hall k stk Hk)) as [t [e Hr]].
  destruct (@scripts_iteration_returns existing (net k) n k stk t e Hr) as [t' E]. eauto.
Qed.

Lemma root_loop_total (cfg : list stock) (existing : pyval)
      (net : nat -> response) :
  snapshot_shaped existing = true ->
  (forall k stk, nth_error cfg k = Some stk -> mergeable stk (net k) = true) ->
  exists t stocks, Root.loop existing net 0 cfg [] = (t, Ok stocks).
Proof.
  intros Hs Hall. unfold Root.loop. apply for_each_total.
  intros k stk Hk. cbn [Nat.add].
  destruct (@root_resolve_total existing stk (net k) Hs (Hall k stk Hk)) as [t [e Hr]].
  destruct (@root_iteration_returns existing (net k) stk t e Hr) as [t' E]. eauto.
Qed.

(** The keys of the stocks mapping a loop returns are the configured
    tickers, each once. *)
Lemma loop_keys (body : nat -> stock -> M pyval) (cfg : list stock)
      (t : list event) (stocks : dict pyval) :
  for_each_stock body 0 cfg [] = (t, Ok stocks) ->
  NoDup (keys stocks)
  /\ (forall tk, In tk (keys stocks) <-> In tk (map ticker cfg))
  /\ (NoDup (map ticker cfg) -> keys stocks = map ticker cfg).
Proof.
  intros Hl. destruct (@for_each_keys body cfg 0%nat [] t stocks Hl) as [Hin [Hnd Hexact]].
  split; [apply Hnd; constructor|]. split.
  - intros tk. rewrite Hin. cbn [keys map In]. tauto.
  - intros Hc. rewrite Hexact; [reflexivity|exact Hc|intros tk _ []].
Qed.

End RunFacts.

(* ================================================================== *)
(** ** The snapshot *)

Lemma some_inj {A} (a b : A) : Some a = Some b -> a = b.
Proof. intros E. injection E as E. exact E. Qed.

(** Settles a statement about every stock of a concrete configuration,
    position by position. *)
Ltac each_stock k :=
  repeat (destruct k as [|k];
          [intros E; vm_compute in E; apply some_inj in E; subst;
           vm_compute; reflexivity|]);
  intros E; destruct k; cbv in E; discriminate E.

(** C3, amended (cardinality).  For every configuration, every prior
    snapshot that can be loaded and has the expected shape, and every
    sequence of fetch outcomes that are either no data or a series of the
    expected shape (baselines not zero), the loop of either file returns a
    stocks mapping whose keys are exactly the configured tickers, each once
    (in configuration order when the tickers are distinct), and [main]
    writes the snapshot whose "stocks" member is that mapping. *)
Theorem snapshot_cardinality `{PyBuiltins} (cfg : list stock) (now : str)
        (pj : json_file) (existing : pyval) (index_html : html_file)
        (net : nat -> response) :
  load_existing pj = Ok existing ->
  snapshot_shaped existing = true ->
  (forall k stk, nth_error cfg k = Some stk -> mergeable stk (net k) = true) ->
  (exists t stocks,
      Scripts.loop existing net (length cfg) 0 cfg [] = (t, Ok stocks)
      /\ NoDup (keys stocks)
      /\ (forall tk, In tk (keys stocks) <-> In tk (map ticker cfg))
      /\ (NoDup (map ticker cfg) -> keys stocks = map ticker cfg)
      /\ In (WriteJson (snapshot now stocks))
            (fst (Scripts.main cfg now pj index_html net))
      /\ py_getitem (snapshot now stocks) (lit "stocks") = Ok (PDict stocks))
  /\ (exists t stocks,
      Root.loop existing net 0 cfg [] = (t, Ok stocks)
      /\ NoDup (keys stocks)
      /\ (forall tk, In tk (keys stocks) <-> In tk (map ticker cfg))
      /\ (NoDup (map ticker cfg) -> keys stocks = map ticker cfg)
      /\ Root.main cfg now pj net
         = (Print MsgBanner :: t ++
              [WriteJson (snapshot now stocks); Print MsgWritten;
               Print (MsgDone now)], Ok tt)
      /\ py_getitem (snapshot now stocks) (lit "stocks") = Ok (PDict stocks)).
Proof.
  intros He Hs Hall. split.
  - destruct (@scripts_loop_total _ cfg existing net (length cfg) Hs Hall)
      as [t [stocks Hl]].
    exists t, stocks. split; [exact Hl|].
    assert (Hk := Hl). unfold Scripts.loop in Hk. apply loop_keys in Hk.
    destruct Hk as [Hnd [Hin Hexact]].
    repeat split; try assumption; try apply Hin.
    eapply scripts_main_writes_json; eassumption.
  - destruct (@root_loop_total _ cfg existing net Hs Hall)
      as [t [stocks Hl]].
    exists t, stocks. split; [exact Hl|].
    assert (Hk := Hl). unfold Root.loop in Hk. apply loop_keys in Hk.
    destruct Hk as [Hnd [Hin Hexact]].
    repeat split; try assumption; try apply Hin.
    eapply root_main_run; eassumption.
Qed.

Lemma snapshot_cardinality_witness :
  (exists t stocks,
      @Scripts.loop example_builtins cached_snapshot mixed_answers
        (length Scripts.STOCKS) 0 Scripts.STOCKS [] = (t, Ok stocks)
      /\ NoDup (keys stocks)
      /\ (forall tk, In tk (keys stocks) <-> In tk (map ticker Scripts.STOCKS))
      /\ (NoDup (map ticker Scripts.STOCKS) -> keys stocks = map ticker Scripts.STOCKS)
      /\ In (WriteJson (snapshot (lit "2026-03-01 07:00 UTC") stocks))
            (fst (@Scripts.main example_builtins Scripts.STOCKS
                    (lit "2026-03-01 07:00 UTC") prior_snapshot
                    NoHtml mixed_answers))
      /\ py_getitem (snapshot (lit "2026-03-01 07:00 UTC") stocks) (lit "stocks")
         = Ok (PDict stocks))
  /\ (exists t stocks,
      @Root.loop example_builtins cached_snapshot mixed_answers
        0 Scripts.STOCKS [] = (t, Ok stocks)
      /\ NoDup (keys stocks)
      /\ (forall tk, In tk (keys stocks) <-> In tk (map ticker Scripts.STOCKS))
      /\ (NoDup (map ticker Scripts.STOCKS) -> keys stocks = map ticker Scripts.STOCKS)
      /\ @Root.main example_builtins Scripts.STOCKS (lit "2026-03-01 07:00 UTC")
           prior_snapshot mixed_answers
         = (Print MsgBanner :: t ++
              [WriteJson (snapshot (lit "2026-03-01 07:00 UTC") stocks);
               Print MsgWritten; Print (MsgDone (lit "2026-03-01 07:00 UTC"))],
            Ok tt)
      /\ py_getitem (snapshot (lit "2026-03-01 07:00 UTC") stocks) (lit "stocks")
         = Ok (PDict stocks)).
Proof.
  apply (@snapshot_cardinality example_builtins Scripts.STOCKS
           (lit "2026-03-01 07:00 UTC") prior_snapshot cached_snapshot NoHtml
           mixed_answers).
  - reflexivity.
  - reflexivity.
  - intros k stk. each_stock k.
Defined.

(** C3, as stated, fails: a fetch that brings a series with a day on or
    after the start date whose record has no "4. close" ends either [main]
    with KeyError before anything is written: there is no snapshot, and so
    no entry for the configured ticker. *)
Lemma snapshot_not_written :
  (exists t,
      @Scripts.main example_builtins [hood] (lit "2026-03-01 07:00 UTC") NoFile
        NoHtml (fun _ => Payload (PDict [ (TIME_SERIES_KEY, PDict no_close) ]))
      = (t, Raise KeyError)
      /\ writes t = [])
  /\ (exists t,
         @Root.main example_builtins [hood] (lit "2026-03-01 07:00 UTC") NoFile
           (fun _ => Payload (PDict [ (TIME_SERIES_KEY, PDict no_close) ]))
         = (t, Raise KeyError)
         /\ writes t = []).
Proof.
  split; eexists; (split; [vm_compute; reflexivity|reflexivity]).
Qed.

(* ================================================================== *)
(** ** The rate governor *)

(** scripts/fetch_prices.py delays between calls only: a run over [n]
    stocks makes [n] calls and [n - 1] delays, the first event of its
    schedule is a call and so is the last. *)
Lemma scripts_delays_between_calls `{PyBuiltins} (cfg : list stock)
      (existing : pyval) (net : nat -> response) (t : list event)
      (stocks : dict pyval) :
  Scripts.loop existing net (length cfg) 0 cfg [] = (t, Ok stocks) ->
  schedule t = intersperse (Sleep 13) (requests cfg)
  /\ calls t = length cfg
  /\ delays t = (length cfg - 1)%nat.
Proof.
  intros Hl. assert (Hs : schedule t = intersperse (Sleep 13) (requests cfg)).
  { eapply scripts_loop_schedule; [exact Hl|reflexivity]. }
  split; [exact Hs|].
  rewrite calls_schedule, delays_schedule, Hs.
  destruct (intersperse_counts cfg) as [Hd Hc]. split; assumption.
Qed.

Lemma root_schedule_counts (todo : list stock) :
  calls (flat_map (fun r => [r; Sleep 12]) (requests todo)) = length todo
  /\ delays (flat_map (fun r => [r; Sleep 12]) (requests todo)) = length todo.
Proof.
  induction todo as [|stk rest [IHc IHd]]; [split; reflexivity|].
  cbn [requests map flat_map app].
  change (calls (Request ?q :: Sleep 12 :: ?l)) with (S (calls l)).
  change (delays (Request ?q :: Sleep 12 :: ?l)) with (S (delays l)).
  fold (requests rest). rewrite IHc, IHd. split; reflexivity.
Qed.

(** C4, on fetch_prices.py.  Every run of its loop that returns has delayed
    after every call, the last one included: [n] stocks, [n] calls, [n]
    delays. *)
Theorem root_delays_after_every_call `{PyBuiltins} (cfg : list stock)
        (existing : pyval) (net : nat -> response) (t : list event)
        (stocks : dict pyval) :
  Root.loop existing net 0 cfg [] = (t, Ok stocks) ->
  schedule t = flat_map (fun r => [r; Sleep 12]) (requests cfg)
  /\ calls t = length cfg
  /\ delays t = length cfg.
Proof.
  intros Hl.
  assert (Hs : schedule t = flat_map (fun r => [r; Sleep 12]) (requests cfg)).
  { eapply root_loop_schedule. exact Hl. }
  split; [exact Hs|].
  rewrite calls_schedule, delays_schedule, Hs. apply root_schedule_counts.
Qed.

Lemma root_delays_after_every_call_witness :
  exists t stocks,
    @Root.loop example_builtins PNone no_answer 0 Root.STOCKS [] = (t, Ok stocks)
    /\ schedule t = flat_map (fun r => [r; Sleep 12]) (requests Root.STOCKS)
    /\ calls t = 6%nat
    /\ delays t = 6%nat.
Proof.
  assert (Hr : exists t stocks,
             @Root.loop example_builtins PNone no_answer 0 Root.STOCKS []
             = (t, Ok stocks))
    by (vm_compute; eexists; eexists; reflexivity).
  destruct Hr as [t [stocks Hl]]. exists t, stocks. split; [exact Hl|].
  exact (@root_delays_after_every_call example_builtins Root.STOCKS PNone
           no_answer t stocks Hl).
Defined.

(** The six configured stocks: five delays in scripts/fetch_prices.py, six
    in fetch_prices.py. *)
Example six_stocks_delays :
  delays (fst (@Scripts.main example_builtins Scripts.STOCKS (lit "now") NoFile
                 NoHtml no_answer)) = 5%nat
  /\ delays (fst (@Root.main example_builtins Root.STOCKS (lit "now") NoFile
                    no_answer)) = 6%nat.
Proof. split; vm_compute; reflexivity. Qed.

(* ================================================================== *)
(** ** The three tiers of the merge *)

(** scripts/fetch_prices.py, no data and no cached entry: the placeholder
    carries the baseline as latest price, an empty series and the error. *)
Lemma scripts_placeholder_correct `{PyBuiltins} (existing : pyval)
      (resp : response) (n k : nat) (stk : stock) :
  snapshot_shaped existing = true ->
  provided resp = PNone ->
  cache_lookup existing (ticker stk) = None ->
  (exists t, Scripts.iteration existing resp n k stk
             = (t, Ok (Scripts.placeholder stk)))
  /\ py_getitem (Scripts.placeholder stk) (lit "p1") = Ok (PFloat (p0 stk))
  /\ py_getitem (Scripts.placeholder stk) (lit "p0") = Ok (PFloat (p0 stk))
  /\ py_getitem (Scripts.placeholder stk) (lit "daily") = Ok (PDict [])
  /\ py_getitem (Scripts.placeholder stk) (lit "error")
     = Ok (PStr (lit "No data available")).
Proof.
  intros Hs Hp Hc. split; [|repeat split].
  eapply scripts_iteration_returns. rewrite Hp. unfold Scripts.resolve.
  cbn [is_none]. apply scripts_absent_placeholder; assumption.
Qed.

(** C5, on fetch_prices.py.  With no data and no cached entry the entry it
    emits has the baseline, an empty series and the error, and no latest
    price at all: there is no "p1" in it. *)
Theorem root_placeholder_without_latest_price `{PyBuiltins} (existing : pyval)
        (resp : response) (stk : stock) :
  snapshot_shaped existing = true ->
  provided resp = PNone ->
  cache_lookup existing (ticker stk) = None ->
  (exists t, Root.iteration existing resp stk = (t, Ok (Root.placeholder stk)))
  /\ py_getitem (Root.placeholder stk) (lit "p1") = Raise KeyError
  /\ py_getitem (Root.placeholder stk) (lit "p0") = Ok (PFloat (p0 stk))
  /\ py_getitem (Root.placeholder stk) (lit "daily") = Ok (PDict [])
  /\ py_getitem (Root.placeholder stk) (lit "error")
     = Ok (PStr (lit "No data available")).
Proof.
  intros Hs Hp Hc. split; [|repeat split].
  eapply root_iteration_returns. rewrite Hp. unfold Root.resolve.
  cbn [is_none]. apply root_absent_placeholder; assumption.
Qed.

Lemma root_placeholder_without_latest_price_witness :
  (exists t, @Root.iteration example_builtins cached_snapshot
               NetError example_stock = (t, Ok (Root.placeholder example_stock)))
  /\ py_getitem (Root.placeholder example_stock) (lit "p1") = Raise KeyError
  /\ py_getitem (Root.placeholder example_stock) (lit "p0")
     = Ok (PFloat (p0 example_stock))
  /\ py_getitem (Root.placeholder example_stock) (lit "daily") = Ok (PDict [])
  /\ py_getitem (Root.placeholder example_stock) (lit "error")
     = Ok (PStr (lit "No data available")).
Proof.
  apply (@root_placeholder_without_latest_price example_builtins
           cached_snapshot NetError example_stock);
    reflexivity.
Defined.

(** C6 (fallback).  When the fetch yields no data and the prior snapshot
    holds an entry under the stock's ticker, both files return that very
    entry from the merge, and, the tickers being distinct, that entry is
    what the finished loop holds under the ticker. *)
Theorem cached_fallback `{PyBuiltins} (cfg : list stock) (existing : pyval)
        (net : nat -> response) (k : nat) (stk : stock) (entry : pyval) :
  nth_error cfg k = Some stk ->
  provided (net k) = PNone ->
  cache_lookup existing (ticker stk) = Some entry ->
  Scripts.resolve existing stk PNone
  = ([Print (MsgUsingCached (ticker stk))], Ok entry)
  /\ Root.resolve existing stk PNone
     = ([Print (MsgUsingCached (ticker stk))], Ok entry)
  /\ (exists t, Scripts.iteration existing (net k) (length cfg) k stk = (t, Ok entry))
  /\ (exists t, Root.iteration existing (net k) stk = (t, Ok entry))
  /\ (NoDup (map ticker cfg) ->
      (forall t stocks,
          Scripts.loop existing net (length cfg) 0 cfg [] = (t, Ok stocks) ->
          dict_get stocks (ticker stk) = Some entry)
      /\ (forall t stocks,
             Root.loop existing net 0 cfg [] = (t, Ok stocks) ->
             dict_get stocks (ticker stk) = Some entry)).
Proof.
  intros Hk Hp Hc.
  assert (Hs : Scripts.resolve existing stk PNone
               = ([Print (MsgUsingCached (ticker stk))], Ok entry)).
  { unfold Scripts.resolve. cbn [is_none]. apply scripts_absent_cached. exact Hc. }
  assert (Hr : Root.resolve existing stk PNone
               = ([Print (MsgUsingCached (ticker stk))], Ok entry)).
  { unfold Root.resolve. cbn [is_none]. apply root_absent_cached. exact Hc. }
  assert (Hsi : exists t, Scripts.iteration existing (net k) (length cfg) k stk
                          = (t, Ok entry)).
  { eapply scripts_iteration_returns. rewrite Hp. exact Hs. }
  assert (Hri : exists t, Root.iteration existing (net k) stk = (t, Ok entry)).
  { eapply root_iteration_returns. rewrite Hp. exact Hr. }
  repeat split; try assumption.
  - intros t stocks Hl. destruct Hsi as [t1 E1]. unfold Scripts.loop in Hl.
    eapply for_each_entry; [eassumption|exact Hl|exact Hk|exact E1].
  - intros t stocks Hl. destruct Hri as [t1 E1]. unfold Root.loop in Hl.
    eapply for_each_entry; [eassumption|exact Hl|exact Hk|exact E1].
Qed.

Lemma cached_fallback_witness :
  @Scripts.resolve example_builtins cached_snapshot hood PNone
  = ([Print (MsgUsingCached (ticker hood))], Ok cached_hood)
  /\ @Root.resolve example_builtins cached_snapshot hood PNone
     = ([Print (MsgUsingCached (ticker hood))], Ok cached_hood)
  /\ (exists t, @Scripts.iteration example_builtins cached_snapshot
                  (mixed_answers 0%nat) (length Scripts.STOCKS) 0 hood
                = (t, Ok cached_hood))
  /\ (exists t, @Root.iteration example_builtins cached_snapshot
                  (mixed_answers 0%nat) hood = (t, Ok cached_hood))
  /\ (NoDup (map ticker Scripts.STOCKS) ->
      (forall t stocks,
          @Scripts.loop example_builtins cached_snapshot mixed_answers
            (length Scripts.STOCKS) 0 Scripts.STOCKS [] = (t, Ok stocks) ->
          dict_get stocks (ticker hood) = Some cached_hood)
      /\ (forall t stocks,
             @Root.loop example_builtins cached_snapshot mixed_answers
               0 Scripts.STOCKS [] = (t, Ok stocks) ->
             dict_get stocks (ticker hood) = Some cached_hood)).
Proof.
  apply (@cached_fallback example_builtins Scripts.STOCKS
           cached_snapshot mixed_answers 0%nat hood cached_hood);
    reflexivity.
Defined.

(* ================================================================== *)
(** ** Metric computation *)

(** C7.  For every fetched series of the expected shape whose kept days
    (dates on or after the start date) are not all empty, and a baseline
    that is not zero, the entry both files store is built from [daily], the
    rounded closes of the kept days: its latest price is the rounded close
    of the greatest kept date, and its change is
    [round((latest - p0) / p0 * 100, 2)].  On the example (baseline 100.00,
    closes 100.00 on 2026-01-02 and 110.00 on 2026-01-05) the latest price
    is 110.0 and the change 10.0. *)
Theorem metric_computation :
  (forall (B : PyBuiltins) (existing : pyval) (stk : stock) (items : dict pyval),
      series_shaped (PDict items) = true ->
      is_zero (p0 stk) = false ->
      kept items <> [] ->
      exists latest_date values close daily,
        In (latest_date, values) (kept items)
        /\ (forall d v, In (d, v) (kept items) -> str_leb d latest_date = true)
        /\ close_of values = Ok close
        /\ (forall d v, In (d, v) (kept items) ->
              exists f, close_of v = Ok f /\ dict_get daily d = Some (round2 f))
        /\ (forall d, In d (keys daily) -> In d (keys (kept items)))
        /\ dict_get daily latest_date = Some (round2 close)
        /\ let latest := round2 close in
           let ytd := round2 (fmul (fdiv (fsub latest (p0 stk)) (p0 stk)) (of_Z 100)) in
           Scripts.resolve existing stk (PDict items)
           = ([Print (MsgPrice (ticker stk) (p0 stk) latest ytd (length daily))],
              Ok (fresh_result stk latest (PFloat ytd) daily))
           /\ Root.resolve existing stk (PDict items)
              = ([Print (MsgPrice (ticker stk) (p0 stk) latest ytd (length daily))],
                 Ok (fresh_result stk latest (PFloat ytd) daily)))
  /\ @Scripts.resolve example_builtins PNone example_stock (PDict example_series)
     = ([Print (MsgPrice (lit "TEST") (of_Z 100) (of_Z 110) (of_Z 10) 2)],
        Ok (fresh_result example_stock (of_Z 110) (PFloat (of_Z 10))
              [ (lit "2026-01-02", of_Z 100); (lit "2026-01-05", of_Z 110) ])).
Proof.
  split; [|vm_compute; reflexivity].
  intros B existing stk items Hs Hz Hne.
  destruct (@fresh_entry_metric B stk items Hs Hz Hne)
    as [m [values [close [daily [Hin [Hmax [Hc [Hd [Hk E]]]]]]]]].
  exists m, values, close, daily. repeat split; try assumption.
  destruct (Hd m values Hin) as [f [Hf Hg]]. congruence.
Qed.

Lemma metric_computation_witness :
  exists latest_date values close daily,
    In (latest_date, values) (kept example_series)
    /\ (forall d v, In (d, v) (kept example_series) -> str_leb d latest_date = true)
    /\ @close_of example_builtins values = Ok close
    /\ (forall d v, In (d, v) (kept example_series) ->
          exists f, @close_of example_builtins v = Ok f
                    /\ dict_get daily d = Some (round2 f))
    /\ (forall d, In d (keys daily) -> In d (keys (kept example_series)))
    /\ dict_get daily latest_date = Some (round2 close)
    /\ let latest := round2 close in
       let ytd := round2 (fmul (fdiv (fsub latest (p0 example_stock))
                                     (p0 example_stock)) (of_Z 100)) in
       @Scripts.resolve example_builtins PNone example_stock (PDict example_series)
       = ([Print (MsgPrice (ticker example_stock) (p0 example_stock) latest ytd
                   (length daily))],
          Ok (fresh_result example_stock latest (PFloat ytd) daily))
       /\ @Root.resolve example_builtins PNone example_stock (PDict example_series)
          = ([Print (MsgPrice (ticker example_stock) (p0 example_stock) latest ytd
                      (length daily))],
             Ok (fresh_result example_stock latest (PFloat ytd) daily)).
Proof.
  apply (proj1 metric_computation example_builtins PNone example_stock example_series).
  - vm_compute. reflexivity.
  - reflexivity.
  - intros E. vm_compute in E. discriminate E.
Defined.

(* ================================================================== *)
(** * Further properties of the code *)

(** ** [fetch_daily] *)

(** X1.  In both files [fetch_daily] never raises, asks the provider exactly
    once and touches nothing but the console besides; it returns data only
    for a JSON object that holds a non-null "Time Series (Daily)", and
    [None] for every other response: a failed request, a body that is a
    string or an array (even one that contains the key text), an object
    without the key. *)
Theorem fetch_daily_contract (resp : response) (symbol : str) :
  (exists log,
      Scripts.fetch_daily resp symbol
      = (Print (MsgFetching symbol) :: Request (TimeSeriesDaily symbol) :: log,
         Ok (provided resp))
      /\ forallb is_print log = true)
  /\ (exists log,
         Root.fetch_daily resp symbol
         = (Print (MsgFetching symbol) :: Request (TimeSeriesDaily symbol) :: log,
            Ok (provided resp))
         /\ forallb is_print log = true)
  /\ (provided resp <> PNone <->
      exists d v, resp = Payload (PDict d)
                  /\ dict_get d TIME_SERIES_KEY = Some v /\ v <> PNone).
Proof.
  split; [apply scripts_fetch_daily|]. split; [apply root_fetch_daily|].
  unfold provided. split.
  - destruct resp as [|data]; [congruence|].
    destruct data as [| | | | | |d]; try congruence.
    destruct (dict_get d TIME_SERIES_KEY) as [v|] eqn:E; [|congruence].
    intros Hv. exists d, v. auto.
  - intros [d [v [Er [Ed Hv]]]]. subst resp. rewrite Ed. exact Hv.
Qed.

(** X2.  For an object without the series, the warning of
    scripts/fetch_prices.py reports the provider's "Note", else its
    "Information", else its "Error Message", else "Unknown"; the warning of
    fetch_prices.py never looks at "Information": it reports "Note", else
    "Error Message", else "Unknown error". *)
Theorem fetch_daily_diagnostic (d : dict pyval) (symbol : str) :
  dict_get d TIME_SERIES_KEY = None ->
  Scripts.fetch_daily (Payload (PDict d)) symbol
  = ([Print (MsgFetching symbol); Request (TimeSeriesDaily symbol);
      Print (MsgNoData symbol
               (first_present d [lit "Note"; lit "Information"; lit "Error Message"]
                              (PStr (lit "Unknown"))))],
     Ok PNone)
  /\ Root.fetch_daily (Payload (PDict d)) symbol
     = ([Print (MsgFetching symbol); Request (TimeSeriesDaily symbol);
         Print (MsgNoData symbol
                  (first_present d [lit "Note"; lit "Error Message"]
                                 (PStr (lit "Unknown error"))))],
        Ok PNone).
Proof.
  intros Hd. unfold Scripts.fetch_daily, Scripts.fetch_daily_try,
    Root.fetch_daily, Root.fetch_daily_try.
  cbn [net_data lift bind py_contains app py_get first_present]. rewrite Hd.
  cbn [negb bind app emit ret].
  split.
  - destruct (dict_get d (lit "Note")); destruct (dict_get d (lit "Information"));
      destruct (dict_get d (lit "Error Message")); reflexivity.
  - destruct (dict_get d (lit "Note")); destruct (dict_get d (lit "Error Message"));
      reflexivity.
Qed.

Lemma fetch_daily_diagnostic_witness :
  Scripts.fetch_daily quota_notice (lit "HOOD")
  = ([Print (MsgFetching (lit "HOOD")); Request (TimeSeriesDaily (lit "HOOD"));
      Print (MsgNoData (lit "HOOD")
               (PStr (lit "API rate limit is 25 requests per day.")))],
     Ok PNone)
  /\ Root.fetch_daily quota_notice (lit "HOOD")
     = ([Print (MsgFetching (lit "HOOD")); Request (TimeSeriesDaily (lit "HOOD"));
         Print (MsgNoData (lit "HOOD") (PStr (lit "Unknown error")))],
        Ok PNone).
Proof.
  apply (@fetch_daily_diagnostic
           [ (lit "Information", PStr (lit "API rate limit is 25 requests per day.")) ]
           (lit "HOOD")).
  reflexivity.
Defined.

(* ================================================================== *)
(** ** What a run does to the outside world *)

Lemma fst_bind {A B} (m : M A) (f : A -> M B) :
  fst (bind m f)
  = fst m ++ match snd m with Ok a => fst (f a) | Raise _ => [] end.
Proof.
  unfold bind. destruct m as [t [a|e]]; cbn [fst snd].
  - destruct (f a); reflexivity.
  - rewrite app_nil_r. reflexivity.
Qed.

Lemma bind_ext {A B} (m : M A) (f g : A -> M B) :
  (forall a, f a = g a) -> bind m f = bind m g.
Proof.
  intros E. unfold bind. destruct m as [t [a|e]]; [rewrite E|]; reflexivity.
Qed.

Lemma writes_app (t1 t2 : list event) : writes (t1 ++ t2) = writes t1 ++ writes t2.
Proof. apply filter_app. Qed.

Lemma prints_write_nothing (t : list event) :
  forallb is_print t = true -> writes t = [].
Proof.
  induction t as [|e t IH]; [reflexivity|]. cbn [forallb]. intros Hp.
  apply andb_true_iff in Hp. destruct Hp as [He Ht].
  destruct e; try discriminate. cbn. apply IH. exact Ht.
Qed.

Lemma prints_request_nothing (t : list event) :
  forallb is_print t = true -> filter is_request t = [].
Proof.
  induction t as [|e t IH]; [reflexivity|]. cbn [forallb]. intros Hp.
  apply andb_true_iff in Hp. destruct Hp as [He Ht].
  destruct e; try discriminate. cbn. apply IH. exact Ht.
Qed.

Section TraceFacts.
Variable body : nat -> stock -> M pyval.

(** Two bodies that agree on the stocks of the list run the same loop. *)
Lemma for_each_ext (body' : nat -> stock -> M pyval) (todo : list stock)
      (i : nat) (acc : dict pyval) :
  (forall k stk, nth_error todo k = Some stk ->
                 body (i + k)%nat stk = body' (i + k)%nat stk) ->
  for_each_stock body i todo acc = for_each_stock body' i todo acc.
Proof.
  revert i acc. induction todo as [|stk rest IH]; intros i acc Hall; [reflexivity|].
  cbn [for_each_stock]. assert (E := Hall 0%nat stk eq_refl).
  rewrite Nat.add_0_r in E. rewrite E. apply bind_ext. intros e. apply IH.
  intros k s Hk. specialize (Hall (S k) s Hk). rewrite Nat.add_succ_r in Hall.
  exact Hall.
Qed.

(** A loop whose body writes to no file writes to no file, however it
    ends. *)
Lemma for_each_writes (todo : list stock) (i : nat) (acc : dict pyval) :
  (forall k stk, writes (fst (body k stk)) = []) ->
  writes (fst (for_each_stock body i todo acc)) = [].
Proof.
  intros Hb. revert i acc. induction todo as [|stk rest IH]; intros i acc;
    [reflexivity|].
  cbn [for_each_stock]. rewrite fst_bind, writes_app, Hb.
  destruct (snd (body i stk)); [apply IH|reflexivity].
Qed.

(** A loop whose body asks for the stock's series once has asked, when it
    ends, for the series of the first stocks of the list, in order. *)
Lemma for_each_requests (todo : list stock) (i : nat) (acc : dict pyval) :
  (forall k stk, filter is_request (fst (body k stk))
                 = [Request (TimeSeriesDaily (av_symbol stk))]) ->
  exists rest,
    requests todo
    = filter is_request (fst (for_each_stock body i todo acc)) ++ rest.
Proof.
  intros Hb. revert i acc. induction todo as [|stk rest IH]; intros i acc.
  - exists []. reflexivity.
  - cbn [for_each_stock]. rewrite fst_bind, filter_app, Hb.
    cbn [requests map app]. fold (requests rest).
    destruct (snd (body i stk)) as [e|e].
    + destruct (IH (S i) (dict_set acc (ticker stk) e)) as [more Em].
      exists more. rewrite Em. reflexivity.
    + exists (requests rest). reflexivity.
Qed.

End TraceFacts.

Section RunTraces.
Context `{PyBuiltins}.

Lemma scripts_iteration_effects (existing : pyval) (resp : response) (n k : nat)
      (stk : stock) :
  writes (fst (Scripts.iteration existing resp n k stk)) = []
  /\ filter is_request (fst (Scripts.iteration existing resp n k stk))
     = [Request (TimeSeriesDaily (av_symbol stk))].
Proof.
  destruct (scripts_iteration_eq existing resp n k stk) as [log [Hlog E]].
  rewrite E. cbn [fst].
  assert (Hq := quiet_scripts_resolve existing stk (provided resp)).
  unfold quiet in Hq. split.
  - change (writes (?a :: ?b :: ?l)) with (writes l).
    rewrite !writes_app, (prints_write_nothing _ Hlog), (prints_write_nothing _ Hq).
    destruct (Z.of_nat k <? Z.of_nat n - 1); reflexivity.
  - change (filter is_request (?a :: ?b :: ?l)) with (b :: filter is_request l).
    rewrite !filter_app, (prints_request_nothing _ Hlog),
      (prints_request_nothing _ Hq).
    destruct (Z.of_nat k <? Z.of_nat n - 1); reflexivity.
Qed.

Lemma root_iteration_effects (existing : pyval) (resp : response) (stk : stock) :
  writes (fst (Root.iteration existing resp stk)) = []
  /\ filter is_request (fst (Root.iteration existing resp stk))
     = [Request (TimeSeriesDaily (av_symbol stk))].
Proof.
  destruct (root_iteration_eq existing resp stk) as [log [Hlog E]].
  rewrite E. cbn [fst].
  assert (Hq := quiet_root_resolve existing stk (provided resp)).
  unfold quiet in Hq. split.
  - change (writes (?a :: ?b :: ?l)) with (writes l).
    rewrite !writes_app, (prints_write_nothing _ Hlog), (prints_write_nothing _ Hq).
    reflexivity.
  - change (filter is_request (?a :: ?b :: ?l)) with (b :: filter is_request l).
    rewrite !filter_app, (prints_request_nothing _ Hlog),
      (prints_request_nothing _ Hq).
    reflexivity.
Qed.

Lemma scripts_main_aborted (cfg : list stock) (now : str) (pj : json_file)
      (index_html : html_file) (net : nat -> response) (existing : pyval)
      (t : list event) (e : exn) :
  load_existing pj = Ok existing ->
  Scripts.loop existing net (length cfg) 0 cfg [] = (t, Raise e) ->
  Scripts.main cfg now pj index_html net = (Print MsgBanner :: t, Raise e).
Proof.
  intros He Hl. unfold Scripts.main. rewrite He. cbn [emit lift bind app].
  rewrite Hl. reflexivity.
Qed.

Lemma root_main_aborted (cfg : list stock) (now : str) (pj : json_file)
      (net : nat -> response) (existing : pyval) (t : list event) (e : exn) :
  load_existing pj = Ok existing ->
  Root.loop existing net 0 cfg [] = (t, Raise e) ->
  Root.main cfg now pj net = (Print MsgBanner :: t, Raise e).
Proof.
  intros He Hl. unfold Root.main. rewrite He. cbn [emit lift bind app].
  rewrite Hl. reflexivity.
Qed.

(** The publisher asks the provider for nothing; it writes index.html at
    most once, and then it returns unless the text could not be encoded. *)
Lemma update_writes (index_html : html_file) (stocks : dict pyval) :
  (writes (fst (Scripts.update_index_html index_html stocks)) = []
   /\ filter is_request (fst (Scripts.update_index_html index_html stocks)) = [])
  \/ (exists text,
        Scripts.update_index_html index_html stocks
        = ([WriteHtml text; Print MsgUpdatedEmbedded], Ok tt))
  \/ Scripts.update_index_html index_html stocks
     = ([WriteHtml []], Raise UnicodeEncodeError).
Proof.
  destruct index_html as [|e|stored]; [left; split; reflexivity..|].
  unfold Scripts.update_index_html. cbn zeta.
  destruct (Scripts.new_prices stocks) as [block|e]; [|left; split; reflexivity].
  cbn [lift bind app].
  destruct (re_search (universal_newlines stored)) as [[[pre m] post]|] eqn:Es;
    [|left; split; reflexivity].
  unfold re_sub_first. rewrite Es.
  destruct (expand_template TText block m) as [text|e]; [|left; split; reflexivity].
  cbn [rbind bind app]. unfold Scripts.write_html.
  destruct (encodable (pre ++ text ++ post)).
  - right. left. eexists. reflexivity.
  - right. right. reflexivity.
Qed.

Lemma update_requests (index_html : html_file) (stocks : dict pyval) :
  filter is_request (fst (Scripts.update_index_html index_html stocks)) = [].
Proof.
  destruct (update_writes index_html stocks) as [[_ Hn]|[[text Eu]|Eu]];
    [exact Hn|rewrite Eu; reflexivity..].
Qed.

End RunTraces.

(** X3.  Files are written only after the loop.  A run of either [main]
    whose load or loop raises ends with the same exception and has written
    nothing; a run whose loop returns writes the JSON snapshot exactly
    once, and scripts/fetch_prices.py then writes index.html at most once,
    after the snapshot, and returns unless the new text could not be
    encoded, which leaves index.html empty.  fetch_prices.py never writes
    index.html. *)
Theorem files_written_after_the_loop `{PyBuiltins} (cfg : list stock) (now : str)
        (pj : json_file) (index_html : html_file) (net : nat -> response) :
  match load_existing pj with
  | Raise e =>
      Scripts.main cfg now pj index_html net = ([Print MsgBanner], Raise e)
      /\ Root.main cfg now pj net = ([Print MsgBanner], Raise e)
  | Ok existing =>
      match Scripts.loop existing net (length cfg) 0 cfg [] with
      | (t, Raise e) =>
          Scripts.main cfg now pj index_html net = (Print MsgBanner :: t, Raise e)
          /\ writes (Print MsgBanner :: t) = []
      | (_, Ok stocks) =>
          writes (fst (Scripts.main cfg now pj index_html net))
          = [WriteJson (snapshot now stocks)]
          \/ exists text,
               writes (fst (Scripts.main cfg now pj index_html net))
               = [WriteJson (snapshot now stocks); WriteHtml text]
               /\ (snd (Scripts.main cfg now pj index_html net) = Ok tt
                   \/ (text = []
                       /\ snd (Scripts.main cfg now pj index_html net)
                          = Raise UnicodeEncodeError))
      end
      /\ match Root.loop existing net 0 cfg [] with
         | (t, Raise e) =>
             Root.main cfg now pj net = (Print MsgBanner :: t, Raise e)
             /\ writes (Print MsgBanner :: t) = []
         | (_, Ok stocks) =>
             writes (fst (Root.main cfg now pj net))
             = [WriteJson (snapshot now stocks)]
         end
  end.
Proof.
  destruct (load_existing pj) as [existing|e0] eqn:He.
  2:{ split; [apply scripts_main_unloaded|apply root_main_unloaded]; exact He. }
  split.
  - assert (Hw : writes (fst (Scripts.loop existing net (length cfg)
                                0 cfg [])) = []).
    { unfold Scripts.loop. apply for_each_writes. intros k stk.
      apply scripts_iteration_effects. }
    destruct (Scripts.loop existing net (length cfg) 0 cfg [])
      as [t [stocks|e]] eqn:Hl; cbn [fst] in Hw.
    + rewrite (@main_run _ _ now _ index_html _ _ _ _ He Hl).
      destruct (update_writes index_html stocks) as [[Hn _]|[[text Eu]|Eu]].
      * left. destruct (Scripts.update_index_html index_html stocks)
          as [t' [[]|e]]; cbn [fst] in *;
          change (writes (Print MsgBanner :: ?l)) with (writes l);
          rewrite writes_app, Hw; cbn [app];
          change (writes (WriteJson ?s :: Print MsgWritten :: ?l))
            with (WriteJson s :: writes l);
          rewrite ?writes_app, Hn; reflexivity.
      * right. exists text. rewrite Eu. cbn [fst snd].
        change (writes (Print MsgBanner :: ?l)) with (writes l).
        rewrite writes_app, Hw. split; [reflexivity|left; reflexivity].
      * right. exists []. rewrite Eu. cbn [fst snd].
        change (writes (Print MsgBanner :: ?l)) with (writes l).
        rewrite writes_app, Hw. split; [reflexivity|right; split; reflexivity].
    + split; [eapply scripts_main_aborted; eassumption|exact Hw].
  - assert (Hw : writes (fst (Root.loop existing net 0 cfg [])) = []).
    { unfold Root.loop. apply for_each_writes. intros k stk.
      apply root_iteration_effects. }
    destruct (Root.loop existing net 0 cfg []) as [t [stocks|e]] eqn:Hl;
      cbn [fst] in Hw.
    + rewrite (@root_main_run _ _ now _ _ _ _ _ He Hl). cbn [fst].
      change (writes (Print MsgBanner :: ?l)) with (writes l).
      rewrite writes_app, Hw. reflexivity.
    + split; [eapply root_main_aborted; eassumption|exact Hw].
Qed.

(** X4.  However a run of either [main] ends, the requests it has made are
    the series of the first configured stocks, each once and in
    configuration order; no other request, the exchange rate included, is
    ever made. *)
Theorem requests_follow_the_configuration `{PyBuiltins} (cfg : list stock)
        (now : str) (pj : json_file) (index_html : html_file)
        (net : nat -> response) :
  (exists rest,
      requests cfg
      = filter is_request (fst (Scripts.main cfg now pj index_html net)) ++ rest)
  /\ (exists rest,
         requests cfg = filter is_request (fst (Root.main cfg now pj net)) ++ rest).
Proof.
  destruct (load_existing pj) as [existing|e0] eqn:He.
  2:{ split; exists (requests cfg);
        [rewrite (@scripts_main_unloaded _ cfg now pj index_html net e0 He)
        |rewrite (@root_main_unloaded _ cfg now pj net e0 He)]; reflexivity. }
  split.
  - destruct (@for_each_requests
                (fun k stk => Scripts.iteration existing (net k)
                                (length cfg) k stk) cfg 0%nat [])
      as [rest Er].
    { intros k stk. apply scripts_iteration_effects. }
    fold (Scripts.loop existing net (length cfg) 0 cfg []) in Er.
    destruct (Scripts.loop existing net (length cfg) 0 cfg [])
      as [t [stocks|e]] eqn:Hl; cbn [fst] in Er.
    + exists rest. rewrite (@main_run _ _ now _ index_html _ _ _ _ He Hl).
      assert (Hu := update_requests index_html stocks).
      destruct (Scripts.update_index_html index_html stocks) as [t' [[]|e]];
        cbn [fst] in *;
        change (filter is_request (Print MsgBanner :: ?l)) with (filter is_request l);
        rewrite filter_app;
        change (filter is_request (WriteJson ?s :: Print MsgWritten :: ?l))
          with (filter is_request l);
        rewrite ?filter_app, Hu; cbn [filter is_request app];
        rewrite app_nil_r; exact Er.
    + exists rest.
      rewrite (@scripts_main_aborted _ _ now _ index_html _ _ _ _ He Hl). exact Er.
  - destruct (@for_each_requests
                (fun k stk => Root.iteration existing (net k) stk)
                cfg 0%nat [])
      as [rest Er].
    { intros k stk. apply root_iteration_effects. }
    fold (Root.loop existing net 0 cfg []) in Er.
    destruct (Root.loop existing net 0 cfg []) as [t [stocks|e]] eqn:Hl;
      cbn [fst] in Er.
    + exists rest. rewrite (@root_main_run _ _ now _ _ _ _ _ He Hl). cbn [fst].
      change (filter is_request (Print MsgBanner :: ?l)) with (filter is_request l).
      rewrite filter_app. cbn [filter is_request]. rewrite app_nil_r. exact Er.
    + exists rest. rewrite (@root_main_aborted _ _ now _ _ _ _ _ He Hl). exact Er.
Qed.

(* ================================================================== *)
(** ** The prior snapshot *)

Section CacheFacts.
Context `{PyBuiltins}.

Lemma has_cached_falsy (existing : pyval) (tk : str) :
  py_truthy existing = false -> has_cached existing tk = Ok false.
Proof. intros Hf. unfold has_cached. rewrite Hf. reflexivity. Qed.

Lemma scripts_iteration_falsy (existing : pyval) (resp : response) (n k : nat)
      (stk : stock) :
  py_truthy existing = false ->
  Scripts.iteration existing resp n k stk = Scripts.iteration PNone resp n k stk.
Proof.
  intros Hf. unfold Scripts.iteration. apply bind_ext. intros ts.
  apply bind_ext. intros _. unfold Scripts.resolve, Scripts.absent_entry.
  rewrite (has_cached_falsy _ _ Hf). reflexivity.
Qed.

Lemma root_iteration_falsy (existing : pyval) (resp : response) (stk : stock) :
  py_truthy existing = false ->
  Root.iteration existing resp stk = Root.iteration PNone resp stk.
Proof.
  intros Hf. unfold Root.iteration. apply bind_ext. intros ts.
  apply bind_ext. intros _. unfold Root.resolve, Root.absent_entry.
  rewrite (has_cached_falsy _ _ Hf). reflexivity.
Qed.

(** With data fetched, a pass does not look at the prior snapshot. *)
Lemma scripts_iteration_fetched (existing existing' : pyval) (resp : response)
      (n k : nat) (stk : stock) :
  provided resp <> PNone ->
  Scripts.iteration existing resp n k stk = Scripts.iteration existing' resp n k stk.
Proof.
  intros Hp. unfold Scripts.iteration.
  destruct (scripts_fetch_daily resp (av_symbol stk)) as [l [El _]]. rewrite El.
  unfold Scripts.resolve. destruct (provided resp); [congruence|reflexivity..].
Qed.

Lemma root_iteration_fetched (existing existing' : pyval) (resp : response)
      (stk : stock) :
  provided resp <> PNone ->
  Root.iteration existing resp stk = Root.iteration existing' resp stk.
Proof.
  intros Hp. unfold Root.iteration.
  destruct (root_fetch_daily resp (av_symbol stk)) as [l [El _]]. rewrite El.
  unfold Root.resolve. destruct (provided resp); [congruence|reflexivity..].
Qed.

Lemma scripts_main_loop (cfg : list stock) (now : str) (pj pj' : json_file)
      (index_html : html_file) (net : nat -> response) (a b : pyval) :
  load_existing pj = Ok a ->
  load_existing pj' = Ok b ->
  Scripts.loop a net (length cfg) 0 cfg [] = Scripts.loop b net (length cfg) 0 cfg [] ->
  Scripts.main cfg now pj index_html net = Scripts.main cfg now pj' index_html net.
Proof.
  intros Ea Eb E. unfold Scripts.main. rewrite Ea, Eb. cbn [emit lift bind app].
  rewrite E. reflexivity.
Qed.

Lemma root_main_loop (cfg : list stock) (now : str) (pj pj' : json_file)
      (net : nat -> response) (a b : pyval) :
  load_existing pj = Ok a ->
  load_existing pj' = Ok b ->
  Root.loop a net 0 cfg [] = Root.loop b net 0 cfg [] ->
  Root.main cfg now pj net = Root.main cfg now pj' net.
Proof.
  intros Ea Eb E. unfold Root.main. rewrite Ea, Eb. cbn [emit lift bind app].
  rewrite E. reflexivity.
Qed.

End CacheFacts.

(** X5.  A prior snapshot that parses to a value that is empty in Python's
    sense ([null], [{}], [[]], [""], [0], [false]) makes no difference to a
    run: both files behave exactly as when the file does not exist. *)
Theorem empty_snapshot_is_no_snapshot `{PyBuiltins} (existing : pyval)
        (cfg : list stock) (now : str) (index_html : html_file)
        (net : nat -> response) :
  py_truthy existing = false ->
  Scripts.main cfg now (Parsed existing) index_html net
  = Scripts.main cfg now NoFile index_html net
  /\ Root.main cfg now (Parsed existing) net = Root.main cfg now NoFile net.
Proof.
  intros Hf. split.
  - apply (@scripts_main_loop _ cfg now (Parsed existing) NoFile index_html net
             existing PNone eq_refl eq_refl).
    unfold Scripts.loop. apply for_each_ext.
    intros k stk _. apply scripts_iteration_falsy. exact Hf.
  - apply (@root_main_loop _ cfg now (Parsed existing) NoFile net
             existing PNone eq_refl eq_refl).
    unfold Root.loop. apply for_each_ext.
    intros k stk _. apply root_iteration_falsy. exact Hf.
Qed.

Lemma empty_snapshot_is_no_snapshot_witness :
  @Scripts.main example_builtins Scripts.STOCKS (lit "2026-03-01 07:00 UTC")
    (Parsed (PDict [])) (Html page_with_block) mixed_answers
  = @Scripts.main example_builtins Scripts.STOCKS (lit "2026-03-01 07:00 UTC")
      NoFile (Html page_with_block) mixed_answers
  /\ @Root.main example_builtins Scripts.STOCKS (lit "2026-03-01 07:00 UTC")
       (Parsed (PDict [])) mixed_answers
     = @Root.main example_builtins Scripts.STOCKS (lit "2026-03-01 07:00 UTC")
         NoFile mixed_answers.
Proof.
  apply (@empty_snapshot_is_no_snapshot example_builtins (PDict []) Scripts.STOCKS
           (lit "2026-03-01 07:00 UTC") (Html page_with_block) mixed_answers).
  reflexivity.
Defined.

(** X6.  The prior snapshot, once loaded, is looked at only for a stock
    whose fetch yields no data: when every configured stock's fetch yields
    data, the run of either file is the same for any two files that
    [load_existing] can load, content of the wrong shape included. *)
Theorem snapshot_unused_when_all_fetched `{PyBuiltins} (cfg : list stock)
        (now : str) (pj pj' : json_file) (a b : pyval) (index_html : html_file)
        (net : nat -> response) :
  load_existing pj = Ok a ->
  load_existing pj' = Ok b ->
  (forall k stk, nth_error cfg k = Some stk -> provided (net k) <> PNone) ->
  Scripts.main cfg now pj index_html net = Scripts.main cfg now pj' index_html net
  /\ Root.main cfg now pj net = Root.main cfg now pj' net.
Proof.
  intros Ea Eb Hall. split.
  - apply (@scripts_main_loop _ cfg now pj pj' index_html net a b Ea Eb).
    unfold Scripts.loop. apply for_each_ext.
    intros k stk Hk. apply scripts_iteration_fetched. exact (Hall k stk Hk).
  - apply (@root_main_loop _ cfg now pj pj' net a b Ea Eb).
    unfold Root.loop. apply for_each_ext.
    intros k stk Hk. apply root_iteration_fetched. exact (Hall k stk Hk).
Qed.

Lemma snapshot_unused_when_all_fetched_witness :
  @Scripts.main example_builtins [example_stock] (lit "2026-03-01 07:00 UTC")
    (Parsed (PList [PInt 1])) NoHtml all_answered
  = @Scripts.main example_builtins [example_stock] (lit "2026-03-01 07:00 UTC")
      NoFile NoHtml all_answered
  /\ @Root.main example_builtins [example_stock] (lit "2026-03-01 07:00 UTC")
       (Parsed (PList [PInt 1])) all_answered
     = @Root.main example_builtins [example_stock] (lit "2026-03-01 07:00 UTC")
         NoFile all_answered.
Proof.
  apply (@snapshot_unused_when_all_fetched example_builtins [example_stock]
           (lit "2026-03-01 07:00 UTC") (Parsed (PList [PInt 1])) NoFile
           (PList [PInt 1]) PNone NoHtml all_answered).
  - reflexivity.
  - reflexivity.
  - intros k stk _ E. vm_compute in E. discriminate E.
Defined.

(* ================================================================== *)
(** ** The fetched series, further *)

Section SeriesFacts.
Context `{PyBuiltins}.

Lemma extract_daily_nothing_kept (its : dict pyval) (acc : dict float) :
  kept its = [] -> extract_daily its acc = Ok acc.
Proof.
  induction its as [|[d v] rest IH]; intros Hk; [reflexivity|].
  rewrite extract_daily_cons. unfold kept in Hk. cbn [filter fst] in Hk.
  destruct (str_geb d START_DATE); [discriminate|]. apply IH. exact Hk.
Qed.

Lemma kept_sorted_nil (items : dict pyval) :
  kept items = [] -> kept (sorted items) = [].
Proof.
  intros Hk. destruct (kept (sorted items)) as [|kv rest] eqn:E; [reflexivity|].
  assert (Hin : In kv (kept (sorted items))) by (rewrite E; left; reflexivity).
  apply (proj1 (kept_sorted_in _ _)) in Hin. rewrite Hk in Hin. destruct Hin.
Qed.

Lemma extract_daily_broken (its : dict pyval) (acc : dict float) :
  existsb (fun kv => str_geb (fst kv) START_DATE
                     && negb (is_ok (close_of (snd kv)))) its = true ->
  exists e, extract_daily its acc = Raise e.
Proof.
  revert acc. induction its as [|[d v] rest IH]; intros acc Hb; [discriminate|].
  cbn [existsb fst snd] in Hb. rewrite extract_daily_cons.
  destruct (str_geb d START_DATE); cbn [andb orb] in Hb.
  - destruct (close_of v) as [f|e]; cbn [is_ok negb orb rbind] in *.
    + apply IH. exact Hb.
    + exists e. reflexivity.
  - apply IH. exact Hb.
Qed.

(** The loop over the items appends the kept days in the order it meets
    them. *)
Lemma extract_daily_keys (its : dict pyval) (acc daily : dict float) :
  extract_daily its acc = Ok daily ->
  NoDup (keys its) ->
  (forall d, In d (keys its) -> ~ In d (keys acc)) ->
  keys daily = keys acc ++ keys (kept its).
Proof.
  revert acc. induction its as [|[d0 v0] rest IH]; intros acc He Hnd Hfresh.
  - cbn in He. apply ok_inj in He. subst daily. cbn. rewrite app_nil_r. reflexivity.
  - rewrite extract_daily_cons in He. cbn [keys map fst] in Hnd, Hfresh.
    inversion Hnd as [|x l Hx Hnd']; subst. fold (keys rest) in *.
    unfold kept. cbn [filter fst]. fold (kept rest).
    destruct (str_geb d0 START_DATE).
    + destruct (close_of v0) as [f0|e]; [|discriminate]. cbn [rbind] in He.
      rewrite (IH _ He Hnd').
      * rewrite keys_set_new by (apply Hfresh; left; reflexivity).
        cbn [keys map fst]. rewrite <- app_assoc. reflexivity.
      * intros d Hd. rewrite in_keys_set. intros [E|Hin].
        -- subst. exact (Hx Hd).
        -- apply (Hfresh d); [right; exact Hd|exact Hin].
    + apply IH; try assumption. intros d Hd. apply Hfresh. right. exact Hd.
Qed.

End SeriesFacts.

(** [sorted] puts the items in ascending order of their keys. *)
Lemma insert_by_key_sorted {V} (kv : str * V) (l : dict V) :
  StronglySorted (fun a b => str_leb (fst a) (fst b) = true) l ->
  StronglySorted (fun a b => str_leb (fst a) (fst b) = true) (insert_by_key kv l).
Proof.
  induction l as [|h t IH]; intros Hs; cbn [insert_by_key].
  - constructor; constructor.
  - inversion Hs as [|x l' Ht Hh]; subst.
    destruct (str_compare (fst h) (fst kv)) eqn:Ec.
    + constructor; [exact Hs|]. constructor.
      * unfold str_leb. rewrite (str_compare_antisym (fst h) (fst kv)), Ec.
        reflexivity.
      * apply str_compare_eq in Ec. rewrite <- Ec. exact Hh.
    + constructor; [apply IH; exact Ht|].
      apply (Permutation_Forall (Permutation_sym (insert_by_key_perm kv t))).
      constructor; [|exact Hh]. unfold str_leb. rewrite Ec. reflexivity.
    + assert (Hkh : str_leb (fst kv) (fst h) = true).
      { unfold str_leb. rewrite (str_compare_antisym (fst h) (fst kv)), Ec.
        reflexivity. }
      constructor; [exact Hs|]. constructor; [exact Hkh|].
      eapply Forall_impl; [|exact Hh]. intros x Hx. cbn beta in *.
      eapply str_leb_trans; eassumption.
Qed.

Lemma sorted_sorted {V} (l : dict V) :
  StronglySorted (fun a b => str_leb (fst a) (fst b) = true) (sorted l).
Proof.
  induction l as [|kv l IH]; cbn [sorted fold_right]; [constructor|].
  apply insert_by_key_sorted. exact IH.
Qed.

Lemma sorted_filter {A} (R : A -> A -> Prop) (f : A -> bool) (l : list A) :
  StronglySorted R l -> StronglySorted R (filter f l).
Proof.
  induction 1 as [|x l Hs IH Hx]; cbn [filter]; [constructor|].
  destruct (f x); [|exact IH]. constructor; [exact IH|].
  apply Forall_forall. intros y Hy. apply filter_In in Hy.
  rewrite Forall_forall in Hx. apply Hx. tauto.
Qed.

(** Keys in order and without repetition are in strictly ascending order. *)
Lemma ascending_keys {V} (l : dict V) :
  StronglySorted (fun a b => str_leb (fst a) (fst b) = true) l ->
  NoDup (keys l) -> ascending (keys l).
Proof.
  unfold ascending. induction 1 as [|x l Hs IH Hx]; intros Hnd; cbn [keys map];
    [constructor|].
  cbn [keys map] in Hnd. inversion Hnd as [|y l' Hy Hnd']; subst.
  constructor; [apply IH; exact Hnd'|].
  apply Forall_forall. intros k Hk. unfold keys in Hk. apply in_map_iff in Hk.
  destruct Hk as [kv [Ek Hkv]]. rewrite Forall_forall in Hx. specialize (Hx kv Hkv).
  unfold str_leb in Hx. subst k.
  destruct (str_compare (fst x) (fst kv)) eqn:Ec; try discriminate; [|reflexivity].
  exfalso. apply str_compare_eq in Ec. apply Hy. rewrite Ec.
  apply in_map. exact Hkv.
Qed.

Lemma str_leb_antisym (a b : str) :
  str_leb a b = true -> str_leb b a = true -> a = b.
Proof.
  unfold str_leb. rewrite (str_compare_antisym a b).
  destruct (str_compare a b) eqn:E; cbn [CompOpp]; try discriminate.
  intros _ _. apply str_compare_eq. exact E.
Qed.

Lemma ascending_last (l : list str) (x d : str) :
  ascending l -> In x l -> str_leb x (last l d) = true.
Proof.
  unfold ascending. induction 1 as [|y l Hs IH Hy]; intros Hin; [destruct Hin|].
  destruct l as [|z l'].
  - destruct Hin as [E|[]]. subst. apply str_leb_refl.
  - change (last (y :: z :: l') d) with (last (z :: l') d).
    destruct Hin as [E|Hin]; [|apply IH; exact Hin]. subst x.
    rewrite Forall_forall in Hy.
    assert (Hlast : In (last (z :: l') d) (z :: l')).
    { clear. revert z. induction l' as [|w l' IH]; intros z.
      - left. reflexivity.
      - right. apply IH. }
    specialize (Hy _ Hlast). unfold str_leb. rewrite Hy. reflexivity.
Qed.

Lemma strict_of_sorted {V} (l : dict V) :
  StronglySorted (fun a b => str_leb (fst a) (fst b) = true) l ->
  NoDup (keys l) ->
  StronglySorted (fun a b => str_compare (fst a) (fst b) = Lt) l.
Proof.
  induction 1 as [|x l Hs IH Hx]; intros Hnd; [constructor|].
  cbn [keys map] in Hnd. inversion Hnd as [|y l' Hy Hnd']; subst.
  constructor; [apply IH; exact Hnd'|].
  apply Forall_forall. intros kv Hkv. rewrite Forall_forall in Hx.
  specialize (Hx kv Hkv). unfold str_leb in Hx.
  destruct (str_compare (fst x) (fst kv)) eqn:Ec; try discriminate; [|reflexivity].
  exfalso. apply str_compare_eq in Ec. apply Hy. rewrite Ec.
  apply in_map. exact Hkv.
Qed.

(** Two lists in strictly ascending key order with the same elements are
    the same list. *)
Lemma strict_sorted_unique {V} (a b : dict V) :
  StronglySorted (fun x y => str_compare (fst x) (fst y) = Lt) a ->
  StronglySorted (fun x y => str_compare (fst x) (fst y) = Lt) b ->
  Permutation a b -> a = b.
Proof.
  intros Ha. revert b. induction Ha as [|x a Hsa IH Hx]; intros b Hb Hp.
  - apply Permutation_nil in Hp. symmetry. exact Hp.
  - destruct Hb as [|y b Hsb Hy].
    + apply Permutation_sym, Permutation_nil in Hp. discriminate.
    + assert (Exy : x = y).
      { assert (Hxin : In x (y :: b))
          by (apply (Permutation_in _ Hp); left; reflexivity).
        assert (Hyin : In y (x :: a))
          by (apply (Permutation_in _ (Permutation_sym Hp)); left; reflexivity).
        destruct Hxin as [E|Hxb]; [symmetry; exact E|].
        destruct Hyin as [E|Hya]; [exact E|].
        rewrite Forall_forall in Hx, Hy.
        specialize (Hx y Hya). specialize (Hy x Hxb).
        rewrite (str_compare_antisym (fst x) (fst y)), Hx in Hy. discriminate. }
      subst y. f_equal. apply IH; [exact Hsb|].
      apply Permutation_cons_inv in Hp. exact Hp.
Qed.

(** [sorted] does not depend on the order in which an object lists its
    keys. *)
Lemma sorted_of_permutation {V} (l l' : dict V) :
  Permutation l l' -> NoDup (keys l) -> sorted l = sorted l'.
Proof.
  intros Hp Hnd.
  assert (Hp' : Permutation (sorted l) (sorted l')).
  { rewrite (sorted_perm l), (sorted_perm l'). exact Hp. }
  assert (Hnd1 : NoDup (keys (sorted l))).
  { apply (Permutation_NoDup (l := keys l)); [|exact Hnd].
    unfold keys. apply Permutation_map, Permutation_sym, sorted_perm. }
  assert (Hnd2 : NoDup (keys (sorted l'))).
  { apply (Permutation_NoDup (l := keys (sorted l))); [|exact Hnd1].
    unfold keys. apply Permutation_map. exact Hp'. }
  apply strict_sorted_unique; [| |exact Hp'];
    apply strict_of_sorted; try assumption; apply sorted_sorted.
Qed.

Section DailyFacts.
Context `{PyBuiltins}.

(** [daily], for a series of the expected shape. *)
Lemma fresh_daily (items : dict pyval) :
  series_shaped (PDict items) = true ->
  exists daily,
    extract_daily (sorted items) [] = Ok daily
    /\ keys daily = keys (kept (sorted items))
    /\ ascending (keys daily)
    /\ (forall d, In d (keys daily) <-> In d (keys (kept items)))
    /\ (forall d v, In (d, v) (kept items) ->
          exists f, close_of v = Ok f /\ dict_get daily d = Some (round2 f)).
Proof.
  intros Hs. destruct (series_shaped_sorted _ Hs) as [Hnd Hall].
  destruct (extract_daily_total _ [] Hall) as [daily He].
  assert (Hk : keys daily = keys (kept (sorted items))).
  { rewrite (extract_daily_keys _ _ He Hnd); [reflexivity|intros d _ []]. }
  exists daily. split; [exact He|]. split; [exact Hk|]. split; [|split].
  - rewrite Hk. apply ascending_keys.
    + apply sorted_filter. apply sorted_sorted.
    + unfold kept.
      assert (Hsub : forall (l : dict pyval), NoDup (keys l) ->
                NoDup (keys (filter (fun kv => str_geb (fst kv) START_DATE) l))).
      { induction l as [|kv l IH]; intros Hn; [constructor|].
        cbn [keys map] in Hn. inversion Hn as [|x l' Hx Hn']; subst.
        cbn [filter]. destruct (str_geb (fst kv) START_DATE); [|apply IH; exact Hn'].
        cbn [keys map]. constructor; [|apply IH; exact Hn'].
        intros Hin. apply Hx. apply (kept_keys_in l). exact Hin. }
      apply Hsub. exact Hnd.
  - intros d. rewrite Hk. unfold keys. rewrite !in_map_iff.
    split; intros [kv [E Hkv]]; exists kv; (split; [exact E|]).
    + apply (proj1 (kept_sorted_in _ _)). exact Hkv.
    + apply (proj2 (kept_sorted_in _ _)). exact Hkv.
  - intros d v Hdv. destruct (extract_daily_spec _ _ He Hnd) as [_ Hin].
    apply Hin. apply (proj2 (kept_sorted_in _ _)). exact Hdv.
Qed.

End DailyFacts.

(** X7.  A fetched object without a day on or after the start date gives,
    in both files, the entry with the baseline as latest price, the integer
    0 as change, an empty series and no "error" field, whatever the records
    of the earlier days look like and even for a baseline of zero. *)
Theorem no_recent_day_entry `{PyBuiltins} (existing : pyval) (stk : stock)
        (items : dict pyval) :
  kept items = [] ->
  Scripts.resolve existing stk (PDict items)
  = ([Print (MsgNoYtd (ticker stk))],
     Ok (fresh_result stk (p0 stk) (PInt 0) []))
  /\ Root.resolve existing stk (PDict items)
     = ([Print (MsgNoYtd (ticker stk))],
        Ok (fresh_result stk (p0 stk) (PInt 0) []))
  /\ py_getitem (fresh_result stk (p0 stk) (PInt 0) []) (lit "error")
     = Raise KeyError.
Proof.
  intros Hk.
  assert (He : extract_daily (sorted items) [] = Ok []).
  { apply extract_daily_nothing_kept. apply kept_sorted_nil. exact Hk. }
  assert (E := fresh_entry_run stk items He). cbn iota in E.
  repeat split; exact E.
Qed.

Lemma no_recent_day_entry_witness :
  @Scripts.resolve example_builtins PNone free_stock (PDict last_year)
  = ([Print (MsgNoYtd (ticker free_stock))],
     Ok (fresh_result free_stock (p0 free_stock) (PInt 0) []))
  /\ @Root.resolve example_builtins PNone free_stock (PDict last_year)
     = ([Print (MsgNoYtd (ticker free_stock))],
        Ok (fresh_result free_stock (p0 free_stock) (PInt 0) []))
  /\ py_getitem (fresh_result free_stock (p0 free_stock) (PInt 0) []) (lit "error")
     = Raise KeyError.
Proof.
  apply (@no_recent_day_entry example_builtins PNone free_stock last_year).
  reflexivity.
Defined.

(** X8.  For a series of the expected shape and a baseline that is not
    zero, the "daily" object of the entry holds exactly the days on or
    after the start date, in strictly ascending date order, and the latest
    price of a non-empty series is the value of its last day. *)
Theorem daily_in_date_order `{PyBuiltins} (existing : pyval) (stk : stock)
        (items : dict pyval) :
  series_shaped (PDict items) = true ->
  is_zero (p0 stk) = false ->
  exists t latest ytd daily,
    Scripts.resolve existing stk (PDict items)
    = (t, Ok (fresh_result stk latest ytd daily))
    /\ Root.resolve existing stk (PDict items)
       = (t, Ok (fresh_result stk latest ytd daily))
    /\ ascending (keys daily)
    /\ (forall d, In d (keys daily) <-> In d (keys (kept items)))
    /\ (daily <> [] -> dict_get daily (last (keys daily) []) = Some latest).
Proof.
  intros Hs Hz.
  destruct (fresh_daily _ Hs) as [daily [He [Hk [Hasc [Hin Hval]]]]].
  assert (E := fresh_entry_run stk items He).
  destruct daily as [|kv daily'].
  - eexists; eexists; eexists; exists [].
    split; [exact E|]. split; [exact E|]. split; [exact Hasc|].
    split; [exact Hin|]. congruence.
  - assert (Hne : keys (kv :: daily') <> []) by discriminate.
    destruct (py_max_spec Hne) as [m [Em [Hm Hmax]]].
    assert (Hg : exists latest, dict_get (kv :: daily') m = Some latest).
    { apply dict_get_in in Hm. destruct (dict_get (kv :: daily') m) as [x|];
        [eauto|congruence]. }
    destruct Hg as [latest Hg].
    rewrite Em, Hg in E. unfold ytd_percent in E. rewrite Hz in E.
    eexists; eexists; eexists; exists (kv :: daily').
    split; [exact E|]. split; [exact E|]. split; [exact Hasc|].
    split; [exact Hin|]. intros _.
    assert (Hlast : In (last (keys (kv :: daily')) []) (keys (kv :: daily'))).
    { generalize (keys (kv :: daily')) Hne. clear.
      induction l as [|x l IH]; intros Hn; [congruence|].
      destruct l as [|y l']; [left; reflexivity|].
      right. apply IH. discriminate. }
    assert (Em' : m = last (keys (kv :: daily')) []).
    { apply str_leb_antisym.
      - apply ascending_last; assumption.
      - apply Hmax. exact Hlast. }
    rewrite <- Em'. exact Hg.
Qed.

Lemma daily_in_date_order_witness :
  exists t latest ytd daily,
    @Scripts.resolve example_builtins PNone example_stock (PDict example_series)
    = (t, Ok (fresh_result example_stock latest ytd daily))
    /\ @Root.resolve example_builtins PNone example_stock (PDict example_series)
       = (t, Ok (fresh_result example_stock latest ytd daily))
    /\ ascending (keys daily)
    /\ (forall d, In d (keys daily) <-> In d (keys (kept example_series)))
    /\ (daily <> [] -> dict_get daily (last (keys daily) []) = Some latest).
Proof.
  apply (@daily_in_date_order example_builtins PNone example_stock example_series).
  - vm_compute. reflexivity.
  - reflexivity.
Defined.

(** X9.  With a baseline of zero, a series of the expected shape that has
    a day on or after the start date makes the merge of both files raise
    ZeroDivisionError, and so the pass through the loop. *)
Theorem zero_baseline_raises `{PyBuiltins} (existing : pyval) (resp : response)
        (n k : nat) (stk : stock) (items : dict pyval) :
  provided resp = PDict items ->
  series_shaped (PDict items) = true ->
  kept items <> [] ->
  is_zero (p0 stk) = true ->
  Scripts.resolve existing stk (PDict items) = ([], Raise ZeroDivisionError)
  /\ Root.resolve existing stk (PDict items) = ([], Raise ZeroDivisionError)
  /\ (exists t, Scripts.iteration existing resp n k stk = (t, Raise ZeroDivisionError))
  /\ (exists t, Root.iteration existing resp stk = (t, Raise ZeroDivisionError)).
Proof.
  intros Hp Hs Hne Hz.
  destruct (fresh_daily _ Hs) as [daily [He [Hk [Hasc [Hin Hval]]]]].
  assert (E := fresh_entry_run stk items He).
  assert (Hd : keys daily <> []).
  { destruct (kept items) as [|[d v] rest] eqn:Ek; [congruence|].
    assert (Hdk : In d (keys daily)).
    { apply Hin. left. reflexivity. }
    intros En. rewrite En in Hdk. destruct Hdk. }
  destruct daily as [|kv daily']; [exfalso; apply Hd; reflexivity|].
  destruct (py_max_spec Hd) as [m [Em [Hm Hmax]]].
  apply dict_get_in in Hm.
  destruct (dict_get (kv :: daily') m) as [latest|] eqn:Hg; [|congruence].
  rewrite Em, Hg in E. unfold ytd_percent in E. rewrite Hz in E.
  split; [exact E|]. split; [exact E|]. split.
  - destruct (scripts_iteration_eq existing resp n k stk) as [log [_ Ei]].
    rewrite Ei, Hp. unfold Scripts.resolve. cbn [is_none]. rewrite E.
    eexists. reflexivity.
  - destruct (root_iteration_eq existing resp stk) as [log [_ Ei]].
    rewrite Ei, Hp. unfold Root.resolve. cbn [is_none]. rewrite E.
    eexists. reflexivity.
Qed.

Lemma zero_baseline_raises_witness :
  @Scripts.resolve example_builtins PNone free_stock (PDict example_series)
  = ([], Raise ZeroDivisionError)
  /\ @Root.resolve example_builtins PNone free_stock (PDict example_series)
     = ([], Raise ZeroDivisionError)
  /\ (exists t, @Scripts.iteration example_builtins PNone (all_answered 0%nat)
                  1 0 free_stock = (t, Raise ZeroDivisionError))
  /\ (exists t, @Root.iteration example_builtins PNone (all_answered 0%nat)
                  free_stock = (t, Raise ZeroDivisionError)).
Proof.
  apply (@zero_baseline_raises example_builtins PNone (all_answered 0%nat)
           1 0 free_stock example_series).
  - reflexivity.
  - vm_compute. reflexivity.
  - intros E. vm_compute in E. discriminate E.
  - reflexivity.
Defined.

(* ================================================================== *)
(** ** A series the merge cannot read *)

Section BrokenFacts.
Context `{PyBuiltins}.

Lemma fresh_entry_broken (stk : stock) (ts : pyval) :
  broken_series ts = true ->
  exists e, fresh_entry stk ts = ([], Raise e)
            /\ match ts with PDict _ => True | _ => e = AttributeError end.
Proof.
  intros Hb. destruct ts as [| b | z | f | s | l | items]; try discriminate;
    try (exists AttributeError; split; reflexivity).
  cbn [broken_series] in Hb.
  assert (Hs : existsb (fun kv => str_geb (fst kv) START_DATE
                                  && negb (is_ok (close_of (snd kv))))
                       (sorted items) = true).
  { apply existsb_exists in Hb. destruct Hb as [kv [Hin Hkv]].
    apply existsb_exists. exists kv. split; [|exact Hkv].
    apply (Permutation_in _ (Permutation_sym (sorted_perm items))). exact Hin. }
  destruct (extract_daily_broken _ [] Hs) as [e He].
  exists e. split; [|exact I].
  unfold fresh_entry. cbn [py_items lift bind]. rewrite He. reflexivity.
Qed.

Lemma broken_not_none (ts : pyval) : broken_series ts = true -> is_none ts = false.
Proof. destruct ts; [discriminate|reflexivity..]. Qed.

End BrokenFacts.

(** The loop stops at the first pass that raises: the stocks after it are
    never asked for. *)
Section AbortFacts.
Variable body : nat -> stock -> M pyval.
Hypothesis one_call :
  forall k stk, filter is_request (fst (body k stk))
                = [Request (TimeSeriesDaily (av_symbol stk))].

Lemma for_each_raises (todo : list stock) (i : nat) (acc : dict pyval)
      (k : nat) (stk : stock) (e : exn) :
  nth_error todo k = Some stk ->
  snd (body (i + k)%nat stk) = Raise e ->
  exists t e', for_each_stock body i todo acc = (t, Raise e')
               /\ (calls t <= S k)%nat.
Proof.
  revert i acc k. induction todo as [|s rest IH]; intros i acc k Hk Hb.
  - destruct k; discriminate.
  - cbn [for_each_stock]. assert (Hc := one_call i s).
    destruct k as [|k].
    + cbn [nth_error] in Hk. apply some_inj in Hk. subst s.
      rewrite Nat.add_0_r in Hb.
      destruct (body i stk) as [t1 r]. cbn [fst snd] in *. subst r.
      exists t1, e. split; [reflexivity|]. unfold calls. rewrite Hc. cbn. lia.
    + cbn [nth_error] in Hk. rewrite Nat.add_succ_r in Hb.
      destruct (body i s) as [t1 [v|e1]]; cbn [fst] in Hc.
      * destruct (IH (S i) (dict_set acc (ticker s) v) k Hk Hb) as [t2 [e' [E2 Hc2]]].
        exists (t1 ++ t2), e'. split.
        -- unfold bind. rewrite E2. reflexivity.
        -- unfold calls in *. rewrite filter_app, length_app, Hc. cbn [length]. lia.
      * exists t1, e1. split; [reflexivity|]. unfold calls. rewrite Hc. cbn. lia.
Qed.

End AbortFacts.

(** X10.  A fetched value that is not a JSON object, or an object with a
    day on or after the start date whose record has no readable
    "4. close", makes the merge of both files raise, leaving no entry for
    the stock; a value that is not an object raises AttributeError. *)
Theorem broken_series_raises `{PyBuiltins} (existing : pyval) (resp : response)
        (n k : nat) (stk : stock) :
  broken_series (provided resp) = true ->
  exists e,
    Scripts.resolve existing stk (provided resp) = ([], Raise e)
    /\ Root.resolve existing stk (provided resp) = ([], Raise e)
    /\ (exists t, Scripts.iteration existing resp n k stk = (t, Raise e))
    /\ (exists t, Root.iteration existing resp stk = (t, Raise e))
    /\ match provided resp with PDict _ => True | _ => e = AttributeError end.
Proof.
  intros Hb. destruct (fresh_entry_broken stk _ Hb) as [e [Ee Hk]].
  assert (Hn := broken_not_none _ Hb).
  assert (Es : Scripts.resolve existing stk (provided resp) = ([], Raise e)).
  { unfold Scripts.resolve. rewrite Hn. exact Ee. }
  assert (Er : Root.resolve existing stk (provided resp) = ([], Raise e)).
  { unfold Root.resolve. rewrite Hn. exact Ee. }
  exists e. split; [exact Es|]. split; [exact Er|]. split; [|split; [|exact Hk]].
  - destruct (scripts_iteration_eq existing resp n k stk) as [log [_ Ei]].
    rewrite Ei, Es. eexists. reflexivity.
  - destruct (root_iteration_eq existing resp stk) as [log [_ Ei]].
    rewrite Ei, Er. eexists. reflexivity.
Qed.

Lemma broken_series_raises_witness :
  exists e,
    @Scripts.resolve example_builtins PNone example_stock
      (provided (Payload (PDict [ (TIME_SERIES_KEY, PDict no_close) ])))
    = ([], Raise e)
    /\ @Root.resolve example_builtins PNone example_stock
         (provided (Payload (PDict [ (TIME_SERIES_KEY, PDict no_close) ])))
       = ([], Raise e)
    /\ (exists t, @Scripts.iteration example_builtins PNone
                    (Payload (PDict [ (TIME_SERIES_KEY, PDict no_close) ]))
                    1 0 example_stock = (t, Raise e))
    /\ (exists t, @Root.iteration example_builtins PNone
                    (Payload (PDict [ (TIME_SERIES_KEY, PDict no_close) ]))
                    example_stock = (t, Raise e))
    /\ match provided (Payload (PDict [ (TIME_SERIES_KEY, PDict no_close) ])) with
       | PDict _ => True
       | _ => e = AttributeError
       end.
Proof.
  apply (@broken_series_raises example_builtins PNone
           (Payload (PDict [ (TIME_SERIES_KEY, PDict no_close) ]))
           1 0 example_stock).
  reflexivity.
Defined.

(** X11.  One unreadable series loses the whole run: when the value fetched
    for the stock at position [k] cannot be merged, [main] of both files
    ends with an exception, has written neither file, and has asked the
    provider for at most the first [k + 1] stocks. *)
Theorem unreadable_series_aborts_the_run `{PyBuiltins} (cfg : list stock)
        (now : str) (pj : json_file) (index_html : html_file)
        (net : nat -> response) (k : nat) (stk : stock) :
  nth_error cfg k = Some stk ->
  broken_series (provided (net k)) = true ->
  (exists t e, Scripts.main cfg now pj index_html net = (t, Raise e)
               /\ writes t = [] /\ (calls t <= S k)%nat)
  /\ (exists t e, Root.main cfg now pj net = (t, Raise e)
                  /\ writes t = [] /\ (calls t <= S k)%nat).
Proof.
  intros Hk Hb. destruct (load_existing pj) as [existing|e0] eqn:Hload.
  2:{ split; exists [Print MsgBanner], e0;
        (split; [|split; [reflexivity|cbn; lia]]);
        [apply scripts_main_unloaded|apply root_main_unloaded]; exact Hload. }
  destruct (fresh_entry_broken stk _ Hb) as [e [Ee _]].
  assert (Hn := broken_not_none _ Hb). split.
  - assert (Hi : snd (Scripts.iteration existing (net (0 + k)%nat)
                        (length cfg) (0 + k) stk) = Raise e).
    { destruct (scripts_iteration_eq existing (net k) (length cfg) k stk)
        as [log [_ Ei]].
      cbn [Nat.add]. rewrite Ei. unfold Scripts.resolve. rewrite Hn, Ee. reflexivity. }
    destruct (@for_each_raises
                (fun k stk => Scripts.iteration existing (net k)
                                (length cfg) k stk)
                (fun k stk => proj2 (scripts_iteration_effects _ _ _ _ _))
                cfg 0%nat [] k stk e Hk Hi) as [t [e' [El Hc]]].
    assert (Hw : writes (fst (Scripts.loop existing net (length cfg)
                                0 cfg [])) = []).
    { unfold Scripts.loop. apply for_each_writes. intros j s.
      apply scripts_iteration_effects. }
    fold (Scripts.loop existing net (length cfg) 0 cfg []) in El.
    rewrite El in Hw. cbn [fst] in Hw.
    exists (Print MsgBanner :: t), e'.
    split; [eapply scripts_main_aborted; eassumption|]. split; [exact Hw|exact Hc].
  - assert (Hi : snd (Root.iteration existing (net (0 + k)%nat) stk)
                 = Raise e).
    { destruct (root_iteration_eq existing (net k) stk) as [log [_ Ei]].
      cbn [Nat.add]. rewrite Ei. unfold Root.resolve. rewrite Hn, Ee. reflexivity. }
    destruct (@for_each_raises
                (fun k stk => Root.iteration existing (net k) stk)
                (fun k stk => proj2 (root_iteration_effects _ _ _))
                cfg 0%nat [] k stk e Hk Hi) as [t [e' [El Hc]]].
    assert (Hw : writes (fst (Root.loop existing net 0 cfg [])) = []).
    { unfold Root.loop. apply for_each_writes. intros j s.
      apply root_iteration_effects. }
    fold (Root.loop existing net 0 cfg []) in El.
    rewrite El in Hw. cbn [fst] in Hw.
    exists (Print MsgBanner :: t), e'.
    split; [eapply root_main_aborted; eassumption|]. split; [exact Hw|exact Hc].
Qed.

Lemma unreadable_series_aborts_the_run_witness :
  (exists t e,
      @Scripts.main example_builtins [hood; example_stock] (lit "now") NoFile NoHtml
        (fun _ => Payload (PDict [ (TIME_SERIES_KEY, PDict no_close) ]))
      = (t, Raise e)
      /\ writes t = [] /\ (calls t <= 1)%nat)
  /\ (exists t e,
         @Root.main example_builtins [hood; example_stock] (lit "now") NoFile
           (fun _ => Payload (PDict [ (TIME_SERIES_KEY, PDict no_close) ]))
         = (t, Raise e)
         /\ writes t = [] /\ (calls t <= 1)%nat).
Proof.
  apply (@unreadable_series_aborts_the_run example_builtins [hood; example_stock]
           (lit "now") NoFile NoHtml
           (fun _ => Payload (PDict [ (TIME_SERIES_KEY, PDict no_close) ]))
           0%nat hood).
  - reflexivity.
  - reflexivity.
Defined.

(* ================================================================== *)
(** ** The order of the provider's days *)

Section OrderFacts.
Context `{PyBuiltins}.

Lemma fresh_entry_sorted (stk : stock) (items items' : dict pyval) :
  sorted items = sorted items' ->
  fresh_entry stk (PDict items) = fresh_entry stk (PDict items').
Proof.
  intros E. unfold fresh_entry. cbn [py_items lift bind]. rewrite E. reflexivity.
Qed.

End OrderFacts.

(** X12.  The entry of a stock does not depend on the order in which the
    provider lists the days of its series: two objects with the same
    members, keyed by distinct dates, give the same result and the same
    console output in both files. *)
Theorem day_order_is_irrelevant `{PyBuiltins} (existing : pyval) (stk : stock)
        (items items' : dict pyval) :
  Permutation items items' ->
  NoDup (keys items) ->
  Scripts.resolve existing stk (PDict items)
  = Scripts.resolve existing stk (PDict items')
  /\ Root.resolve existing stk (PDict items)
     = Root.resolve existing stk (PDict items').
Proof.
  intros Hp Hnd.
  assert (E := @fresh_entry_sorted _ stk items items'
                 (sorted_of_permutation Hp Hnd)).
  split; exact E.
Qed.

Lemma day_order_is_irrelevant_witness :
  @Scripts.resolve example_builtins PNone example_stock (PDict example_series)
  = @Scripts.resolve example_builtins PNone example_stock
      (PDict (rev example_series))
  /\ @Root.resolve example_builtins PNone example_stock (PDict example_series)
     = @Root.resolve example_builtins PNone example_stock
         (PDict (rev example_series)).
Proof.
  apply (@day_order_is_irrelevant example_builtins PNone example_stock
           example_series (rev example_series)).
  - apply Permutation_rev.
  - apply nodupb_nodup. reflexivity.
Defined.

(* ================================================================== *)
(** ** Entries the publisher cannot render, and entries without "p1" *)

Section RenderFacts.
Context `{PyBuiltins}.

Lemma render_entry_unrenderable (tk : str) (sd : pyval) :
  renderable sd = false ->
  exists e, Scripts.render_entry tk sd = Raise e
            /\ (e = KeyError \/ e = AttributeError).
Proof.
  unfold renderable, Scripts.render_entry.
  destruct sd as [| b | z | f | s | l | d]; intros Hr;
    try (exists AttributeError; split; [reflexivity|right; reflexivity]).
  cbn [py_get py_getitem rbind].
  destruct (dict_get d (lit "p0")) as [a|]; cbn [rbind].
  - destruct (dict_get d (lit "currency")) as [c|]; [discriminate|].
    exists KeyError. split; [reflexivity|left; reflexivity].
  - exists KeyError. split; [reflexivity|left; reflexivity].
Qed.

Lemma render_entries_unrenderable (stocks : dict pyval) (tk : str) (sd : pyval) :
  In (tk, sd) stocks ->
  renderable sd = false ->
  exists e, Scripts.render_entries stocks = Raise e
            /\ (e = KeyError \/ e = AttributeError).
Proof.
  induction stocks as [|[tk0 sd0] rest IH]; intros Hin Hr; [destruct Hin|].
  cbn [Scripts.render_entries].
  destruct (renderable sd0) eqn:E0.
  - destruct (render_entry_ok tk0 sd0 E0) as [ls El]. rewrite El.
    cbn [rbind]. destruct Hin as [E|Hin].
    + apply pair_equal_spec in E. destruct E as [_ E]. subst sd0. congruence.
    + destruct (IH Hin Hr) as [e [Ee He]]. rewrite Ee. exists e.
      split; [reflexivity|exact He].
  - destruct (render_entry_unrenderable tk0 sd0 E0) as [e [Ee He]]. rewrite Ee.
    exists e. split; [reflexivity|exact He].
Qed.

Lemma update_unrenderable (stored : str) (stocks : dict pyval) (tk : str)
      (sd : pyval) :
  In (tk, sd) stocks ->
  renderable sd = false ->
  exists e, Scripts.update_index_html (Html stored) stocks = ([], Raise e)
            /\ (e = KeyError \/ e = AttributeError).
Proof.
  intros Hin Hr. destruct (render_entries_unrenderable _ _ _ Hin Hr) as [e [Ee He]].
  exists e. split; [|exact He].
  unfold Scripts.update_index_html, Scripts.new_prices. rewrite Ee. reflexivity.
Qed.

End RenderFacts.

(** X13.  The publisher reads "p1" with the entry's "p0" as default: an
    entry without "p1" is rendered exactly as the same entry with "p1" set
    to its "p0", so the placeholder of fetch_prices.py (which has no "p1")
    is rendered as the placeholder of scripts/fetch_prices.py. *)
Theorem missing_p1_renders_as_p0 `{PyBuiltins} (tk : str) (d : dict pyval)
        (a : pyval) :
  dict_get d (lit "p1") = None ->
  dict_get d (lit "p0") = Some a ->
  Scripts.render_entry tk (PDict d)
  = Scripts.render_entry tk (PDict (dict_set d (lit "p1") a))
  /\ forall stk, Scripts.render_entry tk (Root.placeholder stk)
                 = Scripts.render_entry tk (Scripts.placeholder stk).
Proof.
  intros H1 H0. split; [|intros stk; reflexivity].
  unfold Scripts.render_entry. cbn [py_get py_getitem].
  rewrite dict_get_set_same.
  rewrite !dict_get_set_other by (intros E; vm_compute in E; discriminate E).
  rewrite H1, H0. reflexivity.
Qed.

Lemma missing_p1_renders_as_p0_witness :
  @Scripts.render_entry example_builtins (lit "HOOD")
    (PDict [ (lit "p0", PInt 115); (lit "currency", PStr (lit "USD")) ])
  = @Scripts.render_entry example_builtins (lit "HOOD")
      (PDict (dict_set [ (lit "p0", PInt 115); (lit "currency", PStr (lit "USD")) ]
                (lit "p1") (PInt 115)))
  /\ forall stk, @Scripts.render_entry example_builtins (lit "HOOD")
                   (Root.placeholder stk)
                 = @Scripts.render_entry example_builtins (lit "HOOD")
                     (Scripts.placeholder stk).
Proof.
  apply (@missing_p1_renders_as_p0 example_builtins (lit "HOOD")
           [ (lit "p0", PInt 115); (lit "currency", PStr (lit "USD")) ]
           (PInt 115)).
  - reflexivity.
  - reflexivity.
Defined.

(** X14.  An entry that is not an object with "p0" and "currency" (it can
    only come from the prior snapshot) stops scripts/fetch_prices.py in the
    publisher, whether or not the page has a block: the run has written
    the JSON snapshot, raises KeyError or AttributeError before touching
    index.html, and never prints its closing line. *)
Theorem unrenderable_entry_stops_the_publisher `{PyBuiltins} (cfg : list stock)
        (now : str) (pj : json_file) (existing : pyval) (stored : str)
        (net : nat -> response) (t : list event) (stocks : dict pyval)
        (tk : str) (sd : pyval) :
  load_existing pj = Ok existing ->
  Scripts.loop existing net (length cfg) 0 cfg [] = (t, Ok stocks) ->
  In (tk, sd) stocks ->
  renderable sd = false ->
  exists e,
    (e = KeyError \/ e = AttributeError)
    /\ Scripts.main cfg now pj (Html stored) net
       = (Print MsgBanner :: t ++ [WriteJson (snapshot now stocks); Print MsgWritten],
          Raise e).
Proof.
  intros Hload Hl Hin Hr.
  destruct (update_unrenderable stored _ _ _ Hin Hr) as [e [Ee He]].
  exists e. split; [exact He|].
  rewrite (@main_run _ _ now _ (Html stored) _ _ _ _ Hload Hl), Ee. reflexivity.
Qed.

Lemma unrenderable_entry_stops_the_publisher_witness :
  exists t stocks e,
    (e = KeyError \/ e = AttributeError)
    /\ @Scripts.main example_builtins [hood] (lit "now") odd_snapshot
         (Html page_without_block) no_answer
       = (Print MsgBanner :: t ++ [WriteJson (snapshot (lit "now") stocks);
                                   Print MsgWritten],
          Raise e).
Proof.
  assert (Hr : exists t stocks,
             @Scripts.loop example_builtins
               (PDict [ (lit "stocks", PDict [ (lit "HOOD", PInt 5) ]) ]) no_answer
               (length [hood]) 0 [hood] [] = (t, Ok stocks)
             /\ In (lit "HOOD", PInt 5) stocks).
  { vm_compute. eexists. eexists. split; [reflexivity|]. left. reflexivity. }
  destruct Hr as [t [stocks [Hl Hin]]].
  destruct (@unrenderable_entry_stops_the_publisher example_builtins [hood]
              (lit "now") odd_snapshot
              (PDict [ (lit "stocks", PDict [ (lit "HOOD", PInt 5) ]) ])
              page_without_block no_answer t stocks
              (lit "HOOD") (PInt 5) eq_refl Hl Hin eq_refl) as [e [He Hm]].
  exists t, stocks, e. split; assumption.
Defined.

(* ================================================================== *)
(** ** Backslashes in the rendered block *)

Lemma expand_template_prefix (a r m : str) :
  no_backslash a = true ->
  expand_template TText (a ++ r) m
  = rbind (expand_template TText r m) (fun out => Ok (a ++ out)).
Proof.
  induction a as [|c a IH]; intros Hn.
  - cbn [app]. destruct (expand_template TText r m); reflexivity.
  - cbn [no_backslash forallb] in Hn. apply andb_true_iff in Hn.
    destruct Hn as [Hc Hn]. apply negb_true_iff in Hc.
    change ((c :: a) ++ r) with (c :: (a ++ r)). cbn [expand_template].
    rewrite Hc. unfold no_backslash in IH. rewrite (IH Hn).
    destruct (expand_template TText r m); reflexivity.
Qed.

Lemma first_escape_split (s : str) (e : ascii) :
  first_escape s = Some e ->
  exists a r, s = a ++ backslash :: e :: r /\ no_backslash a = true.
Proof.
  induction s as [|c s IH]; [discriminate|]. cbn [first_escape].
  destruct (Ascii.eqb c backslash) eqn:Ec.
  - apply Ascii.eqb_eq in Ec. subst c. destruct s as [|e' r]; [discriminate|].
    intros E. apply some_inj in E. subst e'. exists [], r. split; reflexivity.
  - intros E. destruct (IH E) as [a [r [Es Ha]]]. exists (c :: a), r. split.
    + rewrite Es. reflexivity.
    + cbn [no_backslash forallb]. rewrite Ec. exact Ha.
Qed.

Lemma letter_is_no_digit (e : ascii) :
  is_ascii_letter e = true -> Ascii.eqb e "0"%char = false /\ is_digit e = false.
Proof.
  destruct e as [[] [] [] [] [] [] [] []]; vm_compute; intros E; split;
    congruence.
Qed.

Lemma no_escape_letter_raises (e : ascii) (r m : str) :
  no_escape_letter e = true ->
  expand_template TText (backslash :: e :: r) m = Raise ReError.
Proof.
  unfold no_escape_letter. intros Hn. apply andb_true_iff in Hn.
  destruct Hn as [Hn He]. apply andb_true_iff in Hn. destruct Hn as [Hl Hg].
  apply negb_true_iff in Hg. destruct (letter_is_no_digit e Hl) as [H0 Hd].
  cbn [expand_template]. rewrite Ascii.eqb_refl, Hg, H0, Hd, Hl.
  destruct (template_escape e); [discriminate|reflexivity].
Qed.

(** X15.  The rendered block is handed to [re.sub] as a replacement
    template.  When its first backslash is followed by an ASCII letter that
    is no template escape (any letter but a, b, f, g, n, r, t, v), the
    publisher raises [re.error] on a page that has a block, and index.html
    is left as it was. *)
Theorem unknown_escape_leaves_the_page `{PyBuiltins} (stored : str)
        (stocks : dict pyval) (block : str) (e : ascii) :
  has_block (universal_newlines stored) ->
  Scripts.new_prices stocks = Ok block ->
  first_escape block = Some e ->
  no_escape_letter e = true ->
  Scripts.update_index_html (Html stored) stocks = ([], Raise ReError).
Proof.
  intros Hb Hn Hf He. apply re_search_complete in Hb.
  destruct (re_search (universal_newlines stored)) as [[[pre m] post]|] eqn:Hs;
    [|congruence].
  destruct (first_escape_split _ Hf) as [a [r [Eb Ha]]].
  unfold Scripts.update_index_html, re_sub_first. cbn zeta. rewrite Hn, Hs.
  cbn [lift bind]. rewrite Eb. rewrite expand_template_prefix by exact Ha.
  rewrite no_escape_letter_raises by exact He. reflexivity.
Qed.

Lemma unknown_escape_leaves_the_page_witness :
  @Scripts.update_index_html example_builtins (Html page_with_block)
    [ (lit "ASML", PDict [ (lit "p0", PInt 1);
                           (lit "currency", PStr (lit "\u20ac")) ]) ]
  = ([], Raise ReError).
Proof.
  eapply (@unknown_escape_leaves_the_page example_builtins page_with_block
            [ (lit "ASML", PDict [ (lit "p0", PInt 1);
                                   (lit "currency", PStr (lit "\u20ac")) ]) ]
            _ "u"%char).
  - exists (lit "<script>" ++ [LF]), ([LF] ++ lit "  stale"), ([LF] ++ lit "</script>").
    reflexivity.
  - reflexivity.
  - reflexivity.
  - reflexivity.
Defined.

(* ================================================================== *)
(** ** The change of a stock that stands at its baseline *)

Lemma fsub_self (s : bool) (m : positive) (e : Z) :
  fsub (S754_finite s m e) (S754_finite s m e) = S754_zero false.
Proof.
  unfold fsub, SFsub. cbv zeta. rewrite Z.sub_diag. reflexivity.
Qed.

(** X16.  The change of a stock whose latest price equals its baseline:
    a finite baseline that is not zero gives a zero with the sign of the
    baseline (-0.0 for a negative one), with no rounding residue; an
    infinite or not-a-number baseline gives not-a-number; a baseline of
    zero raises ZeroDivisionError. *)
Theorem change_at_the_baseline (p : float) :
  ytd_percent p p
  = match p with
    | S754_zero _ => Raise ZeroDivisionError
    | S754_finite s _ _ => Ok (S754_zero s)
    | S754_infinity _ | S754_nan => Ok S754_nan
    end.
Proof.
  destruct p as [s | s | | s m e]; try reflexivity.
  - destruct s; reflexivity.
  - unfold ytd_percent. cbn [is_zero]. rewrite fsub_self.
    unfold fdiv, fmul. cbn [SFdiv xorb].
    destruct (of_Z 100) as [b | b | | b m' e'] eqn:E100; vm_compute in E100;
      try discriminate E100.
    assert (Eb : b = false) by congruence. subst b.
    cbn [SFmul round2]. destruct s; reflexivity.
Qed.

(* ================================================================== *)
(** ** A text the locale cannot encode *)

(** X17.  On a page that, as read, has a block, when the rendered block
    holds no backslash and the regenerated text holds a character the
    locale's encoding cannot represent, the publisher has emptied
    index.html when it raises UnicodeEncodeError, and the run, which wrote
    the JSON snapshot before, ends with that exception. *)
Theorem unencodable_text_empties_the_page `{PyBuiltins} (stored : str)
        (stocks : dict pyval) (block : str) :
  has_block (universal_newlines stored) ->
  Scripts.new_prices stocks = Ok block ->
  no_backslash block = true ->
  encodable (regenerated (universal_newlines stored) block) = false ->
  Scripts.update_index_html (Html stored) stocks
  = ([WriteHtml []], Raise UnicodeEncodeError)
  /\ forall cfg now pj existing net t,
       load_existing pj = Ok existing ->
       Scripts.loop existing net (length cfg) 0 cfg [] = (t, Ok stocks) ->
       Scripts.main cfg now pj (Html stored) net
       = (Print MsgBanner :: t ++
            [WriteJson (snapshot now stocks); Print MsgWritten; WriteHtml []],
          Raise UnicodeEncodeError).
Proof.
  intros Hb Hn Hlit Henc. apply re_search_complete in Hb. unfold regenerated in Henc.
  destruct (re_search (universal_newlines stored)) as [[[pre m] post]|] eqn:Es;
    [|congruence].
  assert (Hu : Scripts.update_index_html (Html stored) stocks
               = ([WriteHtml []], Raise UnicodeEncodeError)).
  { rewrite (@update_replaces _ _ _ _ _ _ _ _ Hn Es
               (expand_template_literal block _ Hlit)), Henc.
    reflexivity. }
  split; [exact Hu|].
  intros cfg now pj existing net t Hload Hl.
  rewrite (@main_run _ _ now _ (Html stored) _ _ _ _ Hload Hl), Hu. reflexivity.
Qed.

Lemma unencodable_text_empties_the_page_witness :
  @Scripts.update_index_html ascii_builtins (Html page_with_block) accent_stocks
  = ([WriteHtml []], Raise UnicodeEncodeError)
  /\ forall cfg now pj existing net t,
       load_existing pj = Ok existing ->
       @Scripts.loop ascii_builtins existing net (length cfg) 0 cfg []
       = (t, Ok accent_stocks) ->
       @Scripts.main ascii_builtins cfg now pj (Html page_with_block) net
       = (Print MsgBanner :: t ++
            [WriteJson (snapshot now accent_stocks); Print MsgWritten;
             WriteHtml []],
          Raise UnicodeEncodeError).
Proof.
  eapply (@unencodable_text_empties_the_page ascii_builtins page_with_block
            accent_stocks).
  - exists (lit "<script>" ++ [LF]), ([LF] ++ lit "  stale"), ([LF] ++ lit "</script>").
    reflexivity.
  - vm_compute. reflexivity.
  - vm_compute. reflexivity.
  - vm_compute. reflexivity.
Defined.
